(** * Secretary AI backend: alert lifecycle and notification dispatch

    A shallow embedding of the alert engine of the backend
    (models, [AlertService], [CalendarService], the alerts router and the
    [BackgroundTaskManager] tasks) together with the properties stated about
    it.

    Conventions of the embedding:
    - a table is the list of its rows, in insertion order; an ORM object is
      an alias of the row with its primary key, so an attribute assignment
      followed by [db.commit()] is an update of the rows with that key;
    - instants are integers (seconds on one time line); [timedelta] values
      are integers too (seconds); a call reads the clock and does not move
      it, time passes between calls; the columns hold UTC instants, and a
      naive local [datetime] passed to a query is compared with a column
      as it stands: no conversion takes place, its wall-clock reading
      counts as an instant of that time line;
    - [datetime] arithmetic stays within the range of [datetime]: an
      [OverflowError] is not part of the model;
    - [db.commit()] succeeds: a failing database is not part of the model;
    - code runs in the monad [M]: it threads the [World] (tables, clock, log,
      outbox) and may raise; what was written before a raise stays written,
      as in Python;
    - the third-party services (SMTP server, chat-completion API, template
      rendering) are the fields of the class [Collaborators]. *)

From Stdlib Require Import ZArith List String Ascii Bool Lia.
From Stdlib Require Import Decimal DecimalString.
From Stdlib Require Import Sorted Permutation.
Import ListNotations.

Local Open Scope string_scope.
Local Open Scope Z_scope.

(** ** Python values and exceptions *)

Module Py.

(** An exception: its class name and [str(e)]. *)
Record Exception := Exc { exc_type : string; exc_str : string }.

Inductive result (A : Type) : Type :=
| Ok (a : A)
| Raise (e : Exception).
Arguments Ok {A} a.
Arguments Raise {A} e.

(** [str(n)] for an [int]. *)
Definition str_int (n : Z) : string := NilZero.string_of_int (Z.to_int n).

(** Truth value of a [str]: only the empty string is false. *)
Definition truthy_str (s : string) : bool :=
  match s with EmptyString => false | String _ _ => true end.

(** Truth value of an optional [str] ([None] and [''] are false). *)
Definition truthy_opt (o : option string) : bool :=
  match o with Some s => truthy_str s | None => false end.

(** [f"{x}"] for an attribute that may be [None]. *)
Definition fmt_opt (o : option string) : string :=
  match o with Some s => s | None => "None" end.

(** What an expression passed to [timedelta(minutes=...)] can be in this
    code base: a number, or a class-level column attribute
    (an [InstrumentedAttribute], i.e. an SQL expression object). *)
Inductive Value :=
| Int (n : Z)
| ColumnAttr (table column : string).

(** [timedelta(minutes=v)], in seconds. The constructor accepts only
    numbers for its components and raises [TypeError] for anything else. *)
Definition timedelta_minutes (v : Value) : result Z :=
  match v with
  | Int n => Ok (60 * n)
  | ColumnAttr _ _ =>
      Raise (Exc "TypeError"
        "unsupported type for timedelta minutes component: InstrumentedAttribute")
  end.

(** [timedelta(hours=n)] and [timedelta(days=n)] for an [int], in seconds. *)
Definition timedelta_hours (n : Z) : Z := 3600 * n.
Definition timedelta_days (n : Z) : Z := 86400 * n.

(** Two decimal digits, zero padded (the [%H] and [%M] fields). *)
Definition two_digits (n : Z) : string :=
  if n <? 10 then "0" ++ str_int n else str_int n.

(** [t.strftime("%H:%M")] for an instant [t] read as wall-clock seconds. *)
Definition strftime_HM (t : Z) : string :=
  two_digits ((t mod 86400) / 3600) ++ ":" ++ two_digits ((t mod 3600) / 60).

(** [t.replace(hour=0, minute=0, second=0, microsecond=0)]. *)
Definition midnight (t : Z) : Z := t - t mod 86400.

End Py.
Export Py.

(** ** models/ *)

Inductive AlertType :=
| EMAIL_VIP | EMAIL_EMERGENCY | MEETING_REMINDER | MORNING_BRIEFING | SYSTEM.

Inductive AlertPriority := LOW | NORMAL | HIGH | URGENT.

Inductive AlertStatus := PENDING | SENT | READ | DISMISSED.

Definition AlertType_eqb (a b : AlertType) : bool :=
  match a, b with
  | EMAIL_VIP, EMAIL_VIP | EMAIL_EMERGENCY, EMAIL_EMERGENCY
  | MEETING_REMINDER, MEETING_REMINDER | MORNING_BRIEFING, MORNING_BRIEFING
  | SYSTEM, SYSTEM => true
  | _, _ => false
  end.

Definition AlertStatus_eqb (a b : AlertStatus) : bool :=
  match a, b with
  | PENDING, PENDING | SENT, SENT | READ, READ | DISMISSED, DISMISSED => true
  | _, _ => false
  end.

(** [AlertType(s)] and [AlertStatus(s)]: enum lookup by value, [None] where
    Python raises [ValueError]. *)
Definition AlertType_of_value (s : string) : option AlertType :=
  if String.eqb s "email_vip" then Some EMAIL_VIP
  else if String.eqb s "email_emergency" then Some EMAIL_EMERGENCY
  else if String.eqb s "meeting_reminder" then Some MEETING_REMINDER
  else if String.eqb s "morning_briefing" then Some MORNING_BRIEFING
  else if String.eqb s "system" then Some SYSTEM
  else None.

Definition AlertStatus_of_value (s : string) : option AlertStatus :=
  if String.eqb s "pending" then Some PENDING
  else if String.eqb s "sent" then Some SENT
  else if String.eqb s "read" then Some READ
  else if String.eqb s "dismissed" then Some DISMISSED
  else None.

(** [t.value] of the two enums. *)
Definition AlertType_value (t : AlertType) : string :=
  match t with
  | EMAIL_VIP => "email_vip"
  | EMAIL_EMERGENCY => "email_emergency"
  | MEETING_REMINDER => "meeting_reminder"
  | MORNING_BRIEFING => "morning_briefing"
  | SYSTEM => "system"
  end.

Definition AlertStatus_value (s : AlertStatus) : string :=
  match s with
  | PENDING => "pending"
  | SENT => "sent"
  | READ => "read"
  | DISMISSED => "dismissed"
  end.

Definition AlertPriority_eqb (a b : AlertPriority) : bool :=
  match a, b with
  | LOW, LOW | NORMAL, NORMAL | HIGH, HIGH | URGENT, URGENT => true
  | _, _ => false
  end.

(** A JSON scalar, as found in the alert metadata payload. *)
Inductive Json := JNull | JBool (b : bool) | JInt (n : Z) | JStr (s : string).

Definition JOpt (o : option string) : Json :=
  match o with Some s => JStr s | None => JNull end.

Module User.
Record t := mk {
  id : Z;
  email : string;
  is_active : bool;
  email_user : option string;
  google_access_token : option string;
  morning_briefing_time : option string
}.
End User.

Inductive EmailStatus :=
| E_UNREAD | E_READ | E_ARCHIVED | E_IMPORTANT | E_EMERGENCY.

Module Email.
Record t := mk {
  id : Z;
  user_id : Z;
  sender_email : string;
  sender_name : option string;
  subject : string;
  status : EmailStatus;
  priority : AlertPriority;   (* [EmailPriority] has the same four values *)
  is_emergency : bool;
  is_from_vip : bool;
  summary : option string;
  received_at : Z;
  updated_at : option Z
}.

(** [email_obj.status = EmailStatus.READ] committed at [now]
    ([updated_at] has [onupdate=now()]). *)
Definition mark_read (now : Z) (e : t) : t :=
  mk (id e) (user_id e) (sender_email e) (sender_name e) (subject e) E_READ
     (priority e) (is_emergency e) (is_from_vip e) (summary e) (received_at e)
     (Some now).
End Email.

Definition EmailStatus_eqb (a b : EmailStatus) : bool :=
  match a, b with
  | E_UNREAD, E_UNREAD | E_READ, E_READ | E_ARCHIVED, E_ARCHIVED
  | E_IMPORTANT, E_IMPORTANT | E_EMERGENCY, E_EMERGENCY => true
  | _, _ => false
  end.

Module CalendarEvent.
Record t := mk {
  id : Z;
  user_id : Z;
  title : string;
  location : option string;
  start_datetime : Z;
  meeting_link : option string;
  ai_summary : option string;
  ai_preparation_notes : option string;
  reminder_sent : bool;
  reminder_minutes_before : Z
}.

Definition set_reminder_sent (b : bool) (e : t) : t :=
  mk (id e) (user_id e) (title e) (location e) (start_datetime e)
     (meeting_link e) (ai_summary e) (ai_preparation_notes e)
     b (reminder_minutes_before e).
End CalendarEvent.

Module Alert.
Record t := mk {
  id : Z;
  user_id : Z;
  title : string;
  message : string;
  alert_type : AlertType;
  priority : AlertPriority;
  status : AlertStatus;
  email_id : option Z;
  calendar_event_id : option Z;
  send_email : bool;
  send_push : bool;
  send_sms : bool;
  metadata : list (string * Json);
  scheduled_for : option Z;
  sent_at : option Z;
  read_at : option Z;
  dismissed_at : option Z;
  created_at : Z;
  updated_at : option Z
}.

(** The keyword arguments of the [Alert(...)] constructor. A column left
    out ([None]) takes its column default when the row is inserted. *)
Record kwargs := new {
  kw_user_id : Z;
  kw_title : string;
  kw_message : string;
  kw_alert_type : AlertType;
  kw_priority : option AlertPriority;
  kw_email_id : option Z;
  kw_calendar_event_id : option Z;
  kw_send_email : option bool;
  kw_send_push : option bool;
  kw_send_sms : option bool;
  kw_metadata : list (string * Json)
}.

Definition or_default {A} (d : A) (o : option A) : A :=
  match o with Some a => a | None => d end.

(** The row an INSERT of [k] produces with primary key [pk] at instant
    [now]: column defaults [priority=NORMAL], [status=PENDING],
    [send_email=False], [send_push=True], [send_sms=False] and
    [created_at = now()]. *)
Definition row_of (pk now : Z) (k : kwargs) : t :=
  mk pk (kw_user_id k) (kw_title k) (kw_message k) (kw_alert_type k)
     (or_default NORMAL (kw_priority k))
     PENDING
     (kw_email_id k) (kw_calendar_event_id k)
     (or_default false (kw_send_email k))
     (or_default true (kw_send_push k))
     (or_default false (kw_send_sms k))
     (kw_metadata k)
     None None None None now None.

(** [alert.status = SENT; alert.sent_at = ts] committed at [now]
    ([updated_at] has [onupdate=now()]). *)
Definition mark_sent (ts now : Z) (a : t) : t :=
  mk (id a) (user_id a) (title a) (message a) (alert_type a) (priority a)
     SENT (email_id a) (calendar_event_id a)
     (send_email a) (send_push a) (send_sms a) (metadata a)
     (scheduled_for a) (Some ts) (read_at a) (dismissed_at a)
     (created_at a) (Some now).

(** [alert.status = READ; alert.read_at = ts]. *)
Definition mark_read (ts now : Z) (a : t) : t :=
  mk (id a) (user_id a) (title a) (message a) (alert_type a) (priority a)
     READ (email_id a) (calendar_event_id a)
     (send_email a) (send_push a) (send_sms a) (metadata a)
     (scheduled_for a) (sent_at a) (Some ts) (dismissed_at a)
     (created_at a) (Some now).

(** [alert.status = DISMISSED; alert.dismissed_at = ts]. *)
Definition mark_dismissed (ts now : Z) (a : t) : t :=
  mk (id a) (user_id a) (title a) (message a) (alert_type a) (priority a)
     DISMISSED (email_id a) (calendar_event_id a)
     (send_email a) (send_push a) (send_sms a) (metadata a)
     (scheduled_for a) (sent_at a) (read_at a) (Some ts)
     (created_at a) (Some now).

(** [Alert.status.in_([PENDING, SENT])]. *)
Definition is_unread (a : t) : bool :=
  match status a with PENDING | SENT => true | _ => false end.
End Alert.

(** ** The world the services run in *)

Inductive Level := INFO | ERROR.

(** One record of the [logging] module. *)
Record LogRecord := Log { levelname : Level; msg : string }.

Module Mail.
(** The MIME message handed to [smtp.send_message]. *)
Record t := mk {
  header_from : option string;
  header_to : string;
  header_subject : string;
  plain : string;
  html : option string
}.
End Mail.

Record World := mkWorld {
  alerts : list Alert.t;                    (* table [alerts] *)
  users : list User.t;                      (* table [users] *)
  emails : list Email.t;                    (* table [emails] *)
  calendar_events : list CalendarEvent.t;   (* table [calendar_events] *)
  clock : Z;                                (* the current instant (UTC) *)
  tz : Z;                                   (* offset of local time from UTC, in seconds *)
  log : list LogRecord;                     (* what the loggers have emitted *)
  outbox : list Mail.t                      (* messages accepted by SMTP *)
}.

Definition set_alerts (l : list Alert.t) (w : World) : World :=
  mkWorld l (users w) (emails w) (calendar_events w) (clock w) (tz w)
          (log w) (outbox w).

Definition set_emails (l : list Email.t) (w : World) : World :=
  mkWorld (alerts w) (users w) l (calendar_events w) (clock w) (tz w)
          (log w) (outbox w).

Definition set_calendar_events (l : list CalendarEvent.t) (w : World) : World :=
  mkWorld (alerts w) (users w) (emails w) l (clock w) (tz w)
          (log w) (outbox w).

Definition set_clock (t : Z) (w : World) : World :=
  mkWorld (alerts w) (users w) (emails w) (calendar_events w) t (tz w)
          (log w) (outbox w).

Definition add_log (r : LogRecord) (w : World) : World :=
  mkWorld (alerts w) (users w) (emails w) (calendar_events w) (clock w) (tz w)
          (log w ++ [r]) (outbox w).

Definition add_outbox (m : Mail.t) (w : World) : World :=
  mkWorld (alerts w) (users w) (emails w) (calendar_events w) (clock w) (tz w)
          (log w) (outbox w ++ [m]).

(** The third-party services behind the code: each call either returns or
    raises. *)
Class Collaborators := {
  (** [smtplib.SMTP(host, port)], [starttls()], [login(...)] *)
  smtp_connect : User.t -> result unit;
  (** [smtp.send_message(msg)], [smtp.quit()] *)
  smtp_send_message : User.t -> Mail.t -> result unit;
  (** the plain-text and HTML bodies rendered for an alert
      ([_format_alert_metadata] catches its own errors) *)
  render_bodies : Alert.t -> string * string;
  (** [client.chat.completions.create(...)] on the prompt built from the
      two lists of summary lines, stripped *)
  chat_completions_create : list string -> list string -> result string
}.

(** ** The monad of the code: state and exceptions *)

Definition M (A : Type) : Type := World -> result A * World.

Definition ret {A} (a : A) : M A := fun w => (Ok a, w).

Definition bind {A B} (m : M A) (k : A -> M B) : M B :=
  fun w =>
    match m w with
    | (Ok a, w') => k a w'
    | (Raise e, w') => (Raise e, w')
    end.

Definition raise {A} (e : Exception) : M A := fun w => (Raise e, w).

(** [try: body except Exception as e: handler(e)] *)
Definition try_except {A} (body : M A) (handler : Exception -> M A) : M A :=
  fun w =>
    match body w with
    | (Ok a, w') => (Ok a, w')
    | (Raise e, w') => handler e w'
    end.

Definition lift {A} (r : result A) : M A := fun w => (r, w).

Definition gets {A} (f : World -> A) : M A := fun w => (Ok (f w), w).

Definition modify (f : World -> World) : M unit := fun w => (Ok tt, f w).

Declare Scope py_scope.
Delimit Scope py_scope with py.
Notation "x <- c1 ;; c2" := (bind c1 (fun x => c2))
  (at level 61, c1 at next level, right associativity) : py_scope.
Notation "c1 ;; c2" := (bind c1 (fun _ => c2))
  (at level 61, right associativity) : py_scope.
Local Open Scope py_scope.

(** [if c: body] *)
Definition when (c : bool) (body : M unit) : M unit :=
  if c then body else ret tt.

(** [for x in l: body(x)] *)
Fixpoint for_each {A} (l : list A) (body : A -> M unit) : M unit :=
  match l with
  | [] => ret tt
  | x :: l' => body x ;; for_each l' body
  end.

(** [datetime.now(timezone.utc)] *)
Definition utcnow : M Z := gets clock.

(** [datetime.now()]: the naive local wall-clock reading. *)
Definition localnow : M Z := gets (fun w => clock w + tz w).

Definition logger_info (s : string) : M unit := modify (add_log (Log INFO s)).
Definition logger_error (s : string) : M unit := modify (add_log (Log ERROR s)).

(** ** Query helpers *)

(** [ORDER BY]: insertion of each row in turn into an ordered result;
    [le a b] says that [a] may come before [b]. *)
Fixpoint insert_by {A} (le : A -> A -> bool) (x : A) (l : list A) : list A :=
  match l with
  | [] => [x]
  | y :: l' => if le x y then x :: y :: l' else y :: insert_by le x l'
  end.

Definition order_by {A} (le : A -> A -> bool) (l : list A) : list A :=
  fold_right (insert_by le) [] l.

(** [.first()] *)
Definition first {A} (l : list A) : option A :=
  match l with [] => None | x :: _ => Some x end.

(** [.offset(n).limit(m)], for [n] and [m] that are not negative; what a
    negative LIMIT does is up to the database, and no property relies on
    it. *)
Definition offset {A} (n : Z) (l : list A) : list A := skipn (Z.to_nat n) l.
Definition limit {A} (n : Z) (l : list A) : list A := firstn (Z.to_nat n) l.

(** The next value of an autoincrement primary key. *)
Definition next_id (ids : list Z) : Z := 1 + fold_right Z.max 0 ids.

(** [db.add(alert); db.commit(); db.refresh(alert)] for an alert built from
    the keyword arguments [k]: the inserted row. *)
Definition db_add_alert (k : Alert.kwargs) : M Alert.t :=
  fun w =>
    let row := Alert.row_of (next_id (map Alert.id (alerts w))) (clock w) k in
    (Ok row, set_alerts (alerts w ++ [row]) w).

(** An attribute assignment on the mapped object [alert] followed by
    [db.commit()]: UPDATE of the rows whose primary key is [alert.id]. *)
Definition db_update_alert (alert : Alert.t) (f : Alert.t -> Alert.t) : M unit :=
  modify (fun w =>
    set_alerts
      (map (fun a => if Alert.id a =? Alert.id alert then f a else a) (alerts w))
      w).

(** The state of the mapped object [alert] as the caller sees it now: the
    row with its primary key. *)
Definition deref (alert : Alert.t) : M Alert.t :=
  gets (fun w =>
    match find (fun a => Alert.id a =? Alert.id alert) (alerts w) with
    | Some a => a
    | None => alert
    end).

(** ** services/email_service.py (the sending side) *)

Module EmailService.
Section WithCollaborators.
Context {C : Collaborators}.

Definition connect_smtp (user : User.t) : M unit :=
  try_except
    (lift (smtp_connect user))
    (fun e => logger_error ("SMTP connection failed: " ++ exc_str e) ;;
              raise e).

Definition send_email (user : User.t) (to_email subject body : string)
           (body_html : string) : M bool :=
  try_except
    (connect_smtp user ;;
     let msg := Mail.mk (User.email_user user) to_email subject body
                  (if truthy_str body_html then Some body_html else None) in
     lift (smtp_send_message user msg) ;;
     modify (add_outbox msg) ;;
     ret true)
    (fun e => logger_error ("Error sending email: " ++ exc_str e) ;;
              ret false).

(** [email_obj.status = EmailStatus.READ; db.commit()]: UPDATE of the
    rows whose primary key is [email_obj.id]. *)
Definition mark_as_read (email_obj : Email.t) : M unit :=
  modify (fun w =>
    set_emails
      (map (fun e => if Email.id e =? Email.id email_obj
                     then Email.mark_read (clock w) e else e)
           (emails w))
      w).

Definition received_desc (a b : Email.t) : bool :=
  Email.received_at b <=? Email.received_at a.

Definition get_emails_by_priority (user_id : Z) (priority : AlertPriority)
  : M (list Email.t) :=
  gets (fun w =>
    order_by received_desc
      (filter (fun e => (Email.user_id e =? user_id)
                        && AlertPriority_eqb (Email.priority e) priority)
              (emails w))).

Definition get_unread_emails (user_id : Z) : M (list Email.t) :=
  gets (fun w =>
    order_by received_desc
      (filter (fun e => (Email.user_id e =? user_id)
                        && EmailStatus_eqb (Email.status e) E_UNREAD)
              (emails w))).

End WithCollaborators.
End EmailService.

(** ** services/alert_service.py *)

Module AlertService.
Section WithCollaborators.
Context {C : Collaborators}.

Definition _send_email_notification (alert : Alert.t) (user : User.t) : M unit :=
  try_except
    (let subject := "Secretary AI: " ++ Alert.title alert in
     let text_body := fst (render_bodies alert) in
     let html_body := snd (render_bodies alert) in
     success <- EmailService.send_email user (User.email user) subject
                  text_body html_body ;;
     if (success : bool)
     then logger_info ("Email notification sent for alert "
                       ++ str_int (Alert.id alert))
     else logger_error ("Failed to send email notification for alert "
                        ++ str_int (Alert.id alert)))
    (fun e => logger_error ("Error sending email notification: " ++ exc_str e)).

Definition _send_push_notification (alert : Alert.t) (user : User.t) : M unit :=
  logger_info ("Push notification would be sent for alert "
               ++ str_int (Alert.id alert) ++ ": " ++ Alert.title alert).

Definition _send_sms_notification (alert : Alert.t) (user : User.t) : M unit :=
  logger_info ("SMS notification would be sent for alert "
               ++ str_int (Alert.id alert) ++ ": " ++ Alert.title alert).

Definition _send_alert_notification (alert : Alert.t) (user : User.t) : M unit :=
  try_except
    (when (Alert.send_email alert && truthy_str (User.email user))
          (_send_email_notification alert user) ;;
     when (Alert.send_push alert) (_send_push_notification alert user) ;;
     when (Alert.send_sms alert) (_send_sms_notification alert user) ;;
     now <- utcnow ;;
     db_update_alert alert (Alert.mark_sent now now))
    (fun e => logger_error ("Error sending alert notification: " ++ exc_str e)).

Definition create_email_vip_alert (email : Email.t) (user : User.t) : M Alert.t :=
  try_except
    (alert <- db_add_alert
       (Alert.new (User.id user)
          ("VIP Email from " ++ fmt_opt (Email.sender_name email))
          ("You received an important email from "
           ++ fmt_opt (Email.sender_name email) ++ ": " ++ Email.subject email)
          EMAIL_VIP (Some HIGH)
          (Some (Email.id email)) None
          (Some true) (Some true) None
          [("sender_email", JStr (Email.sender_email email));
           ("subject", JStr (Email.subject email));
           ("summary", JOpt (Email.summary email))]) ;;
     _send_alert_notification alert user ;;
     deref alert)
    (fun e => logger_error ("Error creating VIP email alert: " ++ exc_str e) ;;
              raise e).

Definition create_emergency_email_alert (email : Email.t) (user : User.t)
  : M Alert.t :=
  try_except
    (alert <- db_add_alert
       (Alert.new (User.id user)
          ("URGENT: Emergency Email from " ++ fmt_opt (Email.sender_name email))
          ("URGENT EMAIL DETECTED from " ++ fmt_opt (Email.sender_name email)
           ++ ": " ++ Email.subject email ++ ". Immediate attention required.")
          EMAIL_EMERGENCY (Some URGENT)
          (Some (Email.id email)) None
          (Some true) (Some true) (Some true)
          [("sender_email", JStr (Email.sender_email email));
           ("subject", JStr (Email.subject email));
           ("summary", JOpt (Email.summary email));
           ("emergency_detected", JBool true)]) ;;
     _send_alert_notification alert user ;;
     deref alert)
    (fun e => logger_error ("Error creating emergency email alert: " ++ exc_str e) ;;
              raise e).

Definition create_meeting_reminder_alert (calendar_event : CalendarEvent.t)
           (user : User.t) : M Alert.t :=
  try_except
    (now <- utcnow ;;
     let time_until := CalendarEvent.start_datetime calendar_event - now in
     (* int(x / 60) truncates towards zero *)
     let minutes_until := Z.quot time_until 60 in
     alert <- db_add_alert
       (Alert.new (User.id user)
          ("Meeting Reminder: " ++ CalendarEvent.title calendar_event)
          ("Your meeting '" ++ CalendarEvent.title calendar_event
           ++ "' starts in " ++ str_int minutes_until ++ " minutes.")
          MEETING_REMINDER (Some NORMAL)
          None (Some (CalendarEvent.id calendar_event))
          (Some false) (Some true) None
          [("meeting_title", JStr (CalendarEvent.title calendar_event));
           ("meeting_link", JOpt (CalendarEvent.meeting_link calendar_event));
           ("location", JOpt (CalendarEvent.location calendar_event));
           ("minutes_until", JInt minutes_until);
           ("preparation_notes",
            JOpt (CalendarEvent.ai_preparation_notes calendar_event))]) ;;
     _send_alert_notification alert user ;;
     deref alert)
    (fun e => logger_error ("Error creating meeting reminder alert: " ++ exc_str e) ;;
              raise e).

Definition create_morning_briefing_alert (user : User.t)
           (briefing_content : string) : M Alert.t :=
  try_except
    (now <- utcnow ;;
     alert <- db_add_alert
       (Alert.new (User.id user)
          "Your Daily Morning Briefing"
          briefing_content
          MORNING_BRIEFING (Some NORMAL)
          None None
          (Some true) (Some true) None
          [("briefing_type", JStr "daily");
           (* [datetime.now(timezone.utc).isoformat()], kept as the instant *)
           ("generated_at", JInt now)]) ;;
     _send_alert_notification alert user ;;
     deref alert)
    (fun e => logger_error ("Error creating morning briefing alert: " ++ exc_str e) ;;
              raise e).

Definition newest_first (a b : Alert.t) : bool :=
  Alert.created_at b <=? Alert.created_at a.

Definition get_user_alerts (user_id : Z) (limit_ : Z) : M (list Alert.t) :=
  gets (fun w =>
    limit limit_
      (order_by newest_first
         (filter (fun a => Alert.user_id a =? user_id) (alerts w)))).

Definition get_unread_alerts (user_id : Z) : M (list Alert.t) :=
  gets (fun w =>
    order_by newest_first
      (filter (fun a => (Alert.user_id a =? user_id) && Alert.is_unread a)
              (alerts w))).

Definition mark_alert_as_read (alert_id user_id : Z) : M bool :=
  try_except
    (found <- gets (fun w =>
         first (filter (fun a => (Alert.id a =? alert_id)
                                 && (Alert.user_id a =? user_id)) (alerts w))) ;;
     match found with
     | Some alert =>
         now <- utcnow ;;
         db_update_alert alert (Alert.mark_read now now) ;;
         ret true
     | None => ret false
     end)
    (fun e => logger_error ("Error marking alert as read: " ++ exc_str e) ;;
              ret false).

Definition dismiss_alert (alert_id user_id : Z) : M bool :=
  try_except
    (found <- gets (fun w =>
         first (filter (fun a => (Alert.id a =? alert_id)
                                 && (Alert.user_id a =? user_id)) (alerts w))) ;;
     match found with
     | Some alert =>
         now <- utcnow ;;
         db_update_alert alert (Alert.mark_dismissed now now) ;;
         ret true
     | None => ret false
     end)
    (fun e => logger_error ("Error dismissing alert: " ++ exc_str e) ;;
              ret false).

(** [Alert.scheduled_for <= now] is NULL, hence not selected, on a row
    whose [scheduled_for] is NULL. *)
Definition is_due (now : Z) (a : Alert.t) : bool :=
  AlertStatus_eqb (Alert.status a) PENDING
  && match Alert.scheduled_for a with
     | Some t => t <=? now
     | None => false
     end.

Definition get_pending_alerts : M (list Alert.t) :=
  now <- utcnow ;;
  gets (fun w => filter (is_due now) (alerts w)).

End WithCollaborators.
End AlertService.

(** ** services/calendar_service.py (the queries the tasks use) *)

Module CalendarService.

Definition earliest_first (a b : CalendarEvent.t) : bool :=
  CalendarEvent.start_datetime a <=? CalendarEvent.start_datetime b.

(** [future = now + timedelta(hours=hours_ahead)], for an [hours_ahead]
    that keeps [future] within the range of [datetime]. *)
Definition get_upcoming_events (user_id hours_ahead : Z)
  : M (list CalendarEvent.t) :=
  now <- utcnow ;;
  let future := now + timedelta_hours hours_ahead in
  gets (fun w =>
    order_by earliest_first
      (filter (fun e => (CalendarEvent.user_id e =? user_id)
                        && (now <=? CalendarEvent.start_datetime e)
                        && (CalendarEvent.start_datetime e <=? future))
              (calendar_events w))).

(** The third criterion is built from
    [now + timedelta(minutes=CalendarEvent.reminder_minutes_before)],
    where the argument is the column attribute of the class, not a number
    of a row; the arguments of [filter] are evaluated, in order, before
    [filter] is called and long before the query is run. *)
Definition get_events_needing_reminders : M (list CalendarEvent.t) :=
  now <- utcnow ;;
  window <- lift (timedelta_minutes
                    (ColumnAttr "calendar_events" "reminder_minutes_before")) ;;
  gets (fun w =>
    filter (fun e => negb (CalendarEvent.reminder_sent e)
                     && (now <? CalendarEvent.start_datetime e)
                     && (CalendarEvent.start_datetime e <=? now + window))
           (calendar_events w)).

Definition mark_reminder_sent (calendar_event : CalendarEvent.t) : M unit :=
  modify (fun w =>
    set_calendar_events
      (map (fun e => if CalendarEvent.id e =? CalendarEvent.id calendar_event
                     then CalendarEvent.set_reminder_sent true e else e)
           (calendar_events w))
      w).

End CalendarService.

(** ** services/ai_service.py (the briefing) *)

Module AIService.
Section WithCollaborators.
Context {C : Collaborators}.

(** One entry of [email_data] and of [event_data]. *)
Record EmailDatum := mkEmailDatum {
  d_sender_name : option string;
  d_subject : string;
  d_summary : string;
  d_priority : AlertPriority;
  d_is_emergency : bool;
  d_is_from_vip : bool
}.

Record EventDatum := mkEventDatum {
  d_title : string;
  d_start_time : string;
  d_location : string;
  d_ai_summary : option string
}.

Definition briefing_fallback : string :=
  "Good morning! Your briefing is being prepared. Please check back shortly.".

Definition generate_morning_briefing (emails_ : list EmailDatum)
           (calendar_events_ : list EventDatum) : M string :=
  try_except
    (let email_summaries :=
       map (fun e => "- From " ++ fmt_opt (d_sender_name e) ++ ": " ++ d_summary e)
           (firstn 10 emails_) in
     let event_summaries :=
       map (fun e => "- " ++ d_title e ++ " at " ++ d_start_time e)
           (firstn 5 calendar_events_) in
     lift (chat_completions_create email_summaries event_summaries))
    (fun e => logger_error ("Error generating morning briefing: " ++ exc_str e) ;;
              ret briefing_fallback).

End WithCollaborators.
End AIService.

(** ** routers/alerts.py *)

Module AlertsRouter.
Section WithCollaborators.
Context {C : Collaborators}.

Definition HTTPException (status_code : Z) (detail : string) : Exception :=
  Exc "HTTPException" (str_int status_code ++ ": " ++ detail).

(** [GET /]: [limit] defaults to 50 and is validated [<= 100], [offset]
    defaults to 0 and is validated [>= 0]. *)
Definition get_alerts (alert_type status : option string)
           (limit_ offset_ : option Z) (current_user : User.t)
  : M (list Alert.t) :=
  let limit_ := Alert.or_default 50 limit_ in
  let offset_ := Alert.or_default 0 offset_ in
  if negb (limit_ <=? 100) || negb (0 <=? offset_)
  then raise (Exc "RequestValidationError" "422")
  else
    query <- gets (fun w =>
      filter (fun a => Alert.user_id a =? User.id current_user) (alerts w)) ;;
    query <- (if truthy_opt alert_type
              then match AlertType_of_value (fmt_opt alert_type) with
                   | Some t => ret (filter (fun a => AlertType_eqb (Alert.alert_type a) t) query)
                   | None => raise (HTTPException 400 "Invalid alert type")
                   end
              else ret query) ;;
    query <- (if truthy_opt status
              then match AlertStatus_of_value (fmt_opt status) with
                   | Some s => ret (filter (fun a => AlertStatus_eqb (Alert.status a) s) query)
                   | None => raise (HTTPException 400 "Invalid status")
                   end
              else ret query) ;;
    ret (limit limit_ (offset offset_ (order_by AlertService.newest_first query))).

Definition get_unread_alerts (current_user : User.t) : M (list Alert.t) :=
  AlertService.get_unread_alerts (User.id current_user).

Definition get_alert (alert_id : Z) (current_user : User.t) : M Alert.t :=
  found <- gets (fun w =>
    first (filter (fun a => (Alert.id a =? alert_id)
                            && (Alert.user_id a =? User.id current_user))
                  (alerts w))) ;;
  match found with
  | Some alert => ret alert
  | None => raise (HTTPException 404 "Alert not found")
  end.

Definition mark_alert_as_read (alert_id : Z) (current_user : User.t) : M string :=
  success <- AlertService.mark_alert_as_read alert_id (User.id current_user) ;;
  if (success : bool) then ret "Alert marked as read"
  else raise (HTTPException 404 "Alert not found").

Definition dismiss_alert (alert_id : Z) (current_user : User.t) : M string :=
  success <- AlertService.dismiss_alert alert_id (User.id current_user) ;;
  if (success : bool) then ret "Alert dismissed"
  else raise (HTTPException 404 "Alert not found").

(** The rows the bulk UPDATE matches. *)
Definition bulk_matches (uid : Z) (a : Alert.t) : bool :=
  (Alert.user_id a =? uid) && Alert.is_unread a.

(** [query.filter(...).update({...})]: the rows matched are rewritten in
    place and their number is returned. *)
Definition bulk_update (uid : Z) : M Z :=
  now <- utcnow ;;
  n <- gets (fun w => Z.of_nat (List.length (filter (bulk_matches uid) (alerts w)))) ;;
  modify (fun w =>
    set_alerts
      (map (fun a => if bulk_matches uid a then Alert.mark_read now now a else a)
           (alerts w))
      w) ;;
  ret n.

Definition mark_all_alerts_as_read (current_user : User.t) : M string :=
  updated_count <- bulk_update (User.id current_user) ;;
  ret ("Marked " ++ str_int updated_count ++ " alerts as read").

(** The body of the response of [GET /stats/summary]. *)
Record AlertStats := mkAlertStats {
  total_alerts : Z;
  unread_alerts : Z;
  urgent_alerts : Z;
  email_alerts : Z;
  meeting_alerts : Z
}.

(** [query.filter(...).count()] *)
Definition count (f : Alert.t -> bool) (l : list Alert.t) : Z :=
  Z.of_nat (List.length (filter f l)).

Definition get_alert_stats (current_user : User.t) : M AlertStats :=
  gets (fun w =>
    let mine a := Alert.user_id a =? User.id current_user in
    mkAlertStats
      (count mine (alerts w))
      (count (fun a => mine a && Alert.is_unread a) (alerts w))
      (count (fun a => mine a
                       && AlertPriority_eqb (Alert.priority a) URGENT
                       && Alert.is_unread a) (alerts w))
      (count (fun a => mine a
                       && (AlertType_eqb (Alert.alert_type a) EMAIL_VIP
                           || AlertType_eqb (Alert.alert_type a) EMAIL_EMERGENCY))
             (alerts w))
      (count (fun a => mine a
                       && AlertType_eqb (Alert.alert_type a) MEETING_REMINDER)
             (alerts w))).

End WithCollaborators.
End AlertsRouter.

(** ** services/background_tasks.py *)

Module BackgroundTaskManager.
Section WithCollaborators.
Context {C : Collaborators}.

Definition _process_new_email (email : Email.t) (user : User.t) : M unit :=
  try_except
    (when (Email.is_from_vip email)
          (AlertService.create_email_vip_alert email user ;; ret tt) ;;
     when (Email.is_emergency email)
          (AlertService.create_emergency_email_alert email user ;; ret tt))
    (fun e => logger_error ("Error processing new email "
                            ++ str_int (Email.id email) ++ ": " ++ exc_str e)).

Definition user_by_id (uid : Z) : M (option User.t) :=
  gets (fun w => first (filter (fun u => User.id u =? uid) (users w))).

Definition send_meeting_reminders : M unit :=
  try_except
    (events_needing_reminders <- CalendarService.get_events_needing_reminders ;;
     for_each events_needing_reminders (fun event =>
       try_except
         (user <- user_by_id (CalendarEvent.user_id event) ;;
          match user with
          | Some user =>
              AlertService.create_meeting_reminder_alert event user ;;
              CalendarService.mark_reminder_sent event
          | None => ret tt
          end)
         (fun e => logger_error ("Error sending reminder for event "
                                 ++ str_int (CalendarEvent.id event) ++ ": "
                                 ++ exc_str e))) ;;
     when (negb (Nat.eqb (List.length events_needing_reminders) 0))
          (logger_info ("Sent "
                        ++ str_int (Z.of_nat (List.length events_needing_reminders))
                        ++ " meeting reminders")))
    (fun e => logger_error ("Error in send_meeting_reminders: " ++ exc_str e)).

Definition wanted_status (s : EmailStatus) : bool :=
  match s with E_UNREAD | E_IMPORTANT | E_EMERGENCY => true | _ => false end.

Definition latest_first (a b : Email.t) : bool :=
  Email.received_at b <=? Email.received_at a.

Definition _generate_daily_briefing (user : User.t) : M string :=
  try_except
    (now <- utcnow ;;
     let yesterday := now - timedelta_days 1 in
     recent_emails <- gets (fun w =>
       limit 10
         (order_by latest_first
            (filter (fun e => (Email.user_id e =? User.id user)
                              && (yesterday <=? Email.received_at e)
                              && wanted_status (Email.status e))
                    (emails w)))) ;;
     upcoming_events <- CalendarService.get_upcoming_events (User.id user) 24 ;;
     let email_data :=
       map (fun e => AIService.mkEmailDatum
              (Email.sender_name e) (Email.subject e)
              (if truthy_opt (Email.summary e)
               then fmt_opt (Email.summary e) else Email.subject e)
              (Email.priority e) (Email.is_emergency e) (Email.is_from_vip e))
           recent_emails in
     let event_data :=
       map (fun e => AIService.mkEventDatum
              (CalendarEvent.title e)
              (strftime_HM (CalendarEvent.start_datetime e))
              (if truthy_opt (CalendarEvent.location e)
               then fmt_opt (CalendarEvent.location e) else "Not specified")
              (CalendarEvent.ai_summary e))
           upcoming_events in
     AIService.generate_morning_briefing email_data event_data)
    (fun e => logger_error ("Error generating daily briefing: " ++ exc_str e) ;;
              ret AIService.briefing_fallback).

(** [Alert.user_id == user.id, Alert.alert_type == MORNING_BRIEFING,
    Alert.created_at >= today_start] *)
Definition briefed_since (uid today_start : Z) (a : Alert.t) : bool :=
  (Alert.user_id a =? uid)
  && AlertType_eqb (Alert.alert_type a) MORNING_BRIEFING
  && (today_start <=? Alert.created_at a).

(** [datetime.now().replace(hour=0, minute=0, second=0, microsecond=0)]:
    the naive local midnight. The query compares [Alert.created_at] with
    it as it stands. *)
Definition today_start_of (w : World) : Z :=
  midnight (clock w + tz w).

Definition send_morning_briefings : M unit :=
  try_except
    (active <- gets (fun w => filter User.is_active (users w)) ;;
     for_each active (fun user =>
       try_except
         (local <- localnow ;;
          let current_time := strftime_HM local in
          if negb (match User.morning_briefing_time user with
                   | Some t => String.eqb current_time t
                   | None => false
                   end)
          then ret tt   (* continue *)
          else
            today_start <- gets today_start_of ;;
            existing_briefing <- gets (fun w =>
              first (filter (briefed_since (User.id user) today_start) (alerts w))) ;;
            match existing_briefing with
            | Some _ => ret tt   (* continue *)
            | None =>
                briefing_content <- _generate_daily_briefing user ;;
                AlertService.create_morning_briefing_alert user briefing_content ;;
                logger_info ("Sent morning briefing to user "
                             ++ str_int (User.id user))
            end)
         (fun e => logger_error ("Error sending morning briefing to user "
                                 ++ str_int (User.id user) ++ ": " ++ exc_str e))))
    (fun e => logger_error ("Error in send_morning_briefings: " ++ exc_str e)).

Definition process_pending_alerts : M unit :=
  try_except
    (pending_alerts <- AlertService.get_pending_alerts ;;
     for_each pending_alerts (fun alert =>
       try_except
         (user <- user_by_id (Alert.user_id alert) ;;
          match user with
          | Some user => AlertService._send_alert_notification alert user
          | None => ret tt
          end)
         (fun e => logger_error ("Error processing alert "
                                 ++ str_int (Alert.id alert) ++ ": "
                                 ++ exc_str e))))
    (fun e => logger_error ("Error in process_pending_alerts: " ++ exc_str e)).

End WithCollaborators.
End BackgroundTaskManager.

(** * Vocabulary of the properties *)

Local Open Scope list_scope.

#[local] Arguments String.append : simpl never.
#[local] Arguments str_int : simpl never.

(** Everything but the alerts table, the log and the outbox. *)
Definition same_env (w w' : World) : Prop :=
  users w' = users w /\ emails w' = emails w
  /\ calendar_events w' = calendar_events w
  /\ clock w' = clock w /\ tz w' = tz w.

(** Only the log and the outbox moved, and the log only grew. *)
Definition only_io (w w' : World) : Prop :=
  alerts w' = alerts w /\ same_env w w' /\ exists l, log w' = log w ++ l.

(** The value a call returned, if it returned. *)
Definition returned {A} (r : result A * World) (a : A) : Prop := fst r = Ok a.

(** The log records by which a channel attempt is recognised.
    [EmailService.send_email] returned [True]: *)
Definition email_sent_line (alert : Alert.t) : LogRecord :=
  Log INFO ("Email notification sent for alert " ++ str_int (Alert.id alert))%string.

(** [EmailService.send_email] returned [False]. *)
Definition email_failed_line (alert : Alert.t) : LogRecord :=
  Log ERROR ("Failed to send email notification for alert "
             ++ str_int (Alert.id alert))%string.

(** The push placeholder ran. *)
Definition push_line (alert : Alert.t) : LogRecord :=
  Log INFO ("Push notification would be sent for alert "
            ++ str_int (Alert.id alert) ++ ": " ++ Alert.title alert)%string.

(** The SMS placeholder ran. *)
Definition sms_line (alert : Alert.t) : LogRecord :=
  Log INFO ("SMS notification would be sent for alert "
            ++ str_int (Alert.id alert) ++ ": " ++ Alert.title alert)%string.

(** The email channel was tried: [EmailService.send_email] was called and
    its outcome, either one, was logged. *)
Definition email_attempted (alert : Alert.t) (l : list LogRecord) : Prop :=
  In (email_sent_line alert) l \/ In (email_failed_line alert) l.

(** What the push and the SMS channel log for an alert, in that order. *)
Definition push_sms_lines (alert : Alert.t) : list LogRecord :=
  (if Alert.send_push alert then [push_line alert] else [])
  ++ (if Alert.send_sms alert then [sms_line alert] else []).

(** The row of [alert] after a dispatch at [now]; other rows as they were. *)
Definition dispatched (alert : Alert.t) (now : Z) (a : Alert.t) : Alert.t :=
  if Alert.id a =? Alert.id alert then Alert.mark_sent now now a else a.

(** The primary key the next inserted alert gets. *)
Definition fresh_alert_id (w : World) : Z := next_id (map Alert.id (alerts w)).

(** The row that the constructor arguments [k] have become once the
    creation returns: inserted, then dispatched. *)
Definition created (k : Alert.kwargs) (w : World) : Alert.t :=
  Alert.mark_sent (clock w) (clock w)
    (Alert.row_of (fresh_alert_id w) (clock w) k).

(** What every [create_*] method guarantees about the alert it returns. *)
Definition creation_of (w : World) (user : User.t) (r : result Alert.t * World)
           (a : Alert.t) : Prop :=
  fst r = Ok a
  /\ alerts (snd r) = alerts w ++ [a]
  /\ same_env w (snd r)
  /\ (exists l, log (snd r) = log w ++ l)
  /\ Alert.id a = fresh_alert_id w
  /\ Alert.user_id a = User.id user
  /\ Alert.status a = SENT
  /\ Alert.sent_at a = Some (clock w)
  /\ Alert.created_at a = clock w.

(** The alert belongs to [uid] and is still unread (pending or sent). *)
Definition unread_of (uid : Z) (a : Alert.t) : Prop :=
  Alert.user_id a = uid
  /\ (Alert.status a = PENDING \/ Alert.status a = SENT).

(** A row before and after, with a different status. *)
Definition status_changed (p : Alert.t * Alert.t) : bool :=
  negb (AlertStatus_eqb (Alert.status (fst p)) (Alert.status (snd p))).

(** The number of rows whose status is not what it was. *)
Definition mutated_count (before after : list Alert.t) : Z :=
  Z.of_nat (List.length (filter status_changed (combine before after))).

(** The user row that [db.query(User).filter(User.id == alert.user_id).first()]
    finds. *)
Definition owner_of (w : World) (a : Alert.t) : option User.t :=
  first (filter (fun u => User.id u =? Alert.user_id a) (users w)).

(** The alerts of [l] whose owner exists, each with its owner: what the
    loop of the sweep dispatches when [get_pending_alerts] returned [l]. *)
Definition targets_in (w : World) (l : list Alert.t) : list (Alert.t * User.t) :=
  flat_map (fun a => match owner_of w a with
                     | Some u => [(a, u)]
                     | None => []
                     end) l.

(** The targets of a run of the sweep at state [w]. *)
Definition sweep_targets (w : World) : list (Alert.t * User.t) :=
  targets_in w (filter (AlertService.is_due (clock w)) (alerts w)).

(** One dispatch, as a step from world to world. *)
Definition dispatch_step {C : Collaborators} (w : World)
           (p : Alert.t * User.t) : World :=
  snd (AlertService._send_alert_notification (fst p) (snd p) w).

(** Read and dismissed are the terminal states. *)
Definition terminal (s : AlertStatus) : Prop := s = READ \/ s = DISMISSED.

(** One iteration of the loop of [send_morning_briefings], for one user. *)
Definition briefing_iteration {C : Collaborators} (user : User.t) : M unit :=
  try_except
    (bind localnow (fun local =>
       let current_time := strftime_HM local in
       if negb (match User.morning_briefing_time user with
                | Some t => String.eqb current_time t
                | None => false
                end)
       then ret tt
       else
         bind (gets BackgroundTaskManager.today_start_of) (fun today_start =>
         bind (gets (fun w =>
                 first (filter (BackgroundTaskManager.briefed_since
                                  (User.id user) today_start) (alerts w))))
              (fun existing_briefing =>
                 match existing_briefing with
                 | Some _ => ret tt
                 | None =>
                     bind (BackgroundTaskManager._generate_daily_briefing user)
                       (fun briefing_content =>
                     bind (AlertService.create_morning_briefing_alert
                             user briefing_content)
                       (fun _ =>
                     logger_info ("Sent morning briefing to user "
                                  ++ str_int (User.id user))%string))
                 end))))
    (fun e => logger_error ("Error sending morning briefing to user "
                            ++ str_int (User.id user) ++ ": " ++ exc_str e)%string).

(** The calendar day on which the instant [t] falls, in the zone of the
    host and in UTC: whole days since the epoch. *)
Definition local_date (w : World) (t : Z) : Z := (t + tz w) / 86400.
Definition utc_date (t : Z) : Z := t / 86400.

(** The user [uid] has a morning-briefing alert created on the current
    day: its creation falls on the local date of the current instant. *)
Definition briefed_today (w : World) (uid : Z) : Prop :=
  exists a, In a (alerts w)
            /\ Alert.user_id a = uid
            /\ Alert.alert_type a = MORNING_BRIEFING
            /\ local_date w (Alert.created_at a) = local_date w (clock w).

(** The alerts of one user, in table order. *)
Definition alerts_of (uid : Z) (w : World) : list Alert.t :=
  filter (fun a => Alert.user_id a =? uid) (alerts w).

(** ** Readings of the specification that the code does not bear out

    Each is a proposition about one call at one state, to be refuted at a
    concrete state below. *)

(** A dispatch attempts every channel the alert has enabled. *)
Definition all_enabled_channels_attempted {C : Collaborators} (w : World)
           (alert : Alert.t) (user : User.t) : Prop :=
  exists l,
    log (snd (AlertService._send_alert_notification alert user w)) = log w ++ l
    /\ (Alert.send_email alert = true -> email_attempted alert l)
    /\ (Alert.send_push alert = true -> In (push_line alert) l)
    /\ (Alert.send_sms alert = true -> In (sms_line alert) l).

(** A second dispatch leaves [sent_at] of a sent alert as it was. *)
Definition redispatch_keeps_sent_at {C : Collaborators} (w : World)
           (alert : Alert.t) (user : User.t) : Prop :=
  In alert (alerts w) -> Alert.status alert = SENT ->
  forall a', In a' (alerts (snd (AlertService._send_alert_notification alert user w))) ->
             Alert.id a' = Alert.id alert ->
             Alert.sent_at a' = Alert.sent_at alert.

(** The sweep dispatches every alert that is neither read nor dismissed. *)
Definition sweep_covers_non_terminal (w : World) : Prop :=
  forall a, In a (alerts w) ->
            Alert.status a <> READ -> Alert.status a <> DISMISSED ->
            exists u, In (a, u) (sweep_targets w).

(** A call [op] leaves the status of every terminal alert as it was. *)
Definition keeps_terminal_status {A} (op : M A) (w : World) : Prop :=
  forall i a, nth_error (alerts w) i = Some a -> terminal (Alert.status a) ->
    exists a', nth_error (alerts (snd (op w))) i = Some a'
               /\ Alert.status a' = Alert.status a.

(** A run of the daily-briefing task creates no alert for a user who has
    a morning-briefing alert created on the current day. *)
Definition briefing_once_per_day {C : Collaborators} (w : World) (uid : Z)
  : Prop :=
  briefed_today w uid ->
  alerts_of uid (snd (BackgroundTaskManager.send_morning_briefings w))
  = alerts_of uid w.

(** All the alerts a query returned belong to one owner. *)
Definition single_owner (l : list Alert.t) : Prop :=
  exists uid, forall a, In a l -> Alert.user_id a = uid.

(** * Sample data *)

(** A reachable SMTP server and a chat API that answers. *)
Definition smtp_up : Collaborators :=
  {| smtp_connect := fun _ => Ok tt;
     smtp_send_message := fun _ _ => Ok tt;
     render_bodies := fun a => (Alert.message a, Alert.message a);
     chat_completions_create := fun _ _ => Ok "Good morning."%string |}.

(** An SMTP server that refuses the connection. *)
Definition smtp_down : Collaborators :=
  {| smtp_connect := fun _ =>
       Raise (Exc "ConnectionRefusedError" "[Errno 111] Connection refused");
     smtp_send_message := fun _ _ => Ok tt;
     render_bodies := fun a => (Alert.message a, Alert.message a);
     chat_completions_create := fun _ _ => Ok "Good morning."%string |}.

(** Two users with an address and the default briefing time. *)
Definition alice : User.t :=
  User.mk 1 "alice@example.com" true (Some "alice@example.com"%string) None
          (Some "08:00"%string).

Definition bob : User.t :=
  User.mk 2 "bob@example.com" true None None (Some "08:00"%string).

(** A user row whose address column holds the empty string. *)
Definition carol : User.t := User.mk 3 "" true None None None.

(** An email flagged both VIP and emergency. *)
Definition urgent_mail : Email.t :=
  Email.mk 10 1 "boss@example.com" (Some "Boss"%string) "Server down"
           E_UNREAD URGENT true true (Some "Production is down"%string) 990
           None.

(** A stand-up that starts ten minutes after instant 1000, with the default
    fifteen-minute reminder window. *)
Definition standup : CalendarEvent.t :=
  CalendarEvent.mk 5 1 "Stand-up" None 1600 None None None false 15.

(** No alert yet; the clock reads instant 1000 and local time is UTC. *)
Definition fresh_world : World :=
  mkWorld [] [alice; bob; carol] [urgent_mail] [standup] 1000 0 [] [].

(** A system alert of [uid] in state [s]: push only, never scheduled. *)
Definition sample_alert (pk uid : Z) (s : AlertStatus) : Alert.t :=
  Alert.mk pk uid "Title" "Body" SYSTEM NORMAL s None None
           false true false [] None None None None 900 None.

(** A table with one alert in each state for [alice] and a pending one for
    [bob]. *)
Definition mixed_world : World :=
  mkWorld [sample_alert 1 1 PENDING; sample_alert 2 1 SENT;
           sample_alert 3 1 READ; sample_alert 4 1 DISMISSED;
           sample_alert 5 2 PENDING]
          [alice; bob; carol] [] [] 1000 0 [] [].

(** An alert that was dispatched at instant 500. *)
Definition sent_alert : Alert.t :=
  Alert.mk 1 1 "Title" "Body" SYSTEM NORMAL SENT None None
           false true false [] None (Some 500) None None 400 (Some 500).

(** The same alert, looked at again at instant 1000. *)
Definition sent_world : World :=
  mkWorld [sent_alert] [alice; bob; carol] [] [] 1000 0 [] [].

(** A pending alert of [uid] scheduled for instant 950. *)
Definition due_alert (pk uid : Z) : Alert.t :=
  Alert.mk pk uid "Title" "Body" SYSTEM NORMAL PENDING None None
           false true false [] (Some 950) None None None 900 None.

(** A due alert of [alice] and a due alert of [bob] at instant 1000. *)
Definition due_world : World :=
  mkWorld [due_alert 1 1; due_alert 2 2] [alice; bob; carol] [] [] 1000 0 [] [].

(** A pending alert of [uid] with all three channels enabled. *)
Definition emergency_row (pk uid : Z) : Alert.t :=
  Alert.mk pk uid "URGENT: Emergency Email from Boss" "Immediate attention required."
           EMAIL_EMERGENCY URGENT PENDING (Some 10) None
           true true true [] None None None None 1000 None.

(** Such an alert for [alice] and one for [carol]. *)
Definition emergency_world : World :=
  mkWorld [emergency_row 7 1; emergency_row 8 3] [alice; bob; carol]
          [urgent_mail] [] 1000 0 [] [].

(** A briefing for [alice] created at instant 114900. *)
Definition briefing_alert : Alert.t :=
  Alert.mk 1 1 "Your Daily Morning Briefing" "Good morning." MORNING_BRIEFING
           NORMAL SENT None None true true false [] None (Some 114900) None None
           114900 (Some 114900).

(** Eight o'clock in the morning (instant 115200) of the day that starts at
    instant 86400: the briefing of [alice] is five minutes old. *)
Definition morning_world : World :=
  mkWorld [briefing_alert] [alice; bob; carol] [urgent_mail] [standup]
          115200 0 [] [].

(** A host nine hours east of UTC at eight o'clock in the morning, local
    time: instant 169200, which is 23:00 UTC of the day before. [alice], who
    wants her briefing at 08:00, has none yet. *)
Definition tokyo_dawn : World :=
  mkWorld [] [alice] [] [] 169200 32400 [] [].

(** The briefing of [alice] that a run of the task at that instant
    creates. *)
Definition tokyo_briefing : Alert.t :=
  Alert.mk 1 1 "Your Daily Morning Briefing" "Good morning." MORNING_BRIEFING
           NORMAL SENT None None true true false
           [("briefing_type", JStr "daily"); ("generated_at", JInt 169200)]
           None (Some 169200) None None 169200 (Some 169200).

(** The same host thirty seconds later, with that briefing in the table. *)
Definition tokyo_world : World :=
  mkWorld [tokyo_briefing] [alice] [] [] 169230 32400 [] [].

(** * Vocabulary of the further properties *)

(** The columns that no state transition writes. *)
Definition content (a : Alert.t) :=
  (Alert.id a, Alert.user_id a, Alert.title a, Alert.message a,
   Alert.alert_type a, Alert.priority a,
   Alert.email_id a, Alert.calendar_event_id a,
   (Alert.send_email a, Alert.send_push a, Alert.send_sms a),
   Alert.metadata a, Alert.scheduled_for a, Alert.created_at a).

(** Between [a] and [a'] at most [status], [updated_at] and the one
    timestamp named were written. *)
Definition wrote_sent_at_only (a a' : Alert.t) : Prop :=
  content a' = content a
  /\ Alert.read_at a' = Alert.read_at a
  /\ Alert.dismissed_at a' = Alert.dismissed_at a.

Definition wrote_read_at_only (a a' : Alert.t) : Prop :=
  content a' = content a
  /\ Alert.sent_at a' = Alert.sent_at a
  /\ Alert.dismissed_at a' = Alert.dismissed_at a.

Definition wrote_dismissed_at_only (a a' : Alert.t) : Prop :=
  content a' = content a
  /\ Alert.sent_at a' = Alert.sent_at a
  /\ Alert.read_at a' = Alert.read_at a.

(** Primary keys are unique in the alerts table. *)
Definition unique_keys (w : World) : Prop := NoDup (map Alert.id (alerts w)).

(** The channel flags of an alert: email, push, SMS. *)
Definition channels (a : Alert.t) : bool * bool * bool :=
  (Alert.send_email a, Alert.send_push a, Alert.send_sms a).

(** An alert with the given id and owner is in the table. *)
Definition owns (w : World) (uid alert_id : Z) : Prop :=
  exists a, In a (alerts w) /\ Alert.id a = alert_id /\ Alert.user_id a = uid.

(** The timestamps of a row are in lifecycle order and not in the future:
    created, then sent, then read, whenever each is set; a pending row has
    not been read. *)
Definition row_ok (now : Z) (a : Alert.t) : Prop :=
  Alert.created_at a <= now
  /\ (forall s, Alert.sent_at a = Some s -> Alert.created_at a <= s <= now)
  /\ (forall r, Alert.read_at a = Some r -> Alert.created_at a <= r <= now)
  /\ (forall s r, Alert.sent_at a = Some s -> Alert.read_at a = Some r -> s <= r)
  /\ (Alert.status a = PENDING -> Alert.read_at a = None).

(** The alerts table is well formed at the current instant. *)
Definition table_ok (w : World) : Prop :=
  unique_keys w /\ Forall (row_ok (clock w)) (alerts w).

(** [a] is at least as new as [b]: the order of the alert lists. *)
Definition newer_or_equal (a b : Alert.t) : Prop :=
  Alert.created_at b <= Alert.created_at a.

(** The unread alerts of a user, as the bulk update and the unread list
    select them. *)
Definition unread_rows (uid : Z) (w : World) : list Alert.t :=
  filter (AlertsRouter.bulk_matches uid) (alerts w).

(** The message [EmailService.send_email] builds. *)
Definition mime_message (user : User.t) (to_email subject body body_html : string)
  : Mail.t :=
  Mail.mk (User.email_user user) to_email subject body
          (if truthy_str body_html then Some body_html else None).

(** The mail a dispatch of [alert] sends to [user]. *)
Definition notification_mail {C : Collaborators} (alert : Alert.t) (user : User.t)
  : Mail.t :=
  mime_message user (User.email user)
    ("Secretary AI: " ++ Alert.title alert)%string
    (fst (render_bodies alert)) (snd (render_bodies alert)).

(** [a] starts no later than [b]: the order of the event lists. *)
Definition starts_before (a b : CalendarEvent.t) : Prop :=
  CalendarEvent.start_datetime a <= CalendarEvent.start_datetime b.

(** An alert that a new email gave rise to, dispatched. *)
Definition alert_of_email (email : Email.t) (user : User.t) (a : Alert.t) : Prop :=
  Alert.user_id a = User.id user
  /\ Alert.email_id a = Some (Email.id email)
  /\ Alert.status a = SENT.

(** An email flagged VIP only, and one not flagged at all. *)
Definition vip_mail : Email.t :=
  Email.mk 11 1 "boss@example.com" (Some "Boss"%string) "Lunch?"
           E_UNREAD HIGH false true None 990 None.

Definition plain_mail : Email.t :=
  Email.mk 12 1 "list@example.com" None "Newsletter"
           E_UNREAD NORMAL false false None 990 None.

(** The guard of [send_morning_briefings] finds a row for [uid]: a
    morning-briefing alert of the user whose [created_at] is not below the
    naive midnight. *)
Definition guard_finds (w : World) (uid : Z) : Prop :=
  exists a, In a (alerts w)
            /\ Alert.user_id a = uid
            /\ Alert.alert_type a = MORNING_BRIEFING
            /\ BackgroundTaskManager.today_start_of w <= Alert.created_at a.

(** The row that stands for the briefing of [uid] after a run that began
    at [w]: the guard found it, or the run created it. *)
Definition briefing_row (w : World) (uid : Z) (a : Alert.t) : Prop :=
  Alert.user_id a = uid
  /\ Alert.alert_type a = MORNING_BRIEFING
  /\ (BackgroundTaskManager.today_start_of w <= Alert.created_at a
      \/ Alert.created_at a = clock w).

(** The local time of day, in seconds since local midnight. *)
Definition local_time_of_day (w : World) : Z := (clock w + tz w) mod 86400.


(** The range of [datetime], as instants: from the first second of year 1
    to the last second of year 9999. *)
Definition datetime_min : Z := -62135596800.
Definition datetime_max : Z := 253402300799.
Definition is_datetime (t : Z) : Prop := datetime_min <= t <= datetime_max.

(** The briefing time of the user is the current local minute. *)
Definition briefing_due (w : World) (user : User.t) : Prop :=
  User.morning_briefing_time user = Some (strftime_HM (clock w + tz w)).

(** A chat API that is down. *)
Definition chat_down : Collaborators :=
  {| smtp_connect := fun _ => Ok tt;
     smtp_send_message := fun _ _ => Ok tt;
     render_bodies := fun a => (Alert.message a, Alert.message a);
     chat_completions_create := fun _ _ =>
       Raise (Exc "APIConnectionError" "Connection error.") |}.

(** Eight o'clock in the morning with no briefing sent yet. *)
Definition early_world : World :=
  mkWorld [] [alice; bob; carol] [urgent_mail] [standup] 115200 0 [] [].

(** A meeting that starts 10 minutes and 59 seconds after instant 1000. *)
Definition review_meeting : CalendarEvent.t :=
  CalendarEvent.mk 6 1 "Review" None 1659 None None None false 15.

(** [a] was received no earlier than [b]: the order of the email lists. *)
Definition received_no_earlier (a b : Email.t) : Prop :=
  Email.received_at b <= Email.received_at a.

(** The columns of an email that marking it as read does not write. *)
Definition email_content (e : Email.t) :=
  (Email.id e, Email.user_id e, Email.sender_email e, Email.sender_name e,
   Email.subject e, Email.priority e, Email.is_emergency e,
   Email.is_from_vip e, Email.summary e, Email.received_at e).

(** Between the rows [e] and [e'] the email with the key [pk] was marked as
    read: a row with another key is untouched; in a row with that key the
    status is read and at most [status] and [updated_at] were written. *)
Definition marked_as_read (pk : Z) (e e' : Email.t) : Prop :=
  email_content e' = email_content e
  /\ (Email.id e = pk -> Email.status e' = E_READ)
  /\ (Email.id e <> pk -> e' = e).

(** Between [w] and [w'] nothing but the emails table was written. *)
Definition only_emails_written (w w' : World) : Prop :=
  alerts w' = alerts w /\ users w' = users w
  /\ calendar_events w' = calendar_events w /\ clock w' = clock w
  /\ tz w' = tz w /\ log w' = log w /\ outbox w' = outbox w.

(** Two mails of [alice]: the older one has been read. *)
Definition read_mail : Email.t :=
  Email.mk 13 1 "ops@example.com" None "Weekly report"
           E_READ NORMAL false false None 980 (Some 985).

Definition mail_world : World :=
  mkWorld [] [alice; bob; carol] [read_mail; urgent_mail; plain_mail] []
          1000 0 [] [].

(** * Properties *)

(** ** The embedding on concrete inputs *)

Example strftime_eight : strftime_HM 115200 = "08:00"%string.
Proof. reflexivity. Qed.

Example str_int_negative : str_int (-3) = "-3"%string.
Proof. reflexivity. Qed.

Example timedelta_of_number : timedelta_minutes (Int 15) = Ok 900.
Proof. reflexivity. Qed.

Example status_of_unknown_value : AlertStatus_of_value "bogus" = None.
Proof. reflexivity. Qed.

Example next_id_of_three_rows : next_id [1; 7; 3] = 8.
Proof. reflexivity. Qed.

Example process_urgent_mail :
  map (fun a => (Alert.id a, Alert.alert_type a, Alert.status a, Alert.sent_at a))
      (alerts (snd (@BackgroundTaskManager._process_new_email smtp_up
                      urgent_mail alice fresh_world)))
  = [(1, EMAIL_VIP, SENT, Some 1000); (2, EMAIL_EMERGENCY, SENT, Some 1000)].
Proof. reflexivity. Qed.

Example list_pending_of_alice :
  fst (AlertsRouter.get_alerts None (Some "pending"%string) None None alice
         mixed_world)
  = Ok [sample_alert 1 1 PENDING].
Proof. reflexivity. Qed.

Example list_with_invalid_status :
  fst (AlertsRouter.get_alerts None (Some "bogus"%string) None None alice
         mixed_world)
  = Raise (Exc "HTTPException" "400: Invalid status").
Proof. reflexivity. Qed.

Example list_with_page_size_over_cap :
  fst (AlertsRouter.get_alerts None None (Some 101) None alice mixed_world)
  = Raise (Exc "RequestValidationError" "422").
Proof. reflexivity. Qed.

Example mark_read_of_foreign_alert :
  AlertService.mark_alert_as_read 5 (User.id alice) mixed_world
  = (Ok false, mixed_world).
Proof. reflexivity. Qed.

Example dismiss_pending_alert :
  map Alert.status (alerts (snd (AlertService.dismiss_alert 1 1 mixed_world)))
  = [DISMISSED; SENT; READ; DISMISSED; PENDING].
Proof. reflexivity. Qed.

(** ** What a call leaves alone *)

Lemma same_env_refl w : same_env w w.
Proof. repeat split. Qed.

Lemma same_env_trans w1 w2 w3 :
  same_env w1 w2 -> same_env w2 w3 -> same_env w1 w3.
Proof.
  unfold same_env. intros (?&?&?&?&?) (?&?&?&?&?).
  repeat split; congruence.
Qed.

Lemma only_io_refl w : only_io w w.
Proof.
  split; [reflexivity|]. split; [apply same_env_refl|].
  exists []. now rewrite app_nil_r.
Qed.

Lemma only_io_trans w1 w2 w3 : only_io w1 w2 -> only_io w2 w3 -> only_io w1 w3.
Proof.
  intros (Ha & He & l & Hl) (Ha' & He' & l' & Hl').
  split; [congruence|]. split; [eapply same_env_trans; eauto|].
  exists (l ++ l'). now rewrite Hl', Hl, app_assoc.
Qed.

Lemma only_io_add_log r w : only_io w (add_log r w).
Proof.
  split; [reflexivity|]. split; [repeat split|]. now exists [r].
Qed.

Lemma only_io_add_outbox m w : only_io w (add_outbox m w).
Proof.
  split; [reflexivity|]. split; [repeat split|].
  exists []. cbn. now rewrite app_nil_r.
Qed.

Create HintDb io.
#[local] Hint Resolve only_io_refl only_io_trans only_io_add_log
  only_io_add_outbox same_env_refl : io.

(** ** EmailService.send_email never raises *)

Section Sending.
Context {C : Collaborators}.

Lemma send_email_total user to_email subject body body_html w :
  exists b w', EmailService.send_email user to_email subject body body_html w
               = (Ok b, w') /\ only_io w w'
               /\ ((exists e, smtp_connect user = Raise e) -> b = false).
Proof.
  unfold EmailService.send_email, EmailService.connect_smtp, try_except, bind,
    lift, logger_error, modify, raise, ret.
  destruct (smtp_connect user) as [[]|e].
  - destruct (smtp_send_message user _) as [[]|e'];
      eexists; eexists; (split; [reflexivity|]);
      (split; [eauto with io|]); intros (e0 & He0); discriminate He0.
  - eexists; eexists; (split; [reflexivity|]); split; eauto with io.
Qed.


Lemma email_attempted_app alert l l' :
  email_attempted alert l -> email_attempted alert (l ++ l').
Proof.
  intros [H|H]; [left|right]; apply in_or_app; now left.
Qed.

Lemma email_outcome_app alert user l l' :
  email_attempted alert l
  /\ ((exists e, smtp_connect user = Raise e) -> In (email_failed_line alert) l) ->
  email_attempted alert (l ++ l')
  /\ ((exists e, smtp_connect user = Raise e) ->
      In (email_failed_line alert) (l ++ l')).
Proof.
  intros [H1 H2]. split; [now apply email_attempted_app|].
  intros Hd. apply in_or_app. left. auto.
Qed.

Lemma _send_email_notification_spec alert user w :
  exists w', AlertService._send_email_notification alert user w = (Ok tt, w')
    /\ alerts w' = alerts w /\ same_env w w'
    /\ exists l, log w' = log w ++ l /\ email_attempted alert l
         /\ ((exists e, smtp_connect user = Raise e) ->
             In (email_failed_line alert) l).
Proof.
  unfold AlertService._send_email_notification, try_except, bind.
  destruct (send_email_total user (User.email user)
              ("Secretary AI: " ++ Alert.title alert)%string
              (fst (render_bodies alert)) (snd (render_bodies alert)) w)
    as (b & w1 & -> & (Ha & He & l & Hl) & Hdown).
  destruct b; unfold logger_info, logger_error, modify;
    eexists; (split; [reflexivity|]); cbn;
    (split; [exact Ha|]); (split; [exact He|]);
    eexists; (split; [rewrite Hl, <- app_assoc; reflexivity|]).
  - split; [left; apply in_or_app; right; now left|].
    intros Hd. specialize (Hdown Hd). discriminate Hdown.
  - split; [right|intros _]; apply in_or_app; right; now left.
Qed.

(** The dispatch, step by step: what it returns, what it writes and what
    it logs, in channel order. *)
Lemma _send_alert_notification_exact alert user w :
  exists w' l_mail,
    AlertService._send_alert_notification alert user w = (Ok tt, w')
    /\ alerts w' = map (dispatched alert (clock w)) (alerts w)
    /\ same_env w w'
    /\ log w' = log w ++ l_mail ++ push_sms_lines alert
    /\ (Alert.send_email alert = true -> User.email user <> ""%string ->
        email_attempted alert l_mail
        /\ ((exists e, smtp_connect user = Raise e) ->
            In (email_failed_line alert) l_mail))
    /\ (Alert.send_email alert = false \/ User.email user = ""%string ->
        l_mail = [] /\ outbox w' = outbox w).
Proof.
  unfold AlertService._send_alert_notification, try_except, bind.
  assert (Hmail : exists w1 l,
    when (Alert.send_email alert && truthy_str (User.email user))
         (AlertService._send_email_notification alert user) w = (Ok tt, w1)
    /\ alerts w1 = alerts w /\ same_env w w1
    /\ log w1 = log w ++ l
    /\ (Alert.send_email alert = true -> User.email user <> ""%string ->
        email_attempted alert l
        /\ ((exists e, smtp_connect user = Raise e) ->
            In (email_failed_line alert) l))
    /\ (Alert.send_email alert = false \/ User.email user = ""%string ->
        l = [] /\ outbox w1 = outbox w)).
  { assert (Hskip : exists w1 l,
      (Ok tt, w) = (Ok tt, w1)
      /\ alerts w1 = alerts w /\ same_env w w1
      /\ log w1 = log w ++ l
      /\ (l = [] /\ outbox w1 = outbox w)).
    { exists w, []. rewrite app_nil_r. repeat split. }
    destruct (Alert.send_email alert) eqn:Hse; cbn [andb when].
    - destruct (User.email user) as [|c s] eqn:Hmail; cbn [truthy_str].
      + destruct Hskip as (w1 & l & H1 & H2 & H3 & H4 & H5).
        exists w1, l. repeat (split; [assumption|]).
        split; [congruence | auto].
      + destruct (_send_email_notification_spec alert user w)
          as (w1 & Hrun & Ha & He & l & Hl & Hatt & Hdown).
        exists w1, l. repeat (split; [assumption|]).
        split; [auto|]. intros [H|H]; discriminate H.
    - destruct Hskip as (w1 & l & H1 & H2 & H3 & H4 & H5).
      exists w1, l. repeat (split; [assumption|]).
      split; [congruence | auto]. }
  destruct Hmail
    as (w1 & l & -> & Ha & (Hu & He & Hc & Hk & Ht) & Hl & Hatt & Hskip).
  unfold when, AlertService._send_push_notification,
    AlertService._send_sms_notification, logger_info, utcnow, gets,
    db_update_alert, modify, ret, push_sms_lines.
  fold (push_line alert). fold (sms_line alert).
  exists (if Alert.send_push alert
          then (if Alert.send_sms alert
                then set_alerts (map (dispatched alert (clock w)) (alerts w))
                       (add_log (sms_line alert) (add_log (push_line alert) w1))
                else set_alerts (map (dispatched alert (clock w)) (alerts w))
                       (add_log (push_line alert) w1))
          else (if Alert.send_sms alert
                then set_alerts (map (dispatched alert (clock w)) (alerts w))
                       (add_log (sms_line alert) w1)
                else set_alerts (map (dispatched alert (clock w)) (alerts w)) w1)),
         l.
  destruct (Alert.send_push alert), (Alert.send_sms alert); cbn;
    rewrite ?Ha, ?Hk, ?Hl, <- ?app_assoc, ?app_nil_r;
    (split; [reflexivity|]); (split; [reflexivity|]);
    (split; [repeat split; assumption|]);
    (split; [reflexivity|]); (split; [assumption|]); exact Hskip.
Qed.

Lemma _send_alert_notification_spec alert user w :
  exists w', AlertService._send_alert_notification alert user w = (Ok tt, w')
    /\ alerts w' = map (dispatched alert (clock w)) (alerts w)
    /\ same_env w w'
    /\ exists l, log w' = log w ++ l
         /\ (Alert.send_email alert = true -> User.email user <> ""%string ->
             email_attempted alert l
             /\ ((exists e, smtp_connect user = Raise e) ->
                 In (email_failed_line alert) l))
         /\ (Alert.send_push alert = true -> In (push_line alert) l)
         /\ (Alert.send_sms alert = true -> In (sms_line alert) l).
Proof.
  destruct (_send_alert_notification_exact alert user w)
    as (w' & l & Hrun & Ha & He & Hl & Hatt & _).
  exists w'. repeat (split; [assumption|]).
  exists (l ++ push_sms_lines alert). split; [assumption|].
  split; [intros; apply email_outcome_app; auto|].
  unfold push_sms_lines.
  split; intros ->; apply in_or_app; right.
  - now left.
  - destruct (Alert.send_push alert); cbn; auto.
Qed.


(** ** Creating an alert *)

Lemma next_id_above (ids : list Z) x : In x ids -> x < next_id ids.
Proof.
  unfold next_id. induction ids as [|y ids IH]; cbn [fold_right In].
  - contradiction.
  - intros [->|H]; [lia|]. specialize (IH H). lia.
Qed.

Lemma dispatched_old_rows row now (l : list Alert.t) :
  (forall a, In a l -> Alert.id a < Alert.id row) ->
  map (dispatched row now) l = l.
Proof.
  intros H. rewrite <- (map_id l) at 2. apply map_ext_in.
  intros a Ha. unfold dispatched.
  destruct (Z.eqb_spec (Alert.id a) (Alert.id row)) as [E|E]; [|reflexivity].
  specialize (H a Ha). lia.
Qed.

Lemma find_past_old_rows pk (l : list Alert.t) row :
  (forall a, In a l -> Alert.id a < pk) -> Alert.id row = pk ->
  find (fun a => Alert.id a =? pk) (l ++ [row]) = Some row.
Proof.
  intros H Hrow. induction l as [|a l IH]; simpl.
  - subst pk. rewrite Z.eqb_refl. reflexivity.
  - destruct (Z.eqb_spec (Alert.id a) pk) as [E|E].
    + specialize (H a (or_introl eq_refl)). lia.
    + apply IH. intros b Hb. apply H. now right.
Qed.

Lemma fresh_alert_id_above w a : In a (alerts w) -> Alert.id a < fresh_alert_id w.
Proof. intros H. apply next_id_above, in_map, H. Qed.

(** Insert, dispatch, hand back the object: the common body of the four
    [create_*] methods. *)
Lemma add_dispatch_deref_spec k user w :
  exists w',
    bind (db_add_alert k)
         (fun alert => bind (AlertService._send_alert_notification alert user)
                            (fun _ => deref alert)) w
    = (Ok (created k w), w')
    /\ alerts w' = alerts w ++ [created k w]
    /\ same_env w w'
    /\ exists l, log w' = log w ++ l
         /\ (Alert.send_push (created k w) = true ->
             In (push_line (created k w)) l).
Proof.
  unfold bind at 1. unfold db_add_alert at 1. fold (fresh_alert_id w).
  set (row := Alert.row_of (fresh_alert_id w) (clock w) k).
  set (w1 := set_alerts (alerts w ++ [row]) w).
  unfold bind at 1.
  destruct (_send_alert_notification_spec row user w1)
    as (w2 & -> & Ha & He & l & Hl & _ & Hpush & _).
  assert (Hrows : alerts w2 = alerts w ++ [created k w]).
  { rewrite Ha. cbn [w1 set_alerts alerts clock]. rewrite map_app.
    rewrite dispatched_old_rows
      by (intros a Hin; apply fresh_alert_id_above in Hin; exact Hin).
    cbn [map]. unfold dispatched. rewrite Z.eqb_refl. reflexivity. }
  exists w2. split.
  - unfold deref, gets. rewrite Hrows.
    rewrite (find_past_old_rows (Alert.id row) (alerts w) (created k w));
      [reflexivity | | reflexivity].
    intros a Hin. apply fresh_alert_id_above in Hin. exact Hin.
  - split; [exact Hrows|]. split; [exact He|].
    exists l. split; [exact Hl|]. exact Hpush.
Qed.


Ltac run_create user w :=
  unfold try_except;
  match goal with
  | |- context [bind (db_add_alert ?k) ?f w] =>
      let w' := fresh "w'" in
      let Hrun := fresh "Hrun" in
      destruct (add_dispatch_deref_spec k user w)
        as (w' & Hrun & ? & (? & ? & ? & ? & ?) & ? & ? & _);
      rewrite Hrun; exists (created k w);
      unfold creation_of; cbn [fst snd];
      repeat split; first [reflexivity | eassumption | eexists; eassumption]
  end.

Lemma create_email_vip_alert_spec email user w :
  exists a, creation_of w user (AlertService.create_email_vip_alert email user w) a
    /\ Alert.alert_type a = EMAIL_VIP
    /\ Alert.email_id a = Some (Email.id email)
    /\ Alert.calendar_event_id a = None
    /\ (Alert.send_email a, Alert.send_push a, Alert.send_sms a)
       = (true, true, false).
Proof.
  unfold AlertService.create_email_vip_alert. run_create user w.
Qed.

Lemma create_emergency_email_alert_spec email user w :
  exists a,
    creation_of w user (AlertService.create_emergency_email_alert email user w) a
    /\ Alert.alert_type a = EMAIL_EMERGENCY
    /\ Alert.email_id a = Some (Email.id email)
    /\ Alert.calendar_event_id a = None
    /\ (Alert.send_email a, Alert.send_push a, Alert.send_sms a)
       = (true, true, true).
Proof.
  unfold AlertService.create_emergency_email_alert. run_create user w.
Qed.

Lemma create_meeting_reminder_alert_spec event user w :
  exists a,
    creation_of w user (AlertService.create_meeting_reminder_alert event user w) a
    /\ Alert.alert_type a = MEETING_REMINDER
    /\ Alert.email_id a = None
    /\ Alert.calendar_event_id a = Some (CalendarEvent.id event)
    /\ (Alert.send_email a, Alert.send_push a, Alert.send_sms a)
       = (false, true, false).
Proof.
  unfold AlertService.create_meeting_reminder_alert.
  unfold bind at 1, utcnow, gets. cbv beta iota.
  run_create user w.
Qed.

Lemma create_morning_briefing_alert_spec user content w :
  exists a,
    creation_of w user
      (AlertService.create_morning_briefing_alert user content w) a
    /\ Alert.alert_type a = MORNING_BRIEFING
    /\ Alert.email_id a = None
    /\ Alert.calendar_event_id a = None
    /\ (Alert.send_email a, Alert.send_push a, Alert.send_sms a)
       = (true, true, false).
Proof.
  unfold AlertService.create_morning_briefing_alert.
  unfold bind at 1, utcnow, gets. cbv beta iota.
  run_create user w.
Qed.

End Sending.

(** ** The bulk update *)

Lemma bulk_matches_iff uid a :
  AlertsRouter.bulk_matches uid a = true <-> unread_of uid a.
Proof.
  unfold AlertsRouter.bulk_matches, unread_of, Alert.is_unread.
  rewrite andb_true_iff, Z.eqb_eq.
  destruct (Alert.status a); intuition congruence.
Qed.

Lemma mark_all_alerts_as_read_run user w :
  AlertsRouter.mark_all_alerts_as_read user w
  = (Ok ("Marked "
         ++ str_int (Z.of_nat (List.length
              (filter (AlertsRouter.bulk_matches (User.id user)) (alerts w))))
         ++ " alerts as read")%string,
     set_alerts
       (map (fun a => if AlertsRouter.bulk_matches (User.id user) a
                      then Alert.mark_read (clock w) (clock w) a else a)
            (alerts w)) w).
Proof. reflexivity. Qed.

Lemma mutated_count_bulk uid now (l : list Alert.t) :
  List.length
    (filter status_changed
       (combine l (map (fun a => if AlertsRouter.bulk_matches uid a
                                 then Alert.mark_read now now a else a) l)))
  = List.length (filter (AlertsRouter.bulk_matches uid) l).
Proof.
  induction l as [|a l IH]; [reflexivity|].
  cbn [map combine filter]. unfold status_changed at 1. cbn [fst snd].
  destruct (AlertsRouter.bulk_matches uid a) eqn:Hm.
  - apply bulk_matches_iff in Hm. destruct Hm as [_ [Hs|Hs]];
      cbn [Alert.mark_read Alert.status]; rewrite Hs; cbn; now rewrite IH.
  - destruct (Alert.status a); cbn; exact IH.
Qed.

(** ** Loops that never raise *)

Lemma for_each_fold {A} (body : A -> M unit) (stepf : World -> A -> World)
      (Inv : World -> Prop) :
  (forall x w, Inv w -> body x w = (Ok tt, stepf w x) /\ Inv (stepf w x)) ->
  forall l w, Inv w ->
    for_each l body w = (Ok tt, fold_left stepf l w)
    /\ Inv (fold_left stepf l w).
Proof.
  intros Hbody l. induction l as [|x l IH]; intros w Hw; cbn [for_each fold_left].
  - split; [reflexivity | exact Hw].
  - unfold bind. destruct (Hbody x w Hw) as [-> Hinv]. now apply IH.
Qed.

(** ** The pending-alert sweep *)

Section Sweep.
Context {C : Collaborators}.

Lemma dispatch_step_spec p w :
  AlertService._send_alert_notification (fst p) (snd p) w
  = (Ok tt, dispatch_step w p)
  /\ alerts (dispatch_step w p)
     = map (dispatched (fst p) (clock w)) (alerts w)
  /\ same_env w (dispatch_step w p).
Proof.
  unfold dispatch_step.
  destruct (_send_alert_notification_spec (fst p) (snd p) w)
    as (w' & -> & Ha & He & _).
  cbn [snd]. auto.
Qed.

Lemma get_pending_alerts_run w :
  AlertService.get_pending_alerts w
  = (Ok (filter (AlertService.is_due (clock w)) (alerts w)), w).
Proof. reflexivity. Qed.

(** The loop of the sweep over any list of selected alerts. *)
Lemma sweep_loop w0 (l : list Alert.t) :
  forall w, users w = users w0 ->
    for_each l (fun alert =>
      try_except
        (bind (BackgroundTaskManager.user_by_id (Alert.user_id alert))
              (fun user => match user with
                           | Some user =>
                               AlertService._send_alert_notification alert user
                           | None => ret tt
                           end))
        (fun e => logger_error ("Error processing alert "
                                ++ str_int (Alert.id alert) ++ ": "
                                ++ exc_str e)%string)) w
    = (Ok tt, fold_left dispatch_step (targets_in w0 l) w)
    /\ users (fold_left dispatch_step (targets_in w0 l) w) = users w0.
Proof.
  induction l as [|a l IH]; intros w Hu; cbn [for_each targets_in flat_map].
  - split; [reflexivity | exact Hu].
  - fold (targets_in w0 l). rewrite fold_left_app.
    unfold bind at 1. unfold try_except at 1. unfold bind at 1.
    unfold BackgroundTaskManager.user_by_id at 1, gets at 1.
    rewrite Hu. fold (owner_of w0 a).
    destruct (owner_of w0 a) as [u|].
    + destruct (dispatch_step_spec (a, u) w) as (Hrun & _ & (Hu' & _)).
      cbn [fst snd] in Hrun. rewrite Hrun. cbn [fold_left].
      apply IH. congruence.
    + cbn [ret fold_left]. apply IH. exact Hu.
Qed.

Lemma process_pending_alerts_run w :
  BackgroundTaskManager.process_pending_alerts w
  = (Ok tt, fold_left dispatch_step (sweep_targets w) w).
Proof.
  unfold BackgroundTaskManager.process_pending_alerts.
  unfold try_except at 1. unfold bind at 1.
  rewrite get_pending_alerts_run. cbv beta iota.
  destruct (sweep_loop w (filter (AlertService.is_due (clock w)) (alerts w))
              w eq_refl) as [-> _].
  reflexivity.
Qed.

Lemma in_targets_in w l a u :
  In (a, u) (targets_in w l) <-> In a l /\ owner_of w a = Some u.
Proof.
  unfold targets_in. rewrite in_flat_map. split.
  - intros (x & Hx & Hin). destruct (owner_of w x) as [v|] eqn:Ho.
    + destruct Hin as [Heq|[]]. inversion Heq; subst. now split.
    + destruct Hin.
  - intros (Hin & Ho). exists a. split; [exact Hin|].
    rewrite Ho. now left.
Qed.

Lemma is_due_iff now a :
  AlertService.is_due now a = true
  <-> Alert.status a = PENDING
      /\ exists t, Alert.scheduled_for a = Some t /\ t <= now.
Proof.
  unfold AlertService.is_due. rewrite andb_true_iff. split.
  - intros [Hs Ht]. split; [destruct (Alert.status a); (reflexivity || discriminate)|].
    destruct (Alert.scheduled_for a) as [t|]; [|discriminate].
    exists t. split; [reflexivity|]. now apply Z.leb_le.
  - intros [Hs (t & Ht & Hle)]. rewrite Hs, Ht. split; [reflexivity|].
    now apply Z.leb_le.
Qed.

Lemma in_sweep_targets w a u :
  In (a, u) (sweep_targets w)
  <-> In a (alerts w)
      /\ Alert.status a = PENDING
      /\ (exists t, Alert.scheduled_for a = Some t /\ t <= clock w)
      /\ owner_of w a = Some u.
Proof.
  unfold sweep_targets. rewrite in_targets_in, filter_In, is_due_iff.
  tauto.
Qed.

(** The table after a series of dispatches at one clock reading. *)
Lemma dispatch_steps_alerts ts :
  forall w,
    alerts (fold_left dispatch_step ts w)
    = map (fun a => if existsb (fun p => Alert.id a =? Alert.id (fst p)) ts
                    then Alert.mark_sent (clock w) (clock w) a else a)
          (alerts w)
    /\ same_env w (fold_left dispatch_step ts w).
Proof.
  induction ts as [|p ts IH]; intros w; cbn [fold_left existsb].
  - split; [now rewrite map_id | apply same_env_refl].
  - destruct (dispatch_step_spec p w) as (_ & Ha & He).
    destruct (IH (dispatch_step w p)) as [IHa IHe].
    split; [|eapply same_env_trans; eauto].
    rewrite IHa, Ha, map_map.
    destruct He as (_ & _ & _ & -> & _).
    apply map_ext. intros a. unfold dispatched.
    destruct (Alert.id a =? Alert.id (fst p)) eqn:E; cbn [orb].
    + cbn [Alert.mark_sent Alert.id].
      destruct (existsb _ ts); reflexivity.
    + reflexivity.
Qed.

End Sweep.

(** ** Single-row transitions *)

Lemma mark_alert_as_read_run alert_id uid w :
  AlertService.mark_alert_as_read alert_id uid w
  = match first (filter (fun a => (Alert.id a =? alert_id)
                                  && (Alert.user_id a =? uid)) (alerts w)) with
    | Some alert =>
        (Ok true,
         set_alerts
           (map (fun a => if Alert.id a =? Alert.id alert
                          then Alert.mark_read (clock w) (clock w) a else a)
                (alerts w)) w)
    | None => (Ok false, w)
    end.
Proof.
  unfold AlertService.mark_alert_as_read, try_except, bind, gets.
  destruct (first _); reflexivity.
Qed.

Lemma dismiss_alert_run alert_id uid w :
  AlertService.dismiss_alert alert_id uid w
  = match first (filter (fun a => (Alert.id a =? alert_id)
                                  && (Alert.user_id a =? uid)) (alerts w)) with
    | Some alert =>
        (Ok true,
         set_alerts
           (map (fun a => if Alert.id a =? Alert.id alert
                          then Alert.mark_dismissed (clock w) (clock w) a else a)
                (alerts w)) w)
    | None => (Ok false, w)
    end.
Proof.
  unfold AlertService.dismiss_alert, try_except, bind, gets.
  destruct (first _); reflexivity.
Qed.

Lemma first_filter_some {A} (f : A -> bool) (l : list A) x :
  first (filter f l) = Some x -> In x l /\ f x = true.
Proof.
  intros H. apply filter_In. destruct (filter f l); [discriminate|].
  inversion H; subst. now left.
Qed.

Lemma first_filter_none {A} (f : A -> bool) (l : list A) x :
  first (filter f l) = None -> In x l -> f x = false.
Proof.
  intros H Hin. destruct (f x) eqn:E; [|reflexivity].
  assert (Hx : In x (filter f l)) by (apply filter_In; auto).
  destruct (filter f l); [destruct Hx | discriminate].
Qed.

(** The row found by id and owner has that id and that owner. *)
Lemma found_by_id_and_owner alert_id uid (l : list Alert.t) alert :
  first (filter (fun a => (Alert.id a =? alert_id)
                          && (Alert.user_id a =? uid)) l) = Some alert ->
  In alert l /\ Alert.id alert = alert_id /\ Alert.user_id alert = uid.
Proof.
  intros H. apply first_filter_some in H. destruct H as [Hin H].
  apply andb_true_iff in H. destruct H as [H1 H2].
  apply Z.eqb_eq in H1, H2. auto.
Qed.

(** Primary keys are unique. *)
Lemma unique_key (l : list Alert.t) a b :
  NoDup (map Alert.id l) -> In a l -> In b l -> Alert.id a = Alert.id b -> a = b.
Proof.
  induction l as [|x l IH]; cbn [map In]; [contradiction|].
  intros Hnd [->|Ha] [->|Hb] Hid; inversion Hnd; subst.
  - reflexivity.
  - exfalso. apply H1. rewrite Hid. now apply in_map.
  - exfalso. apply H1. rewrite <- Hid. now apply in_map.
  - now apply IH.
Qed.

(** ** Results of queries are rows of the table *)

Lemma In_insert_by {A} (le : A -> A -> bool) x y (l : list A) :
  In y (insert_by le x l) <-> y = x \/ In y l.
Proof.
  induction l as [|z l IH]; cbn [insert_by In]; [intuition congruence|].
  destruct (le x z); cbn [In]; rewrite ?IH; intuition congruence.
Qed.

Lemma In_order_by {A} (le : A -> A -> bool) y (l : list A) :
  In y (order_by le l) <-> In y l.
Proof.
  unfold order_by. induction l as [|x l IH]; cbn [fold_right In]; [tauto|].
  rewrite In_insert_by, IH. intuition congruence.
Qed.

Lemma In_limit {A} n y (l : list A) : In y (limit n l) -> In y l.
Proof.
  unfold limit. generalize (Z.to_nat n) as k. intros k. revert l.
  induction k as [|k IH]; intros [|x l]; cbn [firstn In]; try tauto.
  intros [->|H]; auto.
Qed.

Lemma In_offset {A} n y (l : list A) : In y (offset n l) -> In y l.
Proof.
  unfold offset. generalize (Z.to_nat n) as k. intros k. revert l.
  induction k as [|k IH]; intros [|x l]; cbn [skipn In]; try tauto.
  intros H. right. now apply IH.
Qed.

(** ** The daily briefing *)

Section Briefing.
Context {C : Collaborators}.

Lemma send_morning_briefings_unfold :
  BackgroundTaskManager.send_morning_briefings
  = try_except
      (bind (gets (fun w => filter User.is_active (users w)))
            (fun active => for_each active briefing_iteration))
      (fun e => logger_error ("Error in send_morning_briefings: "
                              ++ exc_str e)%string).
Proof. reflexivity. Qed.

(** The briefing text is always produced; producing it only logs. *)
Lemma _generate_daily_briefing_total user w :
  exists s w', BackgroundTaskManager._generate_daily_briefing user w = (Ok s, w')
               /\ only_io w w'.
Proof.
  unfold BackgroundTaskManager._generate_daily_briefing,
    AIService.generate_morning_briefing,
    CalendarService.get_upcoming_events, try_except, bind, utcnow, gets,
    lift, logger_error, modify, ret.
  destruct (chat_completions_create _ _) as [s|e];
    eexists; eexists; (split; [reflexivity|]); eauto with io.
Qed.

End Briefing.

(** * The specified properties *)

(** ** C1: a dispatch tolerates channel failures *)

(** C1 (as amended). A dispatch never raises. It attempts the email
    channel when the alert has it enabled and the user has a non-empty
    email address, and not at all otherwise; then the push channel and then
    the SMS channel, each whenever the alert has it enabled. An SMTP server
    that raises is logged as a failed send and stops neither the later
    channels nor the transition. After the attempts the rows of the alert
    are in state sent with [sent_at] set to the current instant, whatever
    the channels did, and no other row has changed. *)
Theorem dispatch_attempts_channels_and_marks_sent
        (C : Collaborators) (alert : Alert.t) (user : User.t) (w : World) :
  exists l_mail,
    let r := AlertService._send_alert_notification alert user w in
    fst r = Ok tt
    /\ log (snd r) = log w ++ l_mail ++ push_sms_lines alert
    /\ (Alert.send_email alert = true -> User.email user <> ""%string ->
        email_attempted alert l_mail
        /\ ((exists e, smtp_connect user = Raise e) ->
            In (email_failed_line alert) l_mail))
    /\ (Alert.send_email alert = false \/ User.email user = ""%string ->
        l_mail = [] /\ outbox (snd r) = outbox w)
    /\ (Alert.send_push alert = true -> In (push_line alert) (push_sms_lines alert))
    /\ (Alert.send_sms alert = true -> In (sms_line alert) (push_sms_lines alert))
    /\ alerts (snd r) = map (dispatched alert (clock w)) (alerts w)
    /\ (forall a, In a (alerts w) -> Alert.id a = Alert.id alert ->
          Alert.status a = PENDING ->
          In (Alert.mark_sent (clock w) (clock w) a) (alerts (snd r)))
    /\ (forall a', In a' (alerts (snd r)) -> Alert.id a' = Alert.id alert ->
          Alert.status a' = SENT /\ Alert.sent_at a' = Some (clock w)).
Proof.
  destruct (_send_alert_notification_exact alert user w)
    as (w' & l & Hrun & Ha & _ & Hl & Hmail & Hskip).
  exists l. cbv zeta. rewrite Hrun. cbn [fst snd].
  repeat (split; [assumption || reflexivity|]).
  unfold push_sms_lines.
  split; [intros ->; apply in_or_app; left; now left|].
  split; [intros ->; apply in_or_app; right; now left|].
  split; [assumption|].
  split.
  - intros a Hin Hid _. rewrite Ha. apply in_map_iff. exists a.
    unfold dispatched. rewrite Hid, Z.eqb_refl. auto.
  - intros a' Hin Hid. rewrite Ha in Hin. apply in_map_iff in Hin.
    destruct Hin as (a0 & <- & _). unfold dispatched in *.
    destruct (Alert.id a0 =? Alert.id alert) eqn:E; [split; reflexivity|].
    apply Z.eqb_neq in E. contradiction.
Qed.

(** The SMTP server refuses the connection while an alert of [alice] with
    all three channels enabled is dispatched: the failed send is logged, the
    push and the SMS channel are attempted all the same and the alert is
    sent. *)
Lemma dispatch_with_smtp_down_witness :
  log (snd (@AlertService._send_alert_notification smtp_down
              (emergency_row 7 1) alice emergency_world))
  = [Log ERROR "SMTP connection failed: [Errno 111] Connection refused";
     Log ERROR "Error sending email: [Errno 111] Connection refused";
     email_failed_line (emergency_row 7 1);
     push_line (emergency_row 7 1);
     sms_line (emergency_row 7 1)]
  /\ In (Alert.mark_sent 1000 1000 (emergency_row 7 1))
        (alerts (snd (@AlertService._send_alert_notification smtp_down
                        (emergency_row 7 1) alice emergency_world))).
Proof.
  destruct (dispatch_attempts_channels_and_marks_sent
              smtp_down (emergency_row 7 1) alice emergency_world)
    as (l & _ & _ & _ & _ & _ & _ & _ & Hrow & _).
  split; [reflexivity|].
  apply Hrow; [left|  |]; reflexivity.
Defined.

(** The alert of [carol], whose address is the empty string, has the email
    channel enabled, yet its dispatch goes to push and SMS only: nothing is
    handed to the email service. *)
Lemma email_channel_skipped_without_address :
  Alert.send_email (emergency_row 8 3) = true
  /\ ~ @all_enabled_channels_attempted smtp_up emergency_world
        (emergency_row 8 3) carol
  /\ log (snd (@AlertService._send_alert_notification smtp_up
                 (emergency_row 8 3) carol emergency_world))
     = [push_line (emergency_row 8 3); sms_line (emergency_row 8 3)]
  /\ outbox (snd (@AlertService._send_alert_notification smtp_up
                    (emergency_row 8 3) carol emergency_world)) = [].
Proof.
  split; [reflexivity|]. split; [|split; reflexivity].
  intros (l & Hl & Hmail & _).
  change (log emergency_world ++ l) with l in Hl. subst l.
  specialize (Hmail eq_refl).
  vm_compute in Hmail.
  destruct Hmail as [[H|[H|[]]]|[H|[H|[]]]]; discriminate H.
Qed.

(** ** C2: the dispatch timestamp *)

(** C2 (as amended). Every dispatch, whatever the status of the alert
    before, sets the status of its row to sent and sets [sent_at] to the
    instant of that dispatch: a second dispatch at a later instant replaces
    the timestamp of the first. The sweep itself never dispatches an alert
    in state sent, since it selects pending alerts only. *)
Theorem dispatch_always_restamps_sent_at
        (C : Collaborators) (alert : Alert.t) (user user' : User.t)
        (w : World) (later : Z) :
  let w1 := snd (AlertService._send_alert_notification alert user w) in
  let w2 := snd (AlertService._send_alert_notification alert user'
                   (set_clock later w1)) in
  (forall a, In a (alerts w1) -> Alert.id a = Alert.id alert ->
             Alert.status a = SENT /\ Alert.sent_at a = Some (clock w))
  /\ (forall a, In a (alerts w2) -> Alert.id a = Alert.id alert ->
                Alert.status a = SENT /\ Alert.sent_at a = Some later)
  /\ (forall a u, Alert.status a = SENT -> ~ In (a, u) (sweep_targets w)).
Proof.
  intros w1 w2.
  assert (Hstamp : forall v u a,
             In a (alerts (snd (AlertService._send_alert_notification alert u v))) ->
             Alert.id a = Alert.id alert ->
             Alert.status a = SENT /\ Alert.sent_at a = Some (clock v)).
  { intros v u a Hin Hid.
    destruct (_send_alert_notification_spec alert u v) as (v' & Hrun & Ha & _).
    rewrite Hrun in Hin. cbn [snd] in Hin. rewrite Ha in Hin.
    apply in_map_iff in Hin. destruct Hin as (a0 & <- & _).
    unfold dispatched in *.
    destruct (Alert.id a0 =? Alert.id alert) eqn:E.
    - split; reflexivity.
    - apply Z.eqb_neq in E. contradiction. }
  split; [intros a; apply Hstamp|].
  split.
  - intros a Hin Hid. apply (Hstamp (set_clock later w1) user' a Hin Hid).
  - intros a u Hs Hin. apply in_sweep_targets in Hin.
    destruct Hin as (_ & Hp & _). congruence.
Qed.

(** The alert sent at instant 500 is dispatched at instant 1000 and again at
    instant 2000. *)
Lemma dispatch_restamps_witness :
  In (Alert.mark_sent 2000 2000 (Alert.mark_sent 1000 1000 sent_alert))
     (alerts (snd (@AlertService._send_alert_notification smtp_up sent_alert
                     alice
                     (set_clock 2000
                        (snd (@AlertService._send_alert_notification smtp_up
                                sent_alert alice sent_world))))))
  /\ Alert.status (Alert.mark_sent 2000 2000 (Alert.mark_sent 1000 1000 sent_alert))
     = SENT
  /\ Alert.sent_at (Alert.mark_sent 2000 2000 (Alert.mark_sent 1000 1000 sent_alert))
     = Some 2000.
Proof.
  split; [left; reflexivity|].
  apply (proj1 (proj2 (dispatch_always_restamps_sent_at
                         smtp_up sent_alert alice alice sent_world 2000))).
  - left. reflexivity.
  - reflexivity.
Defined.

(** A dispatch at instant 1000 of the alert that was sent at instant 500. *)
Lemma redispatch_overwrites_sent_at :
  ~ @redispatch_keeps_sent_at smtp_up sent_world sent_alert alice.
Proof.
  intros H.
  specialize (H (or_introl eq_refl) eq_refl
                (Alert.mark_sent 1000 1000 sent_alert)
                (or_introl eq_refl) eq_refl).
  discriminate H.
Qed.

(** ** C3: what the sweep dispatches *)

(** C3 (as amended). A run of the sweep never raises and is the series of
    dispatches on its targets, in table order; the targets are exactly the
    persisted alerts whose status is pending, whose [scheduled_for] is set
    and not later than the current instant, and whose owner exists, each
    paired with that owner; every target is in state sent afterwards. An
    alert in state sent, and a pending alert without a [scheduled_for] that
    has passed, is not dispatched again. *)
Theorem sweep_dispatches_due_pending_alerts (C : Collaborators) (w : World) :
  BackgroundTaskManager.process_pending_alerts w
  = (Ok tt, fold_left dispatch_step (sweep_targets w) w)
  /\ (forall a u,
        In (a, u) (sweep_targets w)
        <-> In a (alerts w)
            /\ Alert.status a = PENDING
            /\ (exists t, Alert.scheduled_for a = Some t /\ t <= clock w)
            /\ owner_of w a = Some u)
  /\ (forall a u,
        In (a, u) (sweep_targets w) ->
        In (Alert.mark_sent (clock w) (clock w) a)
           (alerts (snd (BackgroundTaskManager.process_pending_alerts w)))).
Proof.
  split; [apply process_pending_alerts_run|].
  split; [apply in_sweep_targets|].
  intros a u Hin. rewrite process_pending_alerts_run. cbn [snd].
  destruct (dispatch_steps_alerts (sweep_targets w) w) as [-> _].
  pose proof (proj1 (in_sweep_targets w a u) Hin) as (Ha & _).
  apply in_map_iff. exists a. split; [|exact Ha].
  replace (existsb _ (sweep_targets w)) with true; [reflexivity|].
  symmetry. apply existsb_exists. exists (a, u). split; [exact Hin|].
  cbn [fst]. apply Z.eqb_refl.
Qed.

(** A sent alert and a pending alert that was never scheduled are neither
    read nor dismissed, yet the sweep over [mixed_world] changes nothing at
    all, where a dispatch of either would have. *)
Lemma sweep_skips_sent_and_unscheduled :
  ~ sweep_covers_non_terminal mixed_world
  /\ @BackgroundTaskManager.process_pending_alerts smtp_up mixed_world
     = (Ok tt, mixed_world)
  /\ snd (@AlertService._send_alert_notification smtp_up
            (sample_alert 2 1 SENT) alice mixed_world) <> mixed_world
  /\ snd (@AlertService._send_alert_notification smtp_up
            (sample_alert 1 1 PENDING) alice mixed_world) <> mixed_world.
Proof.
  split; [|split; [reflexivity|split]].
  - intros H.
    destruct (H (sample_alert 2 1 SENT)) as (u & Hu);
      [cbn; auto | discriminate | discriminate | ].
    exact Hu.
  - intros H. apply (f_equal log) in H. vm_compute in H. discriminate.
  - intros H. apply (f_equal log) in H. vm_compute in H. discriminate.
Qed.

(** The due alert of [alice] in [due_world] is dispatched by the sweep. *)
Lemma sweep_dispatches_due_witness :
  In (Alert.mark_sent 1000 1000 (due_alert 1 1))
     (alerts (snd (@BackgroundTaskManager.process_pending_alerts smtp_up due_world))).
Proof.
  apply (sweep_dispatches_due_pending_alerts smtp_up due_world) with (u := alice).
  left. reflexivity.
Defined.

(** The sweep over [due_world] dispatches both due alerts. *)
Example sweep_due_world :
  map Alert.status
      (alerts (snd (@BackgroundTaskManager.process_pending_alerts smtp_up due_world)))
  = [SENT; SENT]
  /\ map Alert.sent_at
      (alerts (snd (@BackgroundTaskManager.process_pending_alerts smtp_up due_world)))
  = [Some 1000; Some 1000].
Proof. split; reflexivity. Qed.

(** ** C4: read and dismissed *)

(** C4 (as amended). The bulk mark-all-read and the sweep (over a table
    with unique primary keys) leave the status of every read or dismissed
    alert as it was; [mark_alert_as_read] leaves a read alert read and
    [dismiss_alert] leaves a dismissed alert dismissed. But neither of the
    two, nor the dispatch, looks at the status before: [mark_alert_as_read]
    makes the alert it finds read, [dismiss_alert] makes it dismissed and a
    dispatch makes the alert sent, whatever its status was. *)
Theorem terminal_status_kept_by_bulk_and_sweep_only
        (C : Collaborators) (w : World) :
  (forall user,
      keeps_terminal_status (AlertsRouter.mark_all_alerts_as_read user) w)
  /\ (NoDup (map Alert.id (alerts w)) ->
      keeps_terminal_status BackgroundTaskManager.process_pending_alerts w)
  /\ (forall alert_id uid i a,
        nth_error (alerts w) i = Some a -> Alert.status a = READ ->
        exists a',
          nth_error (alerts (snd (AlertService.mark_alert_as_read alert_id uid w))) i
          = Some a' /\ Alert.status a' = READ)
  /\ (forall alert_id uid i a,
        nth_error (alerts w) i = Some a -> Alert.status a = DISMISSED ->
        exists a',
          nth_error (alerts (snd (AlertService.dismiss_alert alert_id uid w))) i
          = Some a' /\ Alert.status a' = DISMISSED)
  /\ (forall a, In a (alerts w) ->
        let r := AlertService.mark_alert_as_read (Alert.id a) (Alert.user_id a) w in
        fst r = Ok true
        /\ In (Alert.mark_read (clock w) (clock w) a) (alerts (snd r)))
  /\ (forall a, In a (alerts w) ->
        let r := AlertService.dismiss_alert (Alert.id a) (Alert.user_id a) w in
        fst r = Ok true
        /\ In (Alert.mark_dismissed (clock w) (clock w) a) (alerts (snd r)))
  /\ (forall alert user a, In a (alerts w) -> Alert.id a = Alert.id alert ->
        In (Alert.mark_sent (clock w) (clock w) a)
           (alerts (snd (AlertService._send_alert_notification alert user w)))).
Proof.
  repeat apply conj.
  - (* bulk *)
    intros user i a Hi [Hs|Hs]; rewrite mark_all_alerts_as_read_run;
      cbn [snd set_alerts alerts]; rewrite nth_error_map, Hi; cbn [option_map];
      unfold AlertsRouter.bulk_matches, Alert.is_unread; rewrite Hs, andb_false_r;
      eauto.
  - (* sweep *)
    intros Hnd i a Hi Ht. rewrite process_pending_alerts_run. cbn [snd].
    destruct (dispatch_steps_alerts (sweep_targets w) w) as [-> _].
    rewrite nth_error_map, Hi. cbn [option_map].
    destruct (existsb _ (sweep_targets w)) eqn:E; [|eauto].
    exfalso. apply existsb_exists in E. destruct E as ([b u] & Hin & Hid).
    cbn [fst] in Hid. apply Z.eqb_eq in Hid.
    apply in_sweep_targets in Hin. destruct Hin as (Hb & Hp & _).
    assert (a = b) by (eapply unique_key; eauto using nth_error_In). subst b.
    destruct Ht; congruence.
  - (* mark_alert_as_read on a read alert *)
    intros alert_id uid i a Hi Hs. rewrite mark_alert_as_read_run.
    destruct (first _); cbn [snd set_alerts alerts]; [|eauto].
    rewrite nth_error_map, Hi. cbn [option_map]. eexists. split; [reflexivity|].
    destruct (_ =? _); [reflexivity | exact Hs].
  - (* dismiss_alert on a dismissed alert *)
    intros alert_id uid i a Hi Hs. rewrite dismiss_alert_run.
    destruct (first _); cbn [snd set_alerts alerts]; [|eauto].
    rewrite nth_error_map, Hi. cbn [option_map]. eexists. split; [reflexivity|].
    destruct (_ =? _); [reflexivity | exact Hs].
  - (* mark_alert_as_read overrides *)
    intros a Ha r. subst r. rewrite mark_alert_as_read_run.
    destruct (first _) as [alert|] eqn:E.
    + apply found_by_id_and_owner in E. destruct E as (_ & Hid & _).
      cbn [fst snd set_alerts alerts]. split; [reflexivity|].
      apply in_map_iff. exists a. rewrite Hid, Z.eqb_refl. auto.
    + apply (first_filter_none _ _ a) in E; [|exact Ha].
      cbv beta in E. rewrite !Z.eqb_refl in E. discriminate.
  - (* dismiss_alert overrides *)
    intros a Ha r. subst r. rewrite dismiss_alert_run.
    destruct (first _) as [alert|] eqn:E.
    + apply found_by_id_and_owner in E. destruct E as (_ & Hid & _).
      cbn [fst snd set_alerts alerts]. split; [reflexivity|].
      apply in_map_iff. exists a. rewrite Hid, Z.eqb_refl. auto.
    + apply (first_filter_none _ _ a) in E; [|exact Ha].
      cbv beta in E. rewrite !Z.eqb_refl in E. discriminate.
  - (* dispatch overrides *)
    intros alert user a Ha Hid.
    destruct (_send_alert_notification_spec alert user w) as (w' & Hrun & Hrows & _).
    rewrite Hrun. cbn [snd]. rewrite Hrows. apply in_map_iff. exists a. unfold dispatched.
    rewrite Hid, Z.eqb_refl. auto.
Qed.

(** On [mixed_world], where primary keys are unique, the sweep keeps the
    read alert of [alice] (the third row). *)
Lemma terminal_status_kept_witness :
  exists a',
    nth_error (alerts (snd (@BackgroundTaskManager.process_pending_alerts smtp_up
                              mixed_world))) 2
    = Some a'
    /\ Alert.status a' = Alert.status (sample_alert 3 1 READ).
Proof.
  apply (proj1 (proj2 (terminal_status_kept_by_bulk_and_sweep_only
                         smtp_up mixed_world))).
  - repeat constructor; cbn; intuition discriminate.
  - reflexivity.
  - left. reflexivity.
Defined.

(** Dismissing the read alert 3, marking the dismissed alert 4 as read and
    dispatching the read alert 3 each change a terminal status. *)
Lemma terminal_states_are_left :
  ~ keeps_terminal_status (AlertService.dismiss_alert 3 1) mixed_world
  /\ ~ keeps_terminal_status (AlertService.mark_alert_as_read 4 1) mixed_world
  /\ ~ keeps_terminal_status
        (@AlertService._send_alert_notification smtp_up
           (sample_alert 3 1 READ) alice) mixed_world.
Proof.
  repeat apply conj; intros H.
  - destruct (H 2%nat (sample_alert 3 1 READ) eq_refl (or_introl eq_refl))
      as (a' & Hn & Hs).
    vm_compute in Hn. inversion Hn; subst. discriminate Hs.
  - destruct (H 3%nat (sample_alert 4 1 DISMISSED) eq_refl (or_intror eq_refl))
      as (a' & Hn & Hs).
    vm_compute in Hn. inversion Hn; subst. discriminate Hs.
  - destruct (H 2%nat (sample_alert 3 1 READ) eq_refl (or_introl eq_refl))
      as (a' & Hn & Hs).
    vm_compute in Hn. inversion Hn; subst. discriminate Hs.
Qed.

(** ** C5: scoping by owner *)

(** C5 (as amended). Every operation invoked for a user is scoped by that
    user's id: the list by user, the unread list, the filtered and paged
    list and the lookup by id return rows of the table owned by that user
    only; the bulk transition, and (primary keys being unique) marking as
    read and dismissing, leave every row of another owner as it was. The
    pending-sweep query is the exception: it is invoked for no user and
    returns the due pending alerts of all owners; the sweep then dispatches
    each of them to its own owner. *)
Theorem operations_scoped_by_owner_except_sweep
        (C : Collaborators) (w : World) (user : User.t) :
  (forall lim l, returned (AlertService.get_user_alerts (User.id user) lim w) l ->
     forall a, In a l -> In a (alerts w) /\ Alert.user_id a = User.id user)
  /\ (forall l, returned (AlertService.get_unread_alerts (User.id user) w) l ->
     forall a, In a l -> In a (alerts w) /\ Alert.user_id a = User.id user)
  /\ (forall ty st lim off l,
        returned (AlertsRouter.get_alerts ty st lim off user w) l ->
        forall a, In a l -> In a (alerts w) /\ Alert.user_id a = User.id user)
  /\ (forall alert_id a, returned (AlertsRouter.get_alert alert_id user w) a ->
        In a (alerts w) /\ Alert.user_id a = User.id user)
  /\ (forall i a, nth_error (alerts w) i = Some a ->
        Alert.user_id a <> User.id user ->
        nth_error (alerts (snd (AlertsRouter.mark_all_alerts_as_read user w))) i
        = Some a)
  /\ (NoDup (map Alert.id (alerts w)) ->
      forall alert_id i a, nth_error (alerts w) i = Some a ->
        Alert.user_id a <> User.id user ->
        nth_error (alerts (snd (AlertService.mark_alert_as_read
                                  alert_id (User.id user) w))) i = Some a
        /\ nth_error (alerts (snd (AlertService.dismiss_alert
                                     alert_id (User.id user) w))) i = Some a)
  /\ (forall l, returned (AlertService.get_pending_alerts w) l ->
        forall a, In a l <-> In a (alerts w) /\ AlertService.is_due (clock w) a = true)
  /\ (forall a u, In (a, u) (sweep_targets w) -> User.id u = Alert.user_id a).
Proof.
  unfold returned. repeat apply conj.
  - intros lim l Hl a Ha. cbn in Hl. inversion Hl; subst l; clear Hl.
    apply In_limit, In_order_by, filter_In in Ha.
    destruct Ha as [Ha Hu]. apply Z.eqb_eq in Hu. auto.
  - intros l Hl a Ha. cbn in Hl. inversion Hl; subst l; clear Hl.
    apply In_order_by, filter_In in Ha.
    destruct Ha as [Ha Hu]. apply andb_true_iff in Hu.
    destruct Hu as [Hu _]. apply Z.eqb_eq in Hu. auto.
  - intros ty st lim off l Hl a Ha.
    unfold AlertsRouter.get_alerts in Hl.
    destruct (_ || _); [discriminate Hl|].
    unfold bind, gets, ret, raise in Hl.
    assert (Hsub : forall q : list Alert.t,
               (forall x, In x q -> In x (alerts w)
                                    /\ Alert.user_id x = User.id user) ->
               In a (limit (Alert.or_default 50 lim)
                       (offset (Alert.or_default 0 off)
                          (order_by AlertService.newest_first q))) ->
               In a (alerts w) /\ Alert.user_id a = User.id user).
    { intros q Hq Hin. apply In_limit, In_offset, In_order_by in Hin. auto. }
    assert (Hbase : forall x,
               In x (filter (fun a0 => Alert.user_id a0 =? User.id user) (alerts w)) ->
               In x (alerts w) /\ Alert.user_id x = User.id user).
    { intros x Hx. apply filter_In in Hx. destruct Hx as [Hx Hu].
      apply Z.eqb_eq in Hu. auto. }
    destruct (truthy_opt ty);
      [destruct (AlertType_of_value (fmt_opt ty)); [|discriminate Hl]|];
      (destruct (truthy_opt st);
       [destruct (AlertStatus_of_value (fmt_opt st)); [|discriminate Hl]|]);
      cbn [fst] in Hl; inversion Hl; subst l; clear Hl;
      (eapply Hsub; [|exact Ha]); intros x Hx;
      repeat match goal with
             | H : In _ (filter _ (filter _ _)) |- _ =>
                 apply filter_In in H; destruct H as [H _]
             | H : In _ (filter (fun a0 => AlertType_eqb _ _) _) |- _ =>
                 apply filter_In in H; destruct H as [H _]
             | H : In _ (filter (fun a0 => AlertStatus_eqb _ _) _) |- _ =>
                 apply filter_In in H; destruct H as [H _]
             end;
      apply Hbase; exact Hx.
  - intros alert_id a Ha. unfold AlertsRouter.get_alert, bind, gets in Ha.
    destruct (first _) as [alert|] eqn:E; [|discriminate Ha].
    cbn in Ha. inversion Ha; subst alert.
    apply found_by_id_and_owner in E. tauto.
  - intros i a Hi Hne. rewrite mark_all_alerts_as_read_run.
    cbn [snd set_alerts alerts]. rewrite nth_error_map, Hi. cbn [option_map].
    unfold AlertsRouter.bulk_matches.
    destruct (Z.eqb_spec (Alert.user_id a) (User.id user)); [contradiction|].
    reflexivity.
  - intros Hnd alert_id i a Hi Hne.
    assert (Hother : forall alert,
               first (filter (fun a0 => (Alert.id a0 =? alert_id)
                                        && (Alert.user_id a0 =? User.id user))
                             (alerts w)) = Some alert ->
               (Alert.id a =? Alert.id alert) = false).
    { intros alert E. apply found_by_id_and_owner in E.
      destruct E as (Hin & _ & Hu).
      apply Z.eqb_neq. intros Hid. apply Hne.
      rewrite (unique_key (alerts w) a alert Hnd); eauto using nth_error_In. }
    rewrite mark_alert_as_read_run, dismiss_alert_run.
    destruct (first _) as [alert|] eqn:E; cbn [snd set_alerts alerts];
      [|auto].
    rewrite !nth_error_map, Hi. cbn [option_map].
    rewrite (Hother alert eq_refl). auto.
  - intros l Hl a. rewrite get_pending_alerts_run in Hl. cbn in Hl.
    inversion Hl; subst l. apply filter_In.
  - intros a u Hin. apply in_sweep_targets in Hin.
    destruct Hin as (_ & _ & _ & Ho). unfold owner_of in Ho.
    apply first_filter_some in Ho. destruct Ho as [_ Ho].
    now apply Z.eqb_eq in Ho.
Qed.

(** On [mixed_world] marking alert 1 of [alice] as read leaves the pending
    alert of [bob] (the fifth row) as it was. *)
Lemma operations_scoped_witness :
  nth_error (alerts (snd (AlertService.mark_alert_as_read 1 (User.id alice)
                            mixed_world))) 4
  = Some (sample_alert 5 2 PENDING).
Proof.
  apply (operations_scoped_by_owner_except_sweep smtp_up mixed_world alice).
  - repeat constructor; cbn; intuition discriminate.
  - reflexivity.
  - discriminate.
Defined.

(** The pending-sweep query over [due_world] returns an alert of [alice]
    and an alert of [bob]. *)
Lemma pending_query_crosses_owners :
  returned (AlertService.get_pending_alerts due_world)
           [due_alert 1 1; due_alert 2 2]
  /\ ~ single_owner [due_alert 1 1; due_alert 2 2].
Proof.
  split; [reflexivity|].
  intros (uid & H).
  pose proof (H (due_alert 1 1) (or_introl eq_refl)) as H1.
  pose proof (H (due_alert 2 2) (or_intror (or_introl eq_refl))) as H2.
  cbn in H1, H2. congruence.
Qed.

(** ** C6: bulk mark-all-read *)

(** C6. [mark_all_alerts_as_read] for a user keeps the table row for row:
    a row of that user that was pending or sent becomes read (stamped with
    the current instant), every other row, in particular one already read
    or dismissed and one of another user, is left as it was; the number in
    the returned message is the number of rows whose status changed. *)
Theorem mark_all_read_exact (user : User.t) (w : World) :
  let r := AlertsRouter.mark_all_alerts_as_read user w in
  List.length (alerts (snd r)) = List.length (alerts w)
  /\ (forall i a, nth_error (alerts w) i = Some a ->
        exists a', nth_error (alerts (snd r)) i = Some a'
          /\ (unread_of (User.id user) a ->
              Alert.status a' = READ /\ Alert.read_at a' = Some (clock w)
              /\ Alert.id a' = Alert.id a /\ Alert.user_id a' = Alert.user_id a)
          /\ (~ unread_of (User.id user) a -> a' = a))
  /\ fst r = Ok ("Marked " ++ str_int (mutated_count (alerts w) (alerts (snd r)))
                 ++ " alerts as read")%string.
Proof.
  intros r. subst r. rewrite mark_all_alerts_as_read_run. cbn [fst snd].
  cbn [set_alerts alerts]. split; [apply length_map|]. split.
  - intros i a Hi. rewrite nth_error_map, Hi. cbn [option_map].
    eexists. split; [reflexivity|].
    destruct (AlertsRouter.bulk_matches (User.id user) a) eqn:Hm.
    + split; [intros _; repeat split|].
      intros Hn. apply bulk_matches_iff in Hm. contradiction.
    + split; [|reflexivity].
      intros Hu. apply bulk_matches_iff in Hu. congruence.
  - unfold mutated_count. now rewrite mutated_count_bulk.
Qed.

(** On [mixed_world] the pending and the sent alert of [alice] are the two
    rows counted. *)
Lemma mark_all_read_witness :
  fst (AlertsRouter.mark_all_alerts_as_read alice mixed_world)
  = Ok "Marked 2 alerts as read"%string
  /\ map Alert.status
         (alerts (snd (AlertsRouter.mark_all_alerts_as_read alice mixed_world)))
     = [READ; READ; READ; DISMISSED; PENDING].
Proof.
  split; [|reflexivity].
  exact (proj2 (proj2 (mark_all_read_exact alice mixed_world))).
Defined.

(** ** C7: channel flags by alert type *)

(** C7. The alert that [create_emergency_email_alert] constructs, persists
    and returns has type email-emergency and all three delivery flags true;
    the alert that [create_meeting_reminder_alert] constructs has type
    meeting-reminder and only the push flag true. These are the only places
    where the two types are constructed. *)
Theorem channel_flags_by_type (C : Collaborators) (email : Email.t)
        (event : CalendarEvent.t) (user : User.t) (w : World) :
  (exists a,
     fst (AlertService.create_emergency_email_alert email user w) = Ok a
     /\ alerts (snd (AlertService.create_emergency_email_alert email user w))
        = alerts w ++ [a]
     /\ Alert.alert_type a = EMAIL_EMERGENCY
     /\ Alert.send_email a = true
     /\ Alert.send_push a = true
     /\ Alert.send_sms a = true)
  /\
  (exists a,
     fst (AlertService.create_meeting_reminder_alert event user w) = Ok a
     /\ alerts (snd (AlertService.create_meeting_reminder_alert event user w))
        = alerts w ++ [a]
     /\ Alert.alert_type a = MEETING_REMINDER
     /\ Alert.send_email a = false
     /\ Alert.send_push a = true
     /\ Alert.send_sms a = false).
Proof.
  split.
  - destruct (create_emergency_email_alert_spec email user w)
      as (a & (Hr & Hrows & _) & Hty & _ & _ & Hflags).
    exists a. inversion Hflags. repeat split; assumption.
  - destruct (create_meeting_reminder_alert_spec event user w)
      as (a & (Hr & Hrows & _) & Hty & _ & _ & Hflags).
    exists a. inversion Hflags. repeat split; assumption.
Qed.

(** The emergency alert for the sample email and the reminder for the
    stand-up, both for [alice]. *)
Lemma channel_flags_witness :
  (exists a,
     fst (@AlertService.create_emergency_email_alert smtp_up urgent_mail alice
            fresh_world) = Ok a
     /\ (Alert.send_email a, Alert.send_push a, Alert.send_sms a)
        = (true, true, true))
  /\ (exists a,
        fst (@AlertService.create_meeting_reminder_alert smtp_up standup alice
               fresh_world) = Ok a
        /\ (Alert.send_email a, Alert.send_push a, Alert.send_sms a)
           = (false, true, false)).
Proof.
  destruct (channel_flags_by_type smtp_up urgent_mail standup alice fresh_world)
    as [(a & Ha & _ & _ & He & Hp & Hs) (b & Hb & _ & _ & He' & Hp' & Hs')].
  split; [exists a | exists b]; (split; [assumption|]); congruence.
Defined.

(** ** C8: one briefing per user and day *)

(** C8 (the code at the failing input). On a host nine hours east of UTC
    [alice] wants her briefing at 08:00. A run of the task at 08:00:00
    local time creates it. Thirty seconds later that briefing is in the
    table and was created on the current day, by the local date and by
    the UTC date alike; yet a further run of the task creates a second
    briefing for her. The guard compares [created_at], a UTC instant
    (23:00:00 of the day before), with the naive local midnight (00:00:00
    of the local date) as it stands, and so does not see the row. *)
Theorem briefing_repeated_east_of_utc :
  map (fun a => (Alert.user_id a, Alert.alert_type a, Alert.created_at a))
      (alerts (snd (@BackgroundTaskManager.send_morning_briefings smtp_up
                      tokyo_dawn)))
  = [(1, MORNING_BRIEFING, 169200)]
  /\ strftime_HM (clock tokyo_world + tz tokyo_world) = "08:00"%string
  /\ briefed_today tokyo_world (User.id alice)
  /\ utc_date (Alert.created_at tokyo_briefing) = utc_date (clock tokyo_world)
  /\ Alert.created_at tokyo_briefing
     < BackgroundTaskManager.today_start_of tokyo_world
  /\ fst (@BackgroundTaskManager.send_morning_briefings smtp_up tokyo_world)
     = Ok tt
  /\ map (fun a => (Alert.alert_type a, Alert.created_at a))
         (alerts_of (User.id alice)
            (snd (@BackgroundTaskManager.send_morning_briefings smtp_up
                    tokyo_world)))
     = [(MORNING_BRIEFING, 169200); (MORNING_BRIEFING, 169230)]
  /\ ~ @briefing_once_per_day smtp_up tokyo_world (User.id alice).
Proof.
  assert (Hday : briefed_today tokyo_world (User.id alice)).
  { exists tokyo_briefing. split; [left; reflexivity|].
    split; [reflexivity|]. split; reflexivity. }
  split; [vm_compute; reflexivity|].
  split; [vm_compute; reflexivity|].
  split; [exact Hday|].
  split; [reflexivity|].
  split; [reflexivity|].
  split; [vm_compute; reflexivity|].
  split; [vm_compute; reflexivity|].
  intros H. specialize (H Hday).
  apply (f_equal (@List.length Alert.t)) in H. vm_compute in H. discriminate H.
Qed.

Example morning_world_run :
  map Alert.user_id
      (alerts (snd (@BackgroundTaskManager.send_morning_briefings smtp_up
                      morning_world)))
  = [1; 2].
Proof. vm_compute. reflexivity. Qed.

(** ** C9: an email that is both VIP and emergency *)

(** C9. Processing one new email whose [is_from_vip] and [is_emergency]
    flags are both set adds exactly two alerts to the table, the first of
    type email-vip and the second of type email-emergency, both owned by the
    user and both linked to that email. *)
Theorem vip_and_emergency_email_creates_two_alerts
        (C : Collaborators) (email : Email.t) (user : User.t) (w : World) :
  Email.is_from_vip email = true ->
  Email.is_emergency email = true ->
  exists a1 a2,
    fst (BackgroundTaskManager._process_new_email email user w) = Ok tt
    /\ alerts (snd (BackgroundTaskManager._process_new_email email user w))
       = alerts w ++ [a1; a2]
    /\ Alert.alert_type a1 = EMAIL_VIP
    /\ Alert.alert_type a2 = EMAIL_EMERGENCY
    /\ Alert.email_id a1 = Some (Email.id email)
    /\ Alert.email_id a2 = Some (Email.id email)
    /\ Alert.user_id a1 = User.id user
    /\ Alert.user_id a2 = User.id user.
Proof.
  intros Hvip Hemer.
  unfold BackgroundTaskManager._process_new_email, try_except.
  rewrite Hvip, Hemer. unfold when, bind, ret.
  destruct (create_email_vip_alert_spec email user w)
    as (a1 & (Hr1 & Hrows1 & _ & _ & _ & Hu1 & _) & Hty1 & Hm1 & _).
  destruct (AlertService.create_email_vip_alert email user w) as [r1 w1].
  cbn [fst snd] in Hr1, Hrows1. subst r1. cbv beta iota.
  destruct (create_emergency_email_alert_spec email user w1)
    as (a2 & (Hr2 & Hrows2 & _ & _ & _ & Hu2 & _) & Hty2 & Hm2 & _).
  destruct (AlertService.create_emergency_email_alert email user w1) as [r2 w2].
  cbn [fst snd] in Hr2, Hrows2. subst r2. cbv beta iota.
  exists a1, a2. cbn [fst snd].
  rewrite Hrows2, Hrows1, <- app_assoc.
  repeat split; assumption.
Qed.

(** The sample email, flagged both ways, at the sample world. *)
Lemma vip_and_emergency_email_witness :
  exists a1 a2,
    fst (@BackgroundTaskManager._process_new_email smtp_up urgent_mail alice
           fresh_world) = Ok tt
    /\ alerts (snd (@BackgroundTaskManager._process_new_email smtp_up
                      urgent_mail alice fresh_world))
       = alerts fresh_world ++ [a1; a2]
    /\ Alert.alert_type a1 = EMAIL_VIP
    /\ Alert.alert_type a2 = EMAIL_EMERGENCY
    /\ Alert.email_id a1 = Some (Email.id urgent_mail)
    /\ Alert.email_id a2 = Some (Email.id urgent_mail)
    /\ Alert.user_id a1 = User.id alice
    /\ Alert.user_id a2 = User.id alice.
Proof.
  apply (vip_and_emergency_email_creates_two_alerts smtp_up urgent_mail alice
           fresh_world); reflexivity.
Defined.

(** ** C10: the reminder query *)

(** C10 (the code at the failing input). The stand-up of [fresh_world] has
    no reminder sent and starts ten minutes after the current instant,
    inside its fifteen-minute window; the query for the events needing a
    reminder does not return it, nor anything: building the query raises
    [TypeError], because [timedelta] is given the column attribute
    [CalendarEvent.reminder_minutes_before] and not a number. The reminder
    task logs the error and creates no alert. *)
Theorem reminder_query_raises_on_due_event :
  In standup (calendar_events fresh_world)
  /\ CalendarEvent.reminder_sent standup = false
  /\ clock fresh_world < CalendarEvent.start_datetime standup
     <= clock fresh_world + 60 * CalendarEvent.reminder_minutes_before standup
  /\ CalendarService.get_events_needing_reminders fresh_world
     = (Raise (Exc "TypeError"
          "unsupported type for timedelta minutes component: InstrumentedAttribute"),
        fresh_world)
  /\ (forall l, ~ returned
                   (CalendarService.get_events_needing_reminders fresh_world) l)
  /\ @BackgroundTaskManager.send_meeting_reminders smtp_up fresh_world
     = (Ok tt,
        add_log (Log ERROR ("Error in send_meeting_reminders: "
                            ++ "unsupported type for timedelta minutes component: "
                            ++ "InstrumentedAttribute")%string)
                fresh_world).
Proof.
  split; [left; reflexivity|]. split; [reflexivity|].
  split; [cbn; lia|]. split; [reflexivity|].
  split; [intros l H; discriminate H | reflexivity].
Qed.

(** The same at every state of the database and every instant. *)
Lemma get_events_needing_reminders_always_raises (w : World) :
  exists e, CalendarService.get_events_needing_reminders w = (Raise e, w)
            /\ exc_type e = "TypeError"%string.
Proof. eexists. split; reflexivity. Qed.

(** * Further properties of the code *)

(** ** The enums *)

(** X1. Looking an alert type or an alert status up by its value inverts
    taking the value, and no other string is accepted: the lookup succeeds
    exactly on the value of a member. *)
Theorem enum_value_round_trip :
  (forall t, AlertType_of_value (AlertType_value t) = Some t)
  /\ (forall s t, AlertType_of_value s = Some t -> s = AlertType_value t)
  /\ (forall st, AlertStatus_of_value (AlertStatus_value st) = Some st)
  /\ (forall s st, AlertStatus_of_value s = Some st -> s = AlertStatus_value st).
Proof.
  repeat apply conj.
  - intros []; reflexivity.
  - intros s t. unfold AlertType_of_value.
    repeat match goal with
           | |- context [String.eqb s ?v] =>
               destruct (String.eqb_spec s v) as [->|_]
           end; intros H; inversion H; reflexivity.
  - intros []; reflexivity.
  - intros s st. unfold AlertStatus_of_value.
    repeat match goal with
           | |- context [String.eqb s ?v] =>
               destruct (String.eqb_spec s v) as [->|_]
           end; intros H; inversion H; reflexivity.
Qed.

(** ** Creating alerts *)

Ltac run_creation user w :=
  unfold returned, try_except;
  match goal with
  | |- context [bind (db_add_alert ?k) ?f w] =>
      let w' := fresh "w'" in
      let Hrun := fresh "Hrun" in
      let Hrows := fresh "Hrows" in
      destruct (add_dispatch_deref_spec k user w) as (w' & Hrun & Hrows & _);
      rewrite Hrun; cbn [fst snd]; exists (created k w)
  end.

(** X2. The four construction recipes. A VIP alert is of type email-vip
    with priority high, goes to email and push and links the email only; an
    emergency alert has priority urgent, all three channels and links the
    email only; a meeting reminder has priority normal, push only and links
    the calendar event only; a morning briefing has priority normal, goes
    to email and push, links nothing and carries the briefing text as its
    message. Each belongs to the user it was created for. *)
Theorem creation_recipes (C : Collaborators) (email : Email.t)
        (event : CalendarEvent.t) (user : User.t) (text : string) (w : World) :
  (exists a, returned (AlertService.create_email_vip_alert email user w) a
     /\ Alert.user_id a = User.id user
     /\ (Alert.alert_type a, Alert.priority a) = (EMAIL_VIP, HIGH)
     /\ channels a = (true, true, false)
     /\ (Alert.email_id a, Alert.calendar_event_id a) = (Some (Email.id email), None))
  /\ (exists a, returned (AlertService.create_emergency_email_alert email user w) a
     /\ Alert.user_id a = User.id user
     /\ (Alert.alert_type a, Alert.priority a) = (EMAIL_EMERGENCY, URGENT)
     /\ channels a = (true, true, true)
     /\ (Alert.email_id a, Alert.calendar_event_id a) = (Some (Email.id email), None))
  /\ (exists a, returned (AlertService.create_meeting_reminder_alert event user w) a
     /\ Alert.user_id a = User.id user
     /\ (Alert.alert_type a, Alert.priority a) = (MEETING_REMINDER, NORMAL)
     /\ channels a = (false, true, false)
     /\ (Alert.email_id a, Alert.calendar_event_id a)
        = (None, Some (CalendarEvent.id event)))
  /\ (exists a, returned (AlertService.create_morning_briefing_alert user text w) a
     /\ Alert.user_id a = User.id user
     /\ (Alert.alert_type a, Alert.priority a) = (MORNING_BRIEFING, NORMAL)
     /\ channels a = (true, true, false)
     /\ (Alert.email_id a, Alert.calendar_event_id a) = (None, None)
     /\ Alert.message a = text).
Proof.
  repeat apply conj.
  - unfold AlertService.create_email_vip_alert. run_creation user w.
    repeat split.
  - unfold AlertService.create_emergency_email_alert. run_creation user w.
    repeat split.
  - unfold AlertService.create_meeting_reminder_alert.
    unfold returned, bind at 1, utcnow, gets. cbv beta iota.
    run_creation user w. repeat split.
  - unfold AlertService.create_morning_briefing_alert.
    unfold returned, bind at 1, utcnow, gets. cbv beta iota.
    run_creation user w. repeat split.
Qed.

Lemma NoDup_app_fresh (ids : list Z) (x : Z) :
  NoDup ids -> (forall y, In y ids -> y < x) -> NoDup (ids ++ [x]).
Proof.
  intros Hnd. induction Hnd as [|y ids Hy Hnd IH]; intros Hlt; cbn [app].
  - constructor; [intros [] | constructor].
  - constructor.
    + intros Hin. apply in_app_or in Hin. destruct Hin as [Hin|[Heq|[]]].
      * contradiction.
      * specialize (Hlt y (or_introl eq_refl)). lia.
    + apply IH. intros z Hz. apply Hlt. now right.
Qed.

Lemma creation_keeps_keys (w : World) (user : User.t)
      (r : result Alert.t * World) (a : Alert.t) :
  creation_of w user r a -> unique_keys w ->
  unique_keys (snd r)
  /\ (forall b, In b (alerts w) -> Alert.id b < Alert.id a)
  /\ 0 < Alert.id a.
Proof.
  intros (_ & Hrows & _ & _ & Hid & _) Hnd. unfold unique_keys in *.
  assert (Hlt : forall b, In b (alerts w) -> Alert.id b < Alert.id a).
  { intros b Hb. rewrite Hid. now apply fresh_alert_id_above. }
  split; [|split; [exact Hlt|]].
  - rewrite Hrows, map_app. cbn [map]. apply NoDup_app_fresh; [exact Hnd|].
    intros y Hy. apply in_map_iff in Hy. destruct Hy as (b & <- & Hb). auto.
  - rewrite Hid. unfold fresh_alert_id, next_id.
    assert (H : forall l, 0 <= fold_right Z.max 0 l)
      by (induction l; cbn [fold_right]; lia).
    specialize (H (map Alert.id (alerts w))). lia.
Qed.

(** ** What the transitions write *)

Lemma Forall2_map_same {A} (R : A -> A -> Prop) (g : A -> A) (l : list A) :
  (forall a, R a (g a)) -> Forall2 R l (map g l).
Proof. intros H. induction l; cbn [map]; constructor; auto. Qed.

(** X3. Each state transition writes its own columns only. A dispatch and
    the sweep leave, in every row, everything but [status], [sent_at] and
    [updated_at] as it was; marking as read and the bulk mark-all-read
    everything but [status], [read_at] and [updated_at]; dismissing
    everything but [status], [dismissed_at] and [updated_at]. None of them
    adds, removes or reorders rows. *)
Theorem transitions_write_their_own_columns (C : Collaborators) (w : World) :
  (forall alert user,
      Forall2 wrote_sent_at_only (alerts w)
        (alerts (snd (AlertService._send_alert_notification alert user w))))
  /\ Forall2 wrote_sent_at_only (alerts w)
       (alerts (snd (BackgroundTaskManager.process_pending_alerts w)))
  /\ (forall alert_id uid,
        Forall2 wrote_read_at_only (alerts w)
          (alerts (snd (AlertService.mark_alert_as_read alert_id uid w))))
  /\ (forall user,
        Forall2 wrote_read_at_only (alerts w)
          (alerts (snd (AlertsRouter.mark_all_alerts_as_read user w))))
  /\ (forall alert_id uid,
        Forall2 wrote_dismissed_at_only (alerts w)
          (alerts (snd (AlertService.dismiss_alert alert_id uid w)))).
Proof.
  repeat apply conj.
  - intros alert user.
    destruct (_send_alert_notification_spec alert user w) as (w' & -> & Ha & _).
    cbn [snd]. rewrite Ha. apply Forall2_map_same. intros a.
    unfold dispatched. destruct (_ =? _); repeat split.
  - rewrite process_pending_alerts_run. cbn [snd].
    destruct (dispatch_steps_alerts (sweep_targets w) w) as [-> _].
    apply Forall2_map_same. intros a. destruct (existsb _ _); repeat split.
  - intros alert_id uid. rewrite mark_alert_as_read_run.
    destruct (first _); cbn [snd set_alerts alerts].
    + apply Forall2_map_same. intros a. destruct (_ =? _); repeat split.
    + rewrite <- (map_id (alerts w)) at 2. apply Forall2_map_same.
      repeat split.
  - intros user. rewrite mark_all_alerts_as_read_run.
    cbn [snd set_alerts alerts]. apply Forall2_map_same. intros a.
    destruct (AlertsRouter.bulk_matches _ _); repeat split.
  - intros alert_id uid. rewrite dismiss_alert_run.
    destruct (first _); cbn [snd set_alerts alerts].
    + apply Forall2_map_same. intros a. destruct (_ =? _); repeat split.
    + rewrite <- (map_id (alerts w)) at 2. apply Forall2_map_same.
      repeat split.
Qed.

(** ** The lifecycle invariant *)

Lemma row_ok_later now t a : now <= t -> row_ok now a -> row_ok t a.
Proof.
  intros Ht (Hc & Hs & Hr & Hsr & Hp).
  split; [lia|]. split; [intros s E; specialize (Hs s E); lia|].
  split; [intros r E; specialize (Hr r E); lia|]. auto.
Qed.

Lemma row_ok_mark_read now a : row_ok now a -> row_ok now (Alert.mark_read now now a).
Proof.
  intros (Hc & Hs & Hr & Hsr & Hp). unfold row_ok. cbn.
  split; [exact Hc|]. split; [exact Hs|].
  split; [intros r E; inversion E; subst; lia|].
  split; [intros s r Es Er; inversion Er; subst; specialize (Hs s Es); lia|].
  discriminate.
Qed.

Lemma row_ok_mark_dismissed now a :
  row_ok now a -> row_ok now (Alert.mark_dismissed now now a).
Proof.
  intros (Hc & Hs & Hr & Hsr & Hp). unfold row_ok. cbn.
  repeat (split; [assumption|]). discriminate.
Qed.

Lemma row_ok_mark_sent now a :
  row_ok now a -> Alert.read_at a = None ->
  row_ok now (Alert.mark_sent now now a).
Proof.
  intros (Hc & Hs & Hr & Hsr & Hp) Hnone. unfold row_ok. cbn.
  split; [exact Hc|].
  split; [intros s E; inversion E; subst; lia|].
  split; [exact Hr|].
  split; [intros s r _ Er; congruence | discriminate].
Qed.

Lemma table_ok_map (g : Alert.t -> Alert.t) (w : World) :
  (forall a, Alert.id (g a) = Alert.id a) ->
  (forall a, In a (alerts w) -> row_ok (clock w) a -> row_ok (clock w) (g a)) ->
  table_ok w -> table_ok (set_alerts (map g (alerts w)) w).
Proof.
  intros Hid Hrow [Hnd Hall]. split.
  - unfold unique_keys in *. cbn [set_alerts alerts]. rewrite map_map.
    rewrite (map_ext _ Alert.id Hid). exact Hnd.
  - cbn [set_alerts alerts clock]. apply Forall_forall. intros b Hb.
    apply in_map_iff in Hb. destruct Hb as (a & <- & Ha).
    apply Hrow; [exact Ha|]. rewrite Forall_forall in Hall. auto.
Qed.

Section Lifecycle.
Context {C : Collaborators}.

Lemma table_ok_same_table w w' :
  alerts w' = alerts w -> clock w' = clock w -> table_ok w -> table_ok w'.
Proof.
  intros Ha Hk [Hnd Hall]. unfold table_ok, unique_keys. rewrite Ha, Hk. auto.
Qed.

Lemma table_ok_creation k user w :
  table_ok w ->
  exists w', bind (db_add_alert k)
               (fun alert => bind (AlertService._send_alert_notification alert user)
                                  (fun _ => deref alert)) w
             = (Ok (created k w), w')
             /\ table_ok w'.
Proof.
  intros [Hnd Hall].
  destruct (add_dispatch_deref_spec k user w)
    as (w' & Hrun & Hrows & (_ & _ & _ & Hk & _) & _).
  exists w'. split; [exact Hrun|]. split.
  - unfold unique_keys in *. rewrite Hrows, map_app. cbn [map].
    apply NoDup_app_fresh; [exact Hnd|].
    intros y Hy. apply in_map_iff in Hy. destruct Hy as (b & <- & Hb).
    now apply fresh_alert_id_above.
  - rewrite Hrows, Hk. apply Forall_app. split; [exact Hall|].
    constructor; [|constructor].
    unfold row_ok, created. cbn.
    split; [lia|]. split; [intros s E; inversion E; lia|].
    split; [discriminate|]. split; [discriminate|discriminate].
Qed.

Lemma table_ok_sweep w :
  table_ok w -> table_ok (snd (BackgroundTaskManager.process_pending_alerts w)).
Proof.
  intros Hok. rewrite process_pending_alerts_run. cbn [snd].
  destruct (dispatch_steps_alerts (sweep_targets w) w)
    as [Ha (_ & _ & _ & Hk & _)].
  set (g := fun a => if existsb (fun p => Alert.id a =? Alert.id (fst p))
                                (sweep_targets w)
                     then Alert.mark_sent (clock w) (clock w) a else a) in *.
  apply (table_ok_same_table (set_alerts (map g (alerts w)) w));
    [exact Ha | exact Hk |].
  apply table_ok_map; [| |exact Hok].
  - intros a. unfold g. destruct (existsb _ _); reflexivity.
  - intros a Hin Hrow. unfold g.
    destruct (existsb _ _) eqn:E; [|exact Hrow].
    apply existsb_exists in E. destruct E as ([b u] & Hb & Hid).
    cbn [fst] in Hid. apply Z.eqb_eq in Hid.
    apply in_sweep_targets in Hb. destruct Hb as (Hb & Hp & _).
    assert (a = b) by (eapply unique_key; eauto; apply Hok). subst b.
    apply row_ok_mark_sent; [exact Hrow|].
    destruct Hrow as (_ & _ & _ & _ & Hpend). auto.
Qed.

End Lifecycle.

Ltac creation_ok user w Hok :=
  unfold try_except;
  match goal with
  | |- context [bind (db_add_alert ?k) ?f w] =>
      let w' := fresh "w'" in
      let Hrun := fresh "Hrun" in
      destruct (table_ok_creation k user w Hok) as (w' & Hrun & ?);
      rewrite Hrun; assumption
  end.

(** X4. The lifecycle invariant. On a table with unique keys in which every
    row has [created_at <= sent_at <= read_at] (whenever each is set), no
    timestamp in the future and no pending row that was read, every
    operation open to a caller keeps all of that: the four [create_*]
    methods, the sweep, marking as read, dismissing and the bulk
    mark-all-read, as does the passing of time. *)
Theorem lifecycle_invariant (C : Collaborators) (w : World) :
  table_ok w ->
  (forall t, clock w <= t -> table_ok (set_clock t w))
  /\ (forall email user,
        table_ok (snd (AlertService.create_email_vip_alert email user w)))
  /\ (forall email user,
        table_ok (snd (AlertService.create_emergency_email_alert email user w)))
  /\ (forall event user,
        table_ok (snd (AlertService.create_meeting_reminder_alert event user w)))
  /\ (forall user text,
        table_ok (snd (AlertService.create_morning_briefing_alert user text w)))
  /\ table_ok (snd (BackgroundTaskManager.process_pending_alerts w))
  /\ (forall alert_id uid,
        table_ok (snd (AlertService.mark_alert_as_read alert_id uid w)))
  /\ (forall alert_id uid,
        table_ok (snd (AlertService.dismiss_alert alert_id uid w)))
  /\ (forall user,
        table_ok (snd (AlertsRouter.mark_all_alerts_as_read user w))).
Proof.
  intros Hok.
  split.
  { intros t Ht. destruct Hok as [Hnd Hall]. split; [exact Hnd|].
    cbn [set_clock alerts clock]. eapply Forall_impl; [|exact Hall].
    intros a. now apply row_ok_later. }
  split.
  { intros email user. unfold AlertService.create_email_vip_alert.
    creation_ok user w Hok. }
  split.
  { intros email user. unfold AlertService.create_emergency_email_alert.
    creation_ok user w Hok. }
  split.
  { intros event user. unfold AlertService.create_meeting_reminder_alert.
    unfold try_except, bind at 1, utcnow, gets. cbv beta iota.
    creation_ok user w Hok. }
  split.
  { intros user text. unfold AlertService.create_morning_briefing_alert.
    unfold try_except, bind at 1, utcnow, gets. cbv beta iota.
    creation_ok user w Hok. }
  split.
  { now apply table_ok_sweep. }
  split.
  { intros alert_id uid. rewrite mark_alert_as_read_run.
    destruct (first _); cbn [snd]; [|exact Hok].
    apply table_ok_map; [| |exact Hok].
    + intros a. destruct (_ =? _); reflexivity.
    + intros a _ Hrow. destruct (_ =? _); [|exact Hrow].
      now apply row_ok_mark_read. }
  split.
  { intros alert_id uid. rewrite dismiss_alert_run.
    destruct (first _); cbn [snd]; [|exact Hok].
    apply table_ok_map; [| |exact Hok].
    + intros a. destruct (_ =? _); reflexivity.
    + intros a _ Hrow. destruct (_ =? _); [|exact Hrow].
      now apply row_ok_mark_dismissed. }
  intros user. rewrite mark_all_alerts_as_read_run. cbn [snd].
  apply table_ok_map; [| |exact Hok].
  + intros a. destruct (AlertsRouter.bulk_matches _ _); reflexivity.
  + intros a _ Hrow. destruct (AlertsRouter.bulk_matches _ _); [|exact Hrow].
    now apply row_ok_mark_read.
Qed.

(** On [mixed_world] at instant 1000, where every alert was created at
    instant 900, marking alert 1 as read keeps the table well formed. *)
Lemma lifecycle_invariant_witness :
  table_ok (snd (AlertService.mark_alert_as_read 1 1 mixed_world)).
Proof.
  apply (lifecycle_invariant smtp_up mixed_world).
  split.
  - repeat constructor; cbn; intuition discriminate.
  - repeat constructor; cbn; try lia; try discriminate.
Defined.

(** ** Operations by id *)

Lemma found_iff_owns (w : World) (uid alert_id : Z) :
  (exists alert,
      first (filter (fun a => (Alert.id a =? alert_id) && (Alert.user_id a =? uid))
                    (alerts w)) = Some alert)
  <-> owns w uid alert_id.
Proof.
  split.
  - intros (alert & E). apply found_by_id_and_owner in E. exists alert. tauto.
  - intros (a & Hin & Hid & Hu).
    destruct (first _) as [alert|] eqn:E; [eauto|].
    apply (first_filter_none _ _ a) in E; [|exact Hin].
    cbv beta in E. rewrite Hid, Hu, !Z.eqb_refl in E. discriminate.
Qed.

(** X5. Operations by id need an alert of the caller. If the user owns an
    alert with the id, marking as read and dismissing return true and the
    lookup returns an alert with that id and owner. If not (the id is
    unknown or the alert is someone else's), marking as read and dismissing
    return false, the three endpoints answer 404 [Alert not found], and
    nothing at all is changed. *)
Theorem by_id_needs_own_alert (w : World) (alert_id : Z) (user : User.t) :
  (owns w (User.id user) alert_id ->
     fst (AlertService.mark_alert_as_read alert_id (User.id user) w) = Ok true
     /\ fst (AlertService.dismiss_alert alert_id (User.id user) w) = Ok true
     /\ exists a, returned (AlertsRouter.get_alert alert_id user w) a
                  /\ Alert.id a = alert_id /\ Alert.user_id a = User.id user)
  /\ (~ owns w (User.id user) alert_id ->
     AlertService.mark_alert_as_read alert_id (User.id user) w = (Ok false, w)
     /\ AlertService.dismiss_alert alert_id (User.id user) w = (Ok false, w)
     /\ AlertsRouter.get_alert alert_id user w
        = (Raise (AlertsRouter.HTTPException 404 "Alert not found"), w)
     /\ AlertsRouter.mark_alert_as_read alert_id user w
        = (Raise (AlertsRouter.HTTPException 404 "Alert not found"), w)
     /\ AlertsRouter.dismiss_alert alert_id user w
        = (Raise (AlertsRouter.HTTPException 404 "Alert not found"), w)).
Proof.
  split.
  - intros Hown. apply found_iff_owns in Hown. destruct Hown as (alert & E).
    rewrite mark_alert_as_read_run, dismiss_alert_run.
    unfold AlertsRouter.get_alert, returned, bind, gets. rewrite E.
    cbn [fst ret]. repeat split. exists alert.
    apply found_by_id_and_owner in E. tauto.
  - intros Hnot.
    assert (E : first (filter (fun a => (Alert.id a =? alert_id)
                                        && (Alert.user_id a =? User.id user))
                              (alerts w)) = None).
    { destruct (first _) as [alert|] eqn:E; [|reflexivity].
      exfalso. apply Hnot. apply found_iff_owns. eauto. }
    unfold AlertsRouter.mark_alert_as_read, AlertsRouter.dismiss_alert,
      AlertsRouter.get_alert, bind, gets.
    rewrite mark_alert_as_read_run, dismiss_alert_run, E.
    repeat split.
Qed.

(** [alice] tries the pending alert 5, which is [bob]'s. *)
Lemma by_id_needs_own_alert_witness :
  AlertService.mark_alert_as_read 5 (User.id alice) mixed_world
  = (Ok false, mixed_world)
  /\ AlertsRouter.dismiss_alert 5 alice mixed_world
     = (Raise (Exc "HTTPException" "404: Alert not found"), mixed_world).
Proof.
  destruct (proj2 (by_id_needs_own_alert mixed_world 5 alice))
    as (H1 & _ & _ & _ & H5).
  - intros (a & Hin & Hid & Hu). cbn in Hin.
    repeat (destruct Hin as [<-|Hin]; [discriminate|]). exact Hin.
  - split; [exact H1 | exact H5].
Defined.

(** ** The unread list *)

Lemma unread_after_transition (g : Alert.t -> Alert.t) (uid alert_id : Z)
      (l : list Alert.t) :
  (forall a, Alert.id a = alert_id -> Alert.is_unread (g a) = false) ->
  (forall a, Alert.id a <> alert_id -> g a = a) ->
  forall a,
    In a (order_by AlertService.newest_first
            (filter (fun a => (Alert.user_id a =? uid) && Alert.is_unread a)
                    (map g l)))
    <-> In a (order_by AlertService.newest_first
                (filter (fun a => (Alert.user_id a =? uid) && Alert.is_unread a) l))
        /\ Alert.id a <> alert_id.
Proof.
  intros Hhit Hmiss a. rewrite !In_order_by, !filter_In, in_map_iff. split.
  - intros ((b & <- & Hb) & Hp).
    destruct (Z.eq_dec (Alert.id b) alert_id) as [E|E].
    + rewrite (Hhit b E), andb_false_r in Hp. discriminate.
    + rewrite (Hmiss b E) in *. auto.
  - intros ((Hin & Hp) & Hne). split; [|exact Hp].
    exists a. split; [now apply Hmiss | exact Hin].
Qed.

(** X6. An alert that its owner marks as read or dismisses leaves the
    unread list: afterwards the unread list of the user holds exactly the
    alerts it held before, except those with that id. *)
Theorem handled_alert_leaves_unread_list (w : World) (alert_id uid : Z) :
  owns w uid alert_id ->
  forall l, returned (AlertService.get_unread_alerts uid w) l ->
  (forall l', returned (AlertService.get_unread_alerts uid
                          (snd (AlertService.mark_alert_as_read alert_id uid w))) l' ->
     forall a, In a l' <-> In a l /\ Alert.id a <> alert_id)
  /\ (forall l', returned (AlertService.get_unread_alerts uid
                             (snd (AlertService.dismiss_alert alert_id uid w))) l' ->
     forall a, In a l' <-> In a l /\ Alert.id a <> alert_id).
Proof.
  intros Hown l Hl. apply found_iff_owns in Hown. destruct Hown as (alert & E).
  pose proof (found_by_id_and_owner _ _ _ _ E) as (_ & Hid & _).
  unfold returned in *. cbn in Hl. inversion Hl; subst l; clear Hl.
  rewrite mark_alert_as_read_run, dismiss_alert_run, E. cbn [snd].
  split; intros l' Hl'; cbn in Hl'; inversion Hl'; subst l'; clear Hl';
    apply unread_after_transition.
  - intros a Ha. rewrite Ha, Hid, Z.eqb_refl. reflexivity.
  - intros a Ha. destruct (Z.eqb_spec (Alert.id a) (Alert.id alert)); [|reflexivity].
    congruence.
  - intros a Ha. rewrite Ha, Hid, Z.eqb_refl. reflexivity.
  - intros a Ha. destruct (Z.eqb_spec (Alert.id a) (Alert.id alert)); [|reflexivity].
    congruence.
Qed.

(** [alice] dismisses her pending alert 1: her sent alert 2 is what is left
    unread. *)
Lemma handled_alert_leaves_unread_list_witness :
  In (sample_alert 2 1 SENT)
     (order_by AlertService.newest_first
        (filter (fun a => (Alert.user_id a =? 1) && Alert.is_unread a)
           (alerts (snd (AlertService.dismiss_alert 1 1 mixed_world)))))
  <-> In (sample_alert 2 1 SENT)
         (order_by AlertService.newest_first
            (filter (fun a => (Alert.user_id a =? 1) && Alert.is_unread a)
               (alerts mixed_world)))
      /\ Alert.id (sample_alert 2 1 SENT) <> 1.
Proof.
  apply (proj2 (handled_alert_leaves_unread_list mixed_world 1 1
                  ltac:(exists (sample_alert 1 1 PENDING); cbn; auto)
                  _ eq_refl)).
  reflexivity.
Defined.

(** ** Sorted query results *)

Lemma insert_by_perm {A} (le : A -> A -> bool) x (l : list A) :
  Permutation (insert_by le x l) (x :: l).
Proof.
  induction l as [|y l IH]; cbn [insert_by]; [reflexivity|].
  destruct (le x y); [reflexivity|].
  rewrite IH. apply perm_swap.
Qed.

Lemma order_by_perm {A} (le : A -> A -> bool) (l : list A) :
  Permutation (order_by le l) l.
Proof.
  unfold order_by. induction l as [|x l IH]; cbn [fold_right]; [reflexivity|].
  rewrite insert_by_perm. now constructor.
Qed.

Section Sorting.
Variable A : Type.
Variable le : A -> A -> bool.
Variable R : A -> A -> Prop.
Hypothesis le_true : forall a b, le a b = true -> R a b.
Hypothesis le_false : forall a b, le a b = false -> R b a.
Hypothesis R_trans : forall a b c, R a b -> R b c -> R a c.

Lemma insert_by_sorted x (l : list A) :
  StronglySorted R l -> StronglySorted R (insert_by le x l).
Proof.
  induction 1 as [|y l Hs IH Hy]; cbn [insert_by].
  - repeat constructor.
  - destruct (le x y) eqn:E.
    + constructor; [constructor; assumption|].
      constructor; [now apply le_true|].
      eapply Forall_impl; [|exact Hy]. intros z Hz.
      eapply R_trans; [apply le_true; exact E | exact Hz].
    + constructor; [exact IH|].
      apply Forall_forall. intros z Hz. apply In_insert_by in Hz.
      destruct Hz as [->|Hz]; [now apply le_false|].
      rewrite Forall_forall in Hy. auto.
Qed.

Lemma order_by_sorted (l : list A) : StronglySorted R (order_by le l).
Proof.
  unfold order_by. induction l as [|x l IH]; cbn [fold_right].
  - constructor.
  - now apply insert_by_sorted.
Qed.

Lemma sorted_app_inv (l1 l2 : list A) :
  StronglySorted R (l1 ++ l2) ->
  StronglySorted R l1 /\ StronglySorted R l2
  /\ forall a b, In a l1 -> In b l2 -> R a b.
Proof.
  induction l1 as [|x l1 IH]; cbn [app]; intros H.
  - repeat split; [constructor | exact H | intros a b []].
  - inversion H as [|? ? Hs Hx]; subst. destruct (IH Hs) as (H1 & H2 & H12).
    split; [|split; [exact H2|]].
    + constructor; [exact H1|].
      apply Forall_forall. intros z Hz. rewrite Forall_forall in Hx.
      apply Hx, in_or_app. now left.
    + intros a b [->|Ha] Hb; [|auto].
      rewrite Forall_forall in Hx. apply Hx, in_or_app. now right.
Qed.

Lemma sorted_page (n m : Z) (l : list A) :
  StronglySorted R l -> StronglySorted R (limit n (offset m l)).
Proof.
  intros H. unfold limit, offset.
  rewrite <- (firstn_skipn (Z.to_nat m) l) in H.
  apply sorted_app_inv in H. destruct H as (_ & H & _).
  rewrite <- (firstn_skipn (Z.to_nat n) (skipn (Z.to_nat m) l)) in H.
  now apply sorted_app_inv in H.
Qed.

End Sorting.

Lemma newest_first_sorted (l : list Alert.t) :
  StronglySorted newer_or_equal (order_by AlertService.newest_first l).
Proof.
  apply order_by_sorted; unfold AlertService.newest_first, newer_or_equal.
  - intros a b H. now apply Z.leb_le.
  - intros a b H. apply Z.leb_gt in H. lia.
  - intros a b c. lia.
Qed.

(** X7. The unread list of a user is exactly the user's pending and sent
    alerts, each as often as it is in the table, newest first. *)
Theorem unread_list_complete_and_sorted (w : World) (uid : Z) :
  exists l, AlertService.get_unread_alerts uid w = (Ok l, w)
    /\ Permutation l (unread_rows uid w)
    /\ StronglySorted newer_or_equal l
    /\ (forall a, In a l <-> In a (alerts w) /\ unread_of uid a).
Proof.
  eexists. split; [reflexivity|].
  split; [apply order_by_perm|]. split; [apply newest_first_sorted|].
  intros a. rewrite In_order_by, filter_In.
  fold (AlertsRouter.bulk_matches uid a). now rewrite bulk_matches_iff.
Qed.

(** X8. For a limit that is not negative the list of a user's alerts holds
    at most [limit] alerts, all of them the user's, newest first, and no
    alert of the user that is left out is newer than one that is listed. *)
Theorem user_alerts_are_the_newest (w : World) (uid limit_ : Z) :
  0 <= limit_ ->
  exists l rest,
    AlertService.get_user_alerts uid limit_ w = (Ok l, w)
    /\ Permutation (l ++ rest) (alerts_of uid w)
    /\ Z.of_nat (List.length l) <= limit_
    /\ StronglySorted newer_or_equal l
    /\ (forall a b, In a l -> In b rest -> newer_or_equal a b).
Proof.
  intros Hlim.
  unfold AlertService.get_user_alerts, gets, limit, alerts_of.
  set (sorted := order_by AlertService.newest_first
                   (filter (fun a => Alert.user_id a =? uid) (alerts w))).
  exists (firstn (Z.to_nat limit_) sorted), (skipn (Z.to_nat limit_) sorted).
  split; [reflexivity|].
  split; [rewrite firstn_skipn; apply order_by_perm|].
  split; [pose proof (firstn_le_length (Z.to_nat limit_) sorted); lia|].
  pose proof (newest_first_sorted
                (filter (fun a => Alert.user_id a =? uid) (alerts w))) as Hs.
  fold sorted in Hs. rewrite <- (firstn_skipn (Z.to_nat limit_) sorted) in Hs.
  apply sorted_app_inv in Hs. tauto.
Qed.

(** Two of the four alerts of [alice] are listed, two are left out. *)
Lemma user_alerts_are_the_newest_witness :
  exists l rest,
    AlertService.get_user_alerts 1 2 mixed_world = (Ok l, mixed_world)
    /\ Permutation (l ++ rest) (alerts_of 1 mixed_world)
    /\ Z.of_nat (List.length l) <= 2
    /\ StronglySorted newer_or_equal l
    /\ (forall a b, In a l -> In b rest -> newer_or_equal a b).
Proof.
  apply (user_alerts_are_the_newest mixed_world 1 2). lia.
Defined.

(** X9. The filtered, paged list. A page size over 100 or a negative
    offset is refused (422), and so is, with 400, a type or a status filter
    that is not empty and is no value of the enum. A page that is returned
    for a limit that is not negative holds at most [limit] (50 by default)
    alerts, newest first, each of them the user's and each of the type and
    in the status asked for. The call changes nothing either way. *)
Theorem alert_page_is_bounded_and_filtered
        (w : World) (user : User.t) (ty st : option string) (lim off : option Z) :
  snd (AlertsRouter.get_alerts ty st lim off user w) = w
  /\ (100 < Alert.or_default 50 lim \/ Alert.or_default 0 off < 0 ->
      fst (AlertsRouter.get_alerts ty st lim off user w)
      = Raise (Exc "RequestValidationError" "422"))
  /\ (Alert.or_default 50 lim <= 100 -> 0 <= Alert.or_default 0 off ->
      (forall s, ty = Some s -> s <> ""%string -> AlertType_of_value s = None ->
         fst (AlertsRouter.get_alerts ty st lim off user w)
         = Raise (AlertsRouter.HTTPException 400 "Invalid alert type"))
      /\ (forall s, st = Some s -> s <> ""%string -> AlertStatus_of_value s = None ->
            exists e, fst (AlertsRouter.get_alerts ty st lim off user w) = Raise e))
  /\ (0 <= Alert.or_default 50 lim ->
      forall l, returned (AlertsRouter.get_alerts ty st lim off user w) l ->
        Z.of_nat (List.length l) <= Alert.or_default 50 lim <= 100
        /\ StronglySorted newer_or_equal l
        /\ forall a, In a l ->
             Alert.user_id a = User.id user
             /\ (forall s, ty = Some s -> s <> ""%string ->
                   AlertType_of_value s = Some (Alert.alert_type a))
             /\ (forall s, st = Some s -> s <> ""%string ->
                   AlertStatus_of_value s = Some (Alert.status a))).
Proof.
  unfold AlertsRouter.get_alerts, returned.
  set (limit_ := Alert.or_default 50 lim). set (offset_ := Alert.or_default 0 off).
  destruct (negb (limit_ <=? 100) || negb (0 <=? offset_)) eqn:Hval.
  { split; [reflexivity|]. split; [reflexivity|].
    apply orb_true_iff in Hval.
    split; [|intros _ l H; discriminate H].
    intros H1 H2. exfalso. destruct Hval as [Hval|Hval];
      apply negb_true_iff, Z.leb_gt in Hval; lia. }
  apply orb_false_iff in Hval. destruct Hval as [H1 H2].
  apply negb_false_iff in H1, H2. apply Z.leb_le in H1, H2.
  unfold bind, gets, ret, raise.
  assert (Hpage : forall q (P : Alert.t -> Prop),
             (forall a, In a q -> P a) ->
             0 <= limit_ ->
             forall l, Ok (limit limit_ (offset offset_
                             (order_by AlertService.newest_first q))) = Ok l ->
             Z.of_nat (List.length l) <= limit_ <= 100
             /\ StronglySorted newer_or_equal l
             /\ forall a, In a l -> P a).
  { intros q P HP Hpos l Hl. inversion Hl; subst l; clear Hl.
    split; [|split].
    - unfold limit.
      pose proof (firstn_le_length (Z.to_nat limit_)
                    (offset offset_ (order_by AlertService.newest_first q))).
      lia.
    - apply sorted_page, newest_first_sorted.
    - intros a Ha. apply In_limit, In_offset, In_order_by in Ha. auto. }
  destruct ty as [s|]; cbn [truthy_opt fmt_opt];
    [destruct s as [|c s]; cbn [truthy_str];
     [|destruct (AlertType_of_value (String c s)) as [t|] eqn:Et]|];
  (destruct st as [s'|]; cbn [truthy_opt fmt_opt];
    [destruct s' as [|c' s']; cbn [truthy_str];
     [|destruct (AlertStatus_of_value (String c' s')) as [t'|] eqn:Est]|]);
  cbn [fst snd];
  (split; [reflexivity|]); (split; [intros [?|?]; lia|]);
  (split;
   [ intros _ _; split;
     [ intros s0 Hs0 Hne Hnone; inversion Hs0; subst;
       first [congruence | reflexivity]
     | intros s0 Hs0 Hne Hnone; inversion Hs0; subst;
       first [congruence | eexists; reflexivity] ]
   | ]);
  intros Hpos;
  try (intros l H; discriminate H);
  apply Hpage; try exact Hpos; intros a Ha;
  repeat match goal with
         | H : In _ (filter _ _) |- _ => apply filter_In in H; destruct H as [H ?]
         end;
  repeat match goal with
         | H : (_ =? _) = true |- _ => apply Z.eqb_eq in H
         | H : AlertType_eqb ?x ?y = true |- _ =>
             assert (x = y) by (destruct x, y; (reflexivity || discriminate)); clear H
         | H : AlertStatus_eqb ?x ?y = true |- _ =>
             assert (x = y) by (destruct x, y; (reflexivity || discriminate)); clear H
         end;
  (split; [assumption|]);
  split; intros s0 Hs0 Hne; inversion Hs0; subst; congruence.
Qed.

(** The sent alerts of [alice], and a status that does not exist. *)
Lemma alert_page_is_bounded_and_filtered_witness :
  (forall l,
      returned (AlertsRouter.get_alerts None (Some "sent"%string) None None alice
                  mixed_world) l ->
      forall a, In a l -> Alert.user_id a = 1 /\ Alert.status a = SENT)
  /\ fst (AlertsRouter.get_alerts (Some "email"%string) None None None alice
            mixed_world)
     = Raise (AlertsRouter.HTTPException 400 "Invalid alert type").
Proof.
  split.
  - intros l Hl a Ha.
    destruct (alert_page_is_bounded_and_filtered mixed_world alice None
                (Some "sent"%string) None None) as (_ & _ & _ & Hpage).
    destruct (Hpage ltac:(cbn; lia) l Hl) as (_ & _ & Hin).
    destruct (Hin a Ha) as (Hu & _ & Hst). split; [exact Hu|].
    specialize (Hst "sent"%string eq_refl ltac:(discriminate)).
    cbn in Hst. congruence.
  - destruct (alert_page_is_bounded_and_filtered mixed_world alice
                (Some "email"%string) None None None) as (_ & _ & H400 & _).
    destruct (H400 ltac:(cbn; lia) ltac:(cbn; lia)) as (Hty & _).
    apply (Hty "email"%string eq_refl); [discriminate | reflexivity].
Defined.

(** ** The bulk update, again *)

Lemma bulk_row_no_longer_matches uid now a :
  AlertsRouter.bulk_matches uid
    (if AlertsRouter.bulk_matches uid a then Alert.mark_read now now a else a)
  = false.
Proof.
  destruct (AlertsRouter.bulk_matches uid a) eqn:E; [|exact E].
  unfold AlertsRouter.bulk_matches, Alert.is_unread. cbn.
  apply andb_false_r.
Qed.

Lemma filter_none {A} (f : A -> bool) (l : list A) :
  (forall a, In a l -> f a = false) -> filter f l = [].
Proof.
  induction l as [|x l IH]; cbn [filter]; intros H; [reflexivity|].
  rewrite (H x (or_introl eq_refl)). apply IH. intros a Ha. apply H. now right.
Qed.

Lemma filter_map_untouched {A} (f : A -> bool) (g : A -> A) (l : list A) :
  (forall a, g a = a \/ (f a = false /\ f (g a) = false)) ->
  filter f (map g l) = filter f l.
Proof.
  intros H. induction l as [|a l IH]; cbn [map filter]; [reflexivity|].
  rewrite IH. destruct (H a) as [->|[-> ->]]; reflexivity.
Qed.

Lemma bulk_leaves_no_match user w :
  filter (AlertsRouter.bulk_matches (User.id user))
         (alerts (snd (AlertsRouter.mark_all_alerts_as_read user w))) = [].
Proof.
  rewrite mark_all_alerts_as_read_run. cbn [snd set_alerts alerts].
  apply filter_none. intros a Ha. apply in_map_iff in Ha.
  destruct Ha as (b & <- & _). apply bulk_row_no_longer_matches.
Qed.

(** X10. After the bulk mark-all-read of a user the unread list of that
    user is empty, the unread list of every other user is what it was, and
    a second bulk mark-all-read right away reports 0 alerts and changes
    nothing. *)
Theorem mark_all_read_empties_unread_list (user : User.t) (w : World) :
  let w1 := snd (AlertsRouter.mark_all_alerts_as_read user w) in
  AlertService.get_unread_alerts (User.id user) w1 = (Ok [], w1)
  /\ (forall uid, uid <> User.id user ->
        fst (AlertService.get_unread_alerts uid w1)
        = fst (AlertService.get_unread_alerts uid w))
  /\ AlertsRouter.mark_all_alerts_as_read user w1
     = (Ok "Marked 0 alerts as read"%string, w1).
Proof.
  intros w1. pose proof (bulk_leaves_no_match user w) as Hnone. fold w1 in Hnone.
  split; [|split].
  - unfold AlertService.get_unread_alerts, gets.
    change (fun a => (Alert.user_id a =? User.id user) && Alert.is_unread a)
      with (AlertsRouter.bulk_matches (User.id user)).
    now rewrite Hnone.
  - intros uid Hne. subst w1. rewrite mark_all_alerts_as_read_run.
    unfold AlertService.get_unread_alerts, gets. cbn [fst snd set_alerts alerts].
    rewrite filter_map_untouched; [reflexivity|].
    intros a. unfold AlertsRouter.bulk_matches.
    destruct (Z.eqb_spec (Alert.user_id a) (User.id user)) as [E|E];
      cbn [andb]; [|now left].
    destruct (Alert.is_unread a); [right|now left].
    cbn [Alert.mark_read Alert.user_id].
    destruct (Z.eqb_spec (Alert.user_id a) uid); [congruence|]. auto.
  - rewrite mark_all_alerts_as_read_run, Hnone. cbn [List.length].
    f_equal. subst w1. rewrite mark_all_alerts_as_read_run.
    cbn [snd set_alerts alerts users emails calendar_events clock tz log outbox].
    unfold set_alerts. cbn [alerts users emails calendar_events clock tz log outbox].
    f_equal. rewrite map_map. apply map_ext. intros a.
    rewrite bulk_row_no_longer_matches. reflexivity.
Qed.

(** ** Statistics *)

Lemma count_mono (f g : Alert.t -> bool) (l : list Alert.t) :
  (forall a, f a = true -> g a = true) ->
  AlertsRouter.count f l <= AlertsRouter.count g l.
Proof.
  intros H. unfold AlertsRouter.count. apply inj_le.
  induction l as [|a l IH]; cbn [filter]; [lia|].
  specialize (H a). destruct (f a), (g a); cbn [List.length];
    try lia; discriminate (H eq_refl).
Qed.

Lemma count_disjoint_le (f g h : Alert.t -> bool) (l : list Alert.t) :
  (forall a, g a = true -> h a = true -> False) ->
  AlertsRouter.count (fun a => f a && g a) l
  + AlertsRouter.count (fun a => f a && h a) l
  <= AlertsRouter.count f l.
Proof.
  intros Hd. unfold AlertsRouter.count.
  induction l as [|a l IH]; cbn [filter]; [cbn; lia|].
  specialize (Hd a).
  destruct (f a), (g a), (h a); cbn [andb List.length];
    try lia; exfalso; auto.
Qed.

Lemma count_ext_map (f : Alert.t -> bool) (g : Alert.t -> Alert.t) (l : list Alert.t) :
  (forall a, f (g a) = f a) ->
  AlertsRouter.count f (map g l) = AlertsRouter.count f l.
Proof.
  intros H. unfold AlertsRouter.count. f_equal.
  induction l as [|a l IH]; cbn [map filter]; [reflexivity|].
  rewrite H. destruct (f a); cbn [List.length]; lia.
Qed.

(** X11. The statistics of a user. The call changes nothing; the number
    of unread alerts is the length of the unread list; urgent (unread)
    alerts are among the unread and the unread among all alerts of the
    user, as are the email alerts and the meeting reminders, which do not
    overlap. After the bulk mark-all-read the unread and the urgent count
    are 0 and the other three counts are what they were. *)
Theorem alert_stats_are_consistent (user : User.t) (w : World) :
  exists s,
    AlertsRouter.get_alert_stats user w = (Ok s, w)
    /\ (forall l, returned (AlertService.get_unread_alerts (User.id user) w) l ->
          AlertsRouter.unread_alerts s = Z.of_nat (List.length l))
    /\ 0 <= AlertsRouter.urgent_alerts s <= AlertsRouter.unread_alerts s
    /\ AlertsRouter.unread_alerts s <= AlertsRouter.total_alerts s
    /\ 0 <= AlertsRouter.email_alerts s
    /\ 0 <= AlertsRouter.meeting_alerts s
    /\ AlertsRouter.email_alerts s + AlertsRouter.meeting_alerts s
       <= AlertsRouter.total_alerts s
    /\ exists s',
         returned (AlertsRouter.get_alert_stats user
                     (snd (AlertsRouter.mark_all_alerts_as_read user w))) s'
         /\ AlertsRouter.unread_alerts s' = 0
         /\ AlertsRouter.urgent_alerts s' = 0
         /\ AlertsRouter.total_alerts s' = AlertsRouter.total_alerts s
         /\ AlertsRouter.email_alerts s' = AlertsRouter.email_alerts s
         /\ AlertsRouter.meeting_alerts s' = AlertsRouter.meeting_alerts s.
Proof.
  eexists. split; [reflexivity|].
  cbn [AlertsRouter.total_alerts AlertsRouter.unread_alerts
       AlertsRouter.urgent_alerts AlertsRouter.email_alerts
       AlertsRouter.meeting_alerts].
  set (mine := fun a => Alert.user_id a =? User.id user).
  split.
  { intros l Hl. unfold returned in Hl. cbn in Hl. inversion Hl; subst l.
    unfold AlertsRouter.count. f_equal. symmetry.
    apply Permutation_length, order_by_perm. }
  split.
  { split; [unfold AlertsRouter.count; lia|].
    apply count_mono. intros a Ha.
    apply andb_true_iff in Ha. destruct Ha as [Ha Hu].
    apply andb_true_iff in Ha. destruct Ha as [Hm _].
    now rewrite Hm, Hu. }
  split.
  { apply count_mono. intros a Ha.
    apply andb_true_iff in Ha. tauto. }
  split; [unfold AlertsRouter.count; lia|].
  split; [unfold AlertsRouter.count; lia|].
  split.
  { apply (count_disjoint_le mine). intros a Hg Hh.
    destruct (Alert.alert_type a); discriminate. }
  eexists. split; [reflexivity|].
  cbn [AlertsRouter.total_alerts AlertsRouter.unread_alerts
       AlertsRouter.urgent_alerts AlertsRouter.email_alerts
       AlertsRouter.meeting_alerts].
  pose proof (bulk_leaves_no_match user w) as Hnone.
  assert (Hzero : forall f,
             AlertsRouter.count
               (fun a => (Alert.user_id a =? User.id user) && f a
                         && Alert.is_unread a)
               (alerts (snd (AlertsRouter.mark_all_alerts_as_read user w))) = 0).
  { intros f. unfold AlertsRouter.count.
    rewrite filter_none; [reflexivity|].
    intros a Ha.
    assert (Hm : AlertsRouter.bulk_matches (User.id user) a = false).
    { destruct (AlertsRouter.bulk_matches (User.id user) a) eqn:E; [|reflexivity].
      assert (Hin : In a (filter (AlertsRouter.bulk_matches (User.id user))
                            (alerts (snd (AlertsRouter.mark_all_alerts_as_read
                                            user w)))))
        by (apply filter_In; auto).
      rewrite Hnone in Hin. destruct Hin. }
    unfold AlertsRouter.bulk_matches in Hm.
    destruct (Alert.user_id a =? User.id user), (f a), (Alert.is_unread a);
      cbn in *; congruence. }
  split.
  { rewrite <- (Hzero (fun _ => true)). unfold AlertsRouter.count. do 2 f_equal.
    apply filter_ext. intros a. now rewrite andb_true_r. }
  split; [apply Hzero|].
  rewrite mark_all_alerts_as_read_run. cbn [snd set_alerts alerts].
  repeat split; apply count_ext_map; intros a;
    destruct (AlertsRouter.bulk_matches (User.id user) a); reflexivity.
Qed.

(** ** The sweep, again *)

(** X12. The sweep is idempotent. After a run of the sweep no alert is left
    for it: a second run at the same instant dispatches nothing and changes
    nothing. What is still pending and due then is an alert whose owner
    does not exist. *)
Theorem sweep_is_idempotent (C : Collaborators) (w : World) :
  let w1 := snd (BackgroundTaskManager.process_pending_alerts w) in
  sweep_targets w1 = []
  /\ BackgroundTaskManager.process_pending_alerts w1 = (Ok tt, w1)
  /\ (forall a, In a (alerts w1) -> AlertService.is_due (clock w1) a = true ->
        owner_of w1 a = None).
Proof.
  intros w1.
  assert (Hleft : forall a, In a (alerts w1) ->
                            AlertService.is_due (clock w1) a = true ->
                            owner_of w1 a = None).
  { subst w1. rewrite process_pending_alerts_run. cbn [snd].
    destruct (dispatch_steps_alerts (sweep_targets w) w)
      as [Ha (Hu & _ & _ & Hk & _)].
    intros a Hin Hdue. rewrite Ha in Hin. rewrite Hk in Hdue.
    unfold owner_of. rewrite Hu. fold (owner_of w a).
    apply in_map_iff in Hin. destruct Hin as (b & Hb & Hin).
    destruct (existsb _ (sweep_targets w)) eqn:E.
    - subst a. apply is_due_iff in Hdue. destruct Hdue as [Hs _]. discriminate Hs.
    - subst b. destruct (owner_of w a) as [u|] eqn:Ho; [|reflexivity].
      exfalso.
      assert (Ht : In (a, u) (sweep_targets w)).
      { apply in_sweep_targets. apply is_due_iff in Hdue. tauto. }
      assert (Hex : existsb (fun p => Alert.id a =? Alert.id (fst p))
                            (sweep_targets w) = true).
      { apply existsb_exists. exists (a, u). split; [exact Ht|].
        apply Z.eqb_refl. }
      congruence. }
  assert (Hnone : sweep_targets w1 = []).
  { destruct (sweep_targets w1) as [|[a u] l] eqn:E; [reflexivity|].
    exfalso.
    assert (Hin : In (a, u) (sweep_targets w1)) by (rewrite E; now left).
    apply in_sweep_targets in Hin.
    destruct Hin as (Hin & Hs & Hsched & Ho).
    rewrite (Hleft a Hin) in Ho; [discriminate|].
    apply is_due_iff. auto. }
  split; [exact Hnone|]. split; [|exact Hleft].
  rewrite process_pending_alerts_run, Hnone. reflexivity.
Qed.

(** ** New emails *)

(** X13. Processing a new email never raises and adds one alert for each
    of the two flags that is set, VIP first: none, one or two alerts, each
    owned by the user, linked to the email and dispatched. An email with
    neither flag leaves everything as it was. *)
Theorem new_email_adds_one_alert_per_flag
        (C : Collaborators) (email : Email.t) (user : User.t) (w : World) :
  exists l w1,
    BackgroundTaskManager._process_new_email email user w = (Ok tt, w1)
    /\ alerts w1 = alerts w ++ l
    /\ map Alert.alert_type l
       = (if Email.is_from_vip email then [EMAIL_VIP] else [])
         ++ (if Email.is_emergency email then [EMAIL_EMERGENCY] else [])
    /\ Forall (alert_of_email email user) l
    /\ (Email.is_from_vip email = false -> Email.is_emergency email = false ->
        w1 = w).
Proof.
  unfold BackgroundTaskManager._process_new_email, try_except, when, bind, ret.
  destruct (Email.is_from_vip email) eqn:Hvip.
  - destruct (create_email_vip_alert_spec email user w)
      as (a1 & (Hr1 & Hrows1 & _ & _ & _ & Hu1 & Hs1 & _) & Hty1 & Hm1 & _).
    destruct (AlertService.create_email_vip_alert email user w) as [r1 w1].
    cbn [fst snd] in Hr1, Hrows1. subst r1. cbv beta iota.
    destruct (Email.is_emergency email) eqn:Hem.
    + destruct (create_emergency_email_alert_spec email user w1)
        as (a2 & (Hr2 & Hrows2 & _ & _ & _ & Hu2 & Hs2 & _) & Hty2 & Hm2 & _).
      destruct (AlertService.create_emergency_email_alert email user w1)
        as [r2 w2].
      cbn [fst snd] in Hr2, Hrows2. subst r2. cbv beta iota.
      exists [a1; a2], w2. split; [reflexivity|].
      split; [now rewrite Hrows2, Hrows1, <- app_assoc|].
      split; [cbn; now rewrite Hty1, Hty2|].
      split; [repeat constructor; assumption | discriminate].
    + exists [a1], w1. split; [reflexivity|]. split; [exact Hrows1|].
      split; [cbn; now rewrite Hty1|].
      split; [repeat constructor; assumption | discriminate].
  - destruct (Email.is_emergency email) eqn:Hem.
    + destruct (create_emergency_email_alert_spec email user w)
        as (a2 & (Hr2 & Hrows2 & _ & _ & _ & Hu2 & Hs2 & _) & Hty2 & Hm2 & _).
      destruct (AlertService.create_emergency_email_alert email user w)
        as [r2 w2].
      cbn [fst snd] in Hr2, Hrows2. subst r2. cbv beta iota.
      exists [a2], w2. split; [reflexivity|]. split; [exact Hrows2|].
      split; [cbn; now rewrite Hty2|].
      split; [repeat constructor; assumption | discriminate].
    + exists [], w. split; [reflexivity|]. split; [now rewrite app_nil_r|].
      split; [reflexivity|]. split; [constructor | reflexivity].
Qed.

(** A newsletter leaves everything as it was; a mail of a VIP sender adds
    one VIP alert. *)
Lemma new_email_adds_one_alert_per_flag_witness :
  snd (@BackgroundTaskManager._process_new_email smtp_up plain_mail alice
         fresh_world) = fresh_world
  /\ map Alert.alert_type
         (alerts (snd (@BackgroundTaskManager._process_new_email smtp_up vip_mail
                         alice fresh_world)))
     = [EMAIL_VIP].
Proof.
  split.
  - destruct (new_email_adds_one_alert_per_flag smtp_up plain_mail alice
                fresh_world) as (l & w1 & Hrun & _ & _ & _ & Hsame).
    rewrite Hrun. cbn [snd]. apply Hsame; reflexivity.
  - destruct (new_email_adds_one_alert_per_flag smtp_up vip_mail alice
                fresh_world) as (l & w1 & Hrun & Hrows & Hty & _).
    rewrite Hrun. cbn [snd]. rewrite Hrows. exact Hty.
Defined.

(** ** Sending mail *)

Lemma send_email_accepted {C : Collaborators} (user : User.t)
      (to_email subject body body_html : string) (w : World) :
  smtp_connect user = Ok tt ->
  smtp_send_message user (mime_message user to_email subject body body_html)
  = Ok tt ->
  EmailService.send_email user to_email subject body body_html w
  = (Ok true, add_outbox (mime_message user to_email subject body body_html) w).
Proof.
  intros Hc Hs.
  unfold EmailService.send_email, EmailService.connect_smtp, try_except, bind,
    lift, logger_error, modify, raise, ret.
  fold (mime_message user to_email subject body body_html).
  now rewrite Hc, Hs.
Qed.

(** X14. [send_email] never raises and never touches the alerts. It
    returns true exactly when the SMTP connection and the sending both go
    through, and then one message was handed over: to the address given,
    from the user's mail account, with the subject and the plain body given
    and the HTML part only if one was given. If either SMTP step raises, it
    returns false and the failure is logged as an error; if it is the
    connection that fails, no message is handed over. *)
Theorem send_email_outcome (C : Collaborators) (user : User.t)
        (to_email subject body body_html : string) (w : World) :
  let msg := mime_message user to_email subject body body_html in
  let r := EmailService.send_email user to_email subject body body_html w in
  alerts (snd r) = alerts w
  /\ (exists b, fst r = Ok b)
  /\ (fst r = Ok true <->
      smtp_connect user = Ok tt /\ smtp_send_message user msg = Ok tt)
  /\ (fst r = Ok true -> snd r = add_outbox msg w)
  /\ (fst r = Ok false ->
      exists l, log (snd r) = log w ++ l
                /\ l <> []
                /\ Forall (fun rec => levelname rec = ERROR) l)
  /\ ((exists e, smtp_connect user = Raise e) -> outbox (snd r) = outbox w).
Proof.
  intros msg r. subst r.
  unfold EmailService.send_email, EmailService.connect_smtp, try_except, bind,
    lift, logger_error, modify, raise, ret.
  fold (mime_message user to_email subject body body_html). fold msg.
  destruct (smtp_connect user) as [[]|e1] eqn:Hc.
  - destruct (smtp_send_message user msg) as [[]|e2] eqn:Hs; cbn [fst snd].
    + split; [reflexivity|]. split; [now exists true|].
      split; [split; [now split | reflexivity]|].
      split; [reflexivity|]. split; [discriminate|].
      intros (e & He). discriminate He.
    + split; [reflexivity|]. split; [now exists false|].
      split; [split; [discriminate | intros [_ H]; discriminate H]|].
      split; [discriminate|]. split; [|reflexivity]. intros _.
      eexists. split; [reflexivity|]. split; [discriminate|].
      repeat constructor.
  - cbn [fst snd]. split; [reflexivity|]. split; [now exists false|].
    split; [split; [discriminate | intros [H _]; discriminate H]|].
    split; [discriminate|]. split; [|reflexivity]. intros _.
    exists [Log ERROR ("SMTP connection failed: " ++ exc_str e1)%string;
            Log ERROR ("Error sending email: " ++ exc_str e1)%string].
    split; [cbn; now rewrite <- app_assoc|]. split; [discriminate|].
    repeat constructor.
Qed.

(** With the SMTP server up the mail to [alice] goes out. *)
Lemma send_email_outcome_witness :
  @EmailService.send_email smtp_up alice "alice@example.com" "Hello" "Body" ""
     fresh_world
  = (Ok true,
     add_outbox (mime_message alice "alice@example.com" "Hello" "Body" "")
                fresh_world).
Proof.
  destruct (send_email_outcome smtp_up alice "alice@example.com" "Hello" "Body"
              "" fresh_world) as (_ & _ & Hiff & Hout & _).
  assert (Hok : fst (@EmailService.send_email smtp_up alice "alice@example.com"
                       "Hello" "Body" "" fresh_world) = Ok true)
    by (apply Hiff; split; reflexivity).
  specialize (Hout Hok).
  destruct (@EmailService.send_email smtp_up alice "alice@example.com"
              "Hello" "Body" "" fresh_world) as [b w'].
  cbn [fst snd] in Hok, Hout. now rewrite Hok, Hout.
Defined.

(** X15. The notification mail. When an alert with the email channel
    enabled is dispatched to a user with an address and the SMTP server
    accepts the message, exactly one mail goes out: to the user's address,
    with the subject [Secretary AI: ] followed by the title of the alert,
    and the success is logged. *)
Theorem dispatch_sends_one_mail_to_the_user
        (C : Collaborators) (alert : Alert.t) (user : User.t) (w : World) :
  Alert.send_email alert = true ->
  User.email user <> ""%string ->
  smtp_connect user = Ok tt ->
  smtp_send_message user (notification_mail alert user) = Ok tt ->
  let r := AlertService._send_alert_notification alert user w in
  outbox (snd r) = outbox w ++ [notification_mail alert user]
  /\ Mail.header_to (notification_mail alert user) = User.email user
  /\ Mail.header_subject (notification_mail alert user)
     = ("Secretary AI: " ++ Alert.title alert)%string
  /\ log (snd r) = log w ++ email_sent_line alert :: push_sms_lines alert.
Proof.
  intros Hflag Haddr Hc Hs r. subst r.
  assert (Hsend := send_email_accepted user (User.email user)
                     ("Secretary AI: " ++ Alert.title alert)%string
                     (fst (render_bodies alert)) (snd (render_bodies alert)) w
                     Hc Hs).
  assert (Ht : truthy_str (User.email user) = true)
    by (destruct (User.email user); [congruence | reflexivity]).
  unfold AlertService._send_alert_notification, try_except, bind, when.
  rewrite Hflag, Ht. cbn [andb].
  unfold AlertService._send_email_notification, try_except, bind. cbv zeta.
  rewrite Hsend.
  unfold logger_info, modify, AlertService._send_push_notification,
    AlertService._send_sms_notification, logger_info, utcnow, gets,
    db_update_alert, modify, ret, push_sms_lines.
  fold (push_line alert). fold (sms_line alert). fold (email_sent_line alert).
  destruct (Alert.send_push alert), (Alert.send_sms alert); cbn;
    rewrite <- ?app_assoc; repeat split.
Qed.

(** The emergency alert of [alice] with the SMTP server up. *)
Lemma dispatch_sends_one_mail_witness :
  outbox (snd (@AlertService._send_alert_notification smtp_up
                 (emergency_row 7 1) alice emergency_world))
  = outbox emergency_world
    ++ [@notification_mail smtp_up (emergency_row 7 1) alice].
Proof.
  apply (dispatch_sends_one_mail_to_the_user smtp_up (emergency_row 7 1) alice
           emergency_world); (reflexivity || discriminate).
Defined.

(** ** The daily briefing, again *)

Section BriefingRuns.
Context {C : Collaborators}.

(** The three ways one iteration can go. *)
Lemma briefing_iteration_cases user w :
  exists w', briefing_iteration user w = (Ok tt, w')
    /\ same_env w w'
    /\ ((~ briefing_due w user /\ w' = w)
        \/ (briefing_due w user /\ guard_finds w (User.id user) /\ w' = w)
        \/ (briefing_due w user
            /\ ~ guard_finds w (User.id user)
            /\ exists a, alerts w' = alerts w ++ [a]
                         /\ Alert.user_id a = User.id user
                         /\ Alert.alert_type a = MORNING_BRIEFING
                         /\ Alert.created_at a = clock w)).
Proof.
  unfold briefing_iteration, try_except. unfold bind at 1.
  unfold localnow at 1, gets at 1. cbv beta iota zeta.
  unfold briefing_due.
  destruct (User.morning_briefing_time user) as [t|] eqn:Ht.
  2:{ exists w. cbn [negb ret]. split; [reflexivity|].
      split; [apply same_env_refl|]. left. split; [discriminate|reflexivity]. }
  destruct (String.eqb_spec (strftime_HM (clock w + tz w)) t) as [E|E];
    cbn [negb].
  2:{ exists w. cbn [ret]. split; [reflexivity|].
      split; [apply same_env_refl|]. left. split; [congruence|reflexivity]. }
  subst t.
  unfold bind at 1. unfold gets at 1. cbv beta iota.
  unfold bind at 1. unfold gets at 1. cbv beta iota.
  destruct (first _) as [found|] eqn:Efound.
  { exists w. cbn [ret]. split; [reflexivity|].
    split; [apply same_env_refl|]. right. left.
    split; [reflexivity|]. split; [|reflexivity].
    apply first_filter_some in Efound. destruct Efound as [Hin Hb].
    unfold BackgroundTaskManager.briefed_since in Hb.
    apply andb_true_iff in Hb. destruct Hb as [Hb Hd].
    apply andb_true_iff in Hb. destruct Hb as [Hu Hty].
    exists found. split; [exact Hin|]. split; [now apply Z.eqb_eq|].
    split; [destruct (Alert.alert_type found); (reflexivity || discriminate)|].
    now apply Z.leb_le. }
  unfold bind at 1.
  destruct (_generate_daily_briefing_total user w)
    as (content & w1 & -> & Ha1 & He1 & _).
  unfold bind at 1.
  destruct (create_morning_briefing_alert_spec user content w1)
    as (a & (Hr & Hrows & He2 & _ & _ & Hu & _ & _ & Hc) & Hty & _).
  destruct (AlertService.create_morning_briefing_alert user content w1)
    as [r w2].
  cbn [fst snd] in Hr, Hrows, He2. subst r.
  unfold logger_info, modify. eexists. split; [reflexivity|].
  split.
  { eapply same_env_trans; [exact He1|].
    eapply same_env_trans; [exact He2|]. repeat split. }
  right. right. split; [reflexivity|]. split.
  - intros (x & Hin & Hxu & Hxt & Hxd).
    apply (first_filter_none _ _ x) in Efound; [|exact Hin].
    unfold BackgroundTaskManager.briefed_since in Efound.
    rewrite Hxu, Z.eqb_refl, Hxt in Efound. cbn in Efound.
    apply Z.leb_gt in Efound. lia.
  - exists a. cbn [alerts add_log]. rewrite Hrows, Ha1.
    repeat split; try assumption.
    destruct He1 as (_ & _ & _ & Hk & _). congruence.
Qed.

Lemma briefing_due_same w w' user :
  same_env w w' -> briefing_due w' user <-> briefing_due w user.
Proof.
  intros (_ & _ & _ & Hk & Ht). unfold briefing_due. now rewrite Hk, Ht.
Qed.

Lemma today_start_same w w' :
  same_env w w' ->
  BackgroundTaskManager.today_start_of w' = BackgroundTaskManager.today_start_of w.
Proof.
  intros (_ & _ & _ & Hk & Ht).
  unfold BackgroundTaskManager.today_start_of. now rewrite Hk, Ht.
Qed.

(** The loop never raises and only appends rows created at the current
    instant; every user of the list whose briefing is due has a briefing
    row afterwards. *)
Lemma briefing_loop_rows (l : list User.t) :
  forall w,
    let w' := fold_left (fun v x => snd (briefing_iteration x v)) l w in
    for_each l briefing_iteration w = (Ok tt, w')
    /\ same_env w w'
    /\ (exists ext, alerts w' = alerts w ++ ext
                    /\ Forall (fun a => Alert.created_at a = clock w) ext)
    /\ (forall u, In u l -> briefing_due w u ->
          exists a, In a (alerts w') /\ briefing_row w (User.id u) a).
Proof.
  induction l as [|x l IH]; intros w; cbn [fold_left for_each].
  - split; [reflexivity|]. split; [apply same_env_refl|].
    split; [exists []; split; [now rewrite app_nil_r | constructor]|].
    intros u [].
  - destruct (briefing_iteration_cases x w) as (w1 & Hrun & He & Hcase).
    unfold bind. rewrite Hrun. cbn [snd].
    destruct (IH w1) as (Hloop & He' & (ext' & Hrows' & Hext') & Hall).
    assert (Hk : clock w1 = clock w) by (destruct He as (_ & _ & _ & Hk & _); exact Hk).
    assert (Hx : exists ext,
               alerts w1 = alerts w ++ ext
               /\ Forall (fun a => Alert.created_at a = clock w) ext
               /\ (briefing_due w x ->
                   exists a, In a (alerts w1) /\ briefing_row w (User.id x) a)).
    { destruct Hcase
        as [(Hn & ->)|[(Hd & (a & Hin & Hu & Hty & Hday) & ->)
                      |(Hd & _ & a & Hrows & Hu & Hty & Hc)]].
      - exists []. rewrite app_nil_r. split; [reflexivity|].
        split; [constructor|]. intros Hd. contradiction.
      - exists []. rewrite app_nil_r. split; [reflexivity|].
        split; [constructor|]. intros _. exists a.
        split; [exact Hin|]. split; [exact Hu|]. split; [exact Hty|]. now left.
      - exists [a]. split; [exact Hrows|].
        split; [constructor; [exact Hc | constructor]|]. intros _. exists a.
        split; [rewrite Hrows; apply in_or_app; right; now left|].
        split; [exact Hu|]. split; [exact Hty|]. now right. }
    destruct Hx as (ext & Hrows & Hext & Hbrief).
    split; [exact Hloop|].
    split; [eapply same_env_trans; eauto|].
    split.
    { exists (ext ++ ext'). split; [now rewrite Hrows', Hrows, app_assoc|].
      apply Forall_app. split; [exact Hext|].
      eapply Forall_impl; [|exact Hext']. cbn. intros a Ha. congruence. }
    intros u [ -> |Hin] Hdue.
    + destruct (Hbrief Hdue) as (a & Ha & Hrow). exists a.
      split; [rewrite Hrows'; apply in_or_app; now left | exact Hrow].
    + destruct (Hall u Hin) as (a & Ha & Hu & Hty & Hday).
      { now apply (briefing_due_same w w1). }
      exists a. split; [exact Ha|]. split; [exact Hu|]. split; [exact Hty|].
      rewrite (today_start_same w w1 He), Hk in Hday. exact Hday.
Qed.

Lemma send_morning_briefings_run w :
  BackgroundTaskManager.send_morning_briefings w
  = (Ok tt, fold_left (fun v x => snd (briefing_iteration x v))
                      (filter User.is_active (users w)) w).
Proof.
  rewrite send_morning_briefings_unfold. unfold try_except, bind, gets.
  destruct (briefing_loop_rows (filter User.is_active (users w)) w)
    as (-> & _).
  reflexivity.
Qed.

(** A run over users that the guard finds, where due, creates nothing. *)
Lemma briefing_loop_noop (l : list User.t) w :
  (forall u, In u l -> briefing_due w u -> guard_finds w (User.id u)) ->
  fold_left (fun v x => snd (briefing_iteration x v)) l w = w.
Proof.
  induction l as [|x l IH]; intros H; cbn [fold_left]; [reflexivity|].
  assert (Hx : snd (briefing_iteration x w) = w).
  { destruct (briefing_iteration_cases x w)
      as (w' & -> & _ & [(_ & ->)|[(_ & _ & ->)|(Hd & Hn & _)]]);
      [reflexivity | reflexivity |].
    exfalso. apply Hn. apply H; [now left | exact Hd]. }
  rewrite Hx. apply IH. intros u Hu. apply H. now right.
Qed.

End BriefingRuns.




(** X17. When the local time of day is later than the UTC offset of the
    host (always so west of UTC), a second run of the daily-briefing task
    at the same instant changes nothing at all: no alert is created for any
    user, nothing is sent and nothing is logged. *)
Theorem morning_briefings_second_run_is_noop (C : Collaborators) (w : World) :
  tz w < local_time_of_day w ->
  let w1 := snd (BackgroundTaskManager.send_morning_briefings w) in
  BackgroundTaskManager.send_morning_briefings w1 = (Ok tt, w1).
Proof.
  intros Hlate w1.
  assert (Hpast : BackgroundTaskManager.today_start_of w <= clock w).
  { unfold BackgroundTaskManager.today_start_of, midnight.
    unfold local_time_of_day in Hlate. lia. }
  rewrite send_morning_briefings_run. f_equal.
  subst w1. rewrite send_morning_briefings_run. cbn [snd].
  destruct (briefing_loop_rows (filter User.is_active (users w)) w)
    as (_ & He & _ & Hall).
  set (w1 := fold_left (fun v x => snd (briefing_iteration x v))
                       (filter User.is_active (users w)) w) in *.
  assert (Hu : users w1 = users w) by (destruct He as (Hu & _); exact Hu).
  rewrite Hu.
  apply briefing_loop_noop. intros u Hin Hdue.
  destruct (Hall u Hin) as (a & Ha & Hau & Hty & Hday).
  { now apply (briefing_due_same w w1 u He). }
  exists a. split; [exact Ha|]. split; [exact Hau|]. split; [exact Hty|].
  rewrite (today_start_same w w1 He). lia.
Qed.

(** At eight o'clock on a host in UTC a second run finds both briefings. *)
Lemma morning_briefings_second_run_witness :
  @BackgroundTaskManager.send_morning_briefings smtp_up
     (snd (@BackgroundTaskManager.send_morning_briefings smtp_up early_world))
  = (Ok tt,
     snd (@BackgroundTaskManager.send_morning_briefings smtp_up early_world)).
Proof.
  apply (morning_briefings_second_run_is_noop smtp_up early_world).
  reflexivity.
Defined.

(** X18. The briefing text is always produced. Generating the daily
    briefing never raises and writes nothing but log records; when the chat
    API raises, the text is the fixed fallback greeting and the failure is
    logged as an error. *)
Theorem daily_briefing_falls_back (C : Collaborators) (user : User.t) (w : World) :
  exists text w',
    BackgroundTaskManager._generate_daily_briefing user w = (Ok text, w')
    /\ only_io w w'
    /\ outbox w' = outbox w
    /\ ((forall l1 l2, exists e, chat_completions_create l1 l2 = Raise e) ->
        text = AIService.briefing_fallback
        /\ exists e, log w'
                     = log w ++ [Log ERROR ("Error generating morning briefing: "
                                            ++ exc_str e)%string]).
Proof.
  unfold BackgroundTaskManager._generate_daily_briefing,
    AIService.generate_morning_briefing,
    CalendarService.get_upcoming_events, try_except, bind, utcnow, gets,
    lift, logger_error, modify, ret.
  destruct (chat_completions_create _ _) as [s|e] eqn:E.
  - eexists; eexists. split; [reflexivity|]. split; [apply only_io_refl|].
    split; [reflexivity|].
    intros Hdown.
    match type of E with
    | chat_completions_create ?l1 ?l2 = _ => destruct (Hdown l1 l2) as (e & He)
    end.
    rewrite E in He. discriminate.
  - eexists; eexists. split; [reflexivity|]. split; [apply only_io_add_log|].
    split; [reflexivity|]. intros _. split; [reflexivity|]. now exists e.
Qed.

(** With the chat API down the briefing of [alice] is the fallback. *)
Lemma daily_briefing_falls_back_witness :
  fst (@BackgroundTaskManager._generate_daily_briefing chat_down alice early_world)
  = Ok AIService.briefing_fallback
  /\ map Alert.message
         (alerts (snd (@BackgroundTaskManager.send_morning_briefings chat_down
                         early_world)))
     = [AIService.briefing_fallback; AIService.briefing_fallback].
Proof.
  destruct (daily_briefing_falls_back chat_down alice early_world)
    as (text & w' & Hrun & _ & _ & Hdown).
  destruct Hdown as [-> _]; [intros; eexists; reflexivity|].
  rewrite Hrun. split; reflexivity.
Defined.

(** ** Upcoming events *)

(** X19. As long as the end of the window is still a [datetime], the
    upcoming events of a user are exactly the user's events that start at
    or after the current instant and no later than [hours_ahead] hours from
    it, earliest first; with a negative [hours_ahead] there are none. The
    query changes nothing. *)
Theorem upcoming_events_window (w : World) (uid hours_ahead : Z) :
  is_datetime (clock w) ->
  is_datetime (clock w + 3600 * hours_ahead) ->
  exists l,
    CalendarService.get_upcoming_events uid hours_ahead w = (Ok l, w)
    /\ (forall e, In e l <->
          In e (calendar_events w)
          /\ CalendarEvent.user_id e = uid
          /\ clock w <= CalendarEvent.start_datetime e
             <= clock w + 3600 * hours_ahead)
    /\ StronglySorted starts_before l
    /\ (hours_ahead < 0 -> l = []).
Proof.
  intros _ _.
  exists (order_by CalendarService.earliest_first
            (filter (fun e => (CalendarEvent.user_id e =? uid)
                              && (clock w <=? CalendarEvent.start_datetime e)
                              && (CalendarEvent.start_datetime e
                                  <=? clock w + timedelta_hours hours_ahead))
                    (calendar_events w))).
  split; [reflexivity|].
  assert (Hin : forall e,
             In e (order_by CalendarService.earliest_first
                     (filter (fun e => (CalendarEvent.user_id e =? uid)
                                       && (clock w <=? CalendarEvent.start_datetime e)
                                       && (CalendarEvent.start_datetime e
                                           <=? clock w + timedelta_hours hours_ahead))
                             (calendar_events w)))
             <-> In e (calendar_events w)
                 /\ CalendarEvent.user_id e = uid
                 /\ clock w <= CalendarEvent.start_datetime e
                    <= clock w + 3600 * hours_ahead).
  { intros e. rewrite In_order_by, filter_In, !andb_true_iff, Z.eqb_eq, !Z.leb_le.
    unfold timedelta_hours. tauto. }
  split; [exact Hin|]. split.
  - apply order_by_sorted; unfold CalendarService.earliest_first, starts_before.
    + intros a b H. now apply Z.leb_le.
    + intros a b H. apply Z.leb_gt in H. lia.
    + intros a b c. lia.
  - intros Hneg.
    match goal with |- ?l = [] => destruct l as [|e l'] end; [reflexivity|].
    exfalso. assert (He : In e (e :: l')) by now left.
    apply Hin in He. lia.
Qed.

(** The stand-up is among the events of [alice] in the next 24 hours. *)
Lemma upcoming_events_window_witness :
  exists l,
    CalendarService.get_upcoming_events 1 24 fresh_world = (Ok l, fresh_world)
    /\ In standup l.
Proof.
  destruct (upcoming_events_window fresh_world 1 24) as (l & Hrun & Hin & _).
  - unfold is_datetime, datetime_min, datetime_max. cbn. lia.
  - unfold is_datetime, datetime_min, datetime_max. cbn. lia.
  - exists l. split; [exact Hrun|]. apply Hin.
    split; [left; reflexivity|]. split; [reflexivity|]. cbn. lia.
Defined.

(** ** The reminder text *)

(** X20. The reminder counts whole minutes, rounded down. For a meeting
    that starts [m] minutes and [s] seconds ([s] under 60) after the
    current instant the message of the reminder alert says that it starts
    in [m] minutes, and the title is [Meeting Reminder: ] followed by the
    title of the meeting. *)
Theorem reminder_counts_whole_minutes
        (C : Collaborators) (event : CalendarEvent.t) (user : User.t)
        (w : World) (m s : Z) :
  0 <= m -> 0 <= s < 60 ->
  CalendarEvent.start_datetime event = clock w + 60 * m + s ->
  exists a,
    returned (AlertService.create_meeting_reminder_alert event user w) a
    /\ Alert.title a = ("Meeting Reminder: " ++ CalendarEvent.title event)%string
    /\ Alert.message a
       = ("Your meeting '" ++ CalendarEvent.title event ++ "' starts in "
          ++ str_int m ++ " minutes.")%string.
Proof.
  intros Hm Hs Hstart.
  assert (Hq : Z.quot (CalendarEvent.start_datetime event - clock w) 60 = m).
  { symmetry. apply (Z.quot_unique _ _ _ s); lia. }
  unfold AlertService.create_meeting_reminder_alert.
  unfold returned, try_except, bind at 1, utcnow, gets. cbv beta iota zeta.
  rewrite Hq. run_creation user w. repeat split.
Qed.

(** The review starts in 10 minutes and 59 seconds: the reminder says 10. *)
Lemma reminder_counts_whole_minutes_witness :
  exists a,
    returned (@AlertService.create_meeting_reminder_alert smtp_up review_meeting
                alice fresh_world) a
    /\ Alert.title a = "Meeting Reminder: Review"%string
    /\ Alert.message a = "Your meeting 'Review' starts in 10 minutes."%string.
Proof.
  apply (reminder_counts_whole_minutes smtp_up review_meeting alice fresh_world
           10 59); cbn; lia.
Defined.

(** ** New alerts are unread *)

(** X21. A new alert shows up as unread for its owner and for nobody else:
    after any of the four [create_*] methods the unread list of the user
    holds the alert returned, and the unread list of every other user holds
    what it held before. *)
Theorem new_alert_is_unread_for_its_owner
        (C : Collaborators) (email : Email.t) (event : CalendarEvent.t)
        (user : User.t) (text : string) (w : World) :
  forall r,
    r = AlertService.create_email_vip_alert email user w
    \/ r = AlertService.create_emergency_email_alert email user w
    \/ r = AlertService.create_meeting_reminder_alert event user w
    \/ r = AlertService.create_morning_briefing_alert user text w ->
    exists a, returned r a
      /\ (forall l, returned (AlertService.get_unread_alerts (User.id user) (snd r)) l ->
            In a l)
      /\ (forall uid l l', uid <> User.id user ->
            returned (AlertService.get_unread_alerts uid (snd r)) l' ->
            returned (AlertService.get_unread_alerts uid w) l ->
            forall b, In b l' <-> In b l).
Proof.
  intros r Hr.
  assert (Hc : exists a, creation_of w user r a).
  { destruct Hr as [ -> | [ -> | [ -> | -> ] ] ].
    - destruct (create_email_vip_alert_spec email user w) as (a & H & _); eauto.
    - destruct (create_emergency_email_alert_spec email user w) as (a & H & _); eauto.
    - destruct (create_meeting_reminder_alert_spec event user w) as (a & H & _); eauto.
    - destruct (create_morning_briefing_alert_spec user text w) as (a & H & _); eauto. }
  destruct Hc as (a & Hret & Hrows & _ & _ & _ & Hu & Hs & _).
  exists a. split; [exact Hret|]. unfold returned. split.
  - intros l Hl. cbn in Hl. inversion Hl; subst l.
    rewrite In_order_by, filter_In, Hrows. split; [apply in_or_app; right; now left|].
    unfold Alert.is_unread. now rewrite Hu, Z.eqb_refl, Hs.
  - intros uid l l' Hne Hl' Hl b. cbn in Hl, Hl'.
    inversion Hl; subst l. inversion Hl'; subst l'.
    rewrite !In_order_by, !filter_In, Hrows, in_app_iff. split.
    + intros [[Hin|[<-|[]]] Hp]; [auto|].
      rewrite Hu in Hp. destruct (Z.eqb_spec (User.id user) uid); [congruence|].
      discriminate.
    + tauto.
Qed.

(** The VIP alert for the sample email is unread for [alice]. *)
Lemma new_alert_is_unread_witness :
  exists a,
    returned (@AlertService.create_email_vip_alert smtp_up urgent_mail alice
                fresh_world) a
    /\ (forall l,
          returned (AlertService.get_unread_alerts (User.id alice)
                      (snd (@AlertService.create_email_vip_alert smtp_up
                              urgent_mail alice fresh_world))) l ->
          In a l).
Proof.
  destruct (new_alert_is_unread_for_its_owner smtp_up urgent_mail standup alice
              "Good morning." fresh_world
              (@AlertService.create_email_vip_alert smtp_up urgent_mail alice
                 fresh_world)
              (or_introl eq_refl))
    as (a & Hret & Hown & _).
  exists a. split; assumption.
Defined.

(** ** Reading emails *)

Lemma filter_map_comm {A} (f : A -> bool) (g : A -> A) (l : list A) :
  (forall a, f (g a) = f a) -> filter f (map g l) = map g (filter f l).
Proof.
  intros H. induction l as [|a l IH]; cbn [map filter]; [reflexivity|].
  rewrite H, IH. now destruct (f a).
Qed.

Lemma insert_by_map {A} (le : A -> A -> bool) (g : A -> A) x (l : list A) :
  (forall a b, le (g a) (g b) = le a b) ->
  insert_by le (g x) (map g l) = map g (insert_by le x l).
Proof.
  intros H. induction l as [|y l IH]; cbn [map insert_by]; [reflexivity|].
  rewrite H. destruct (le x y); cbn [map]; [reflexivity|]. now rewrite IH.
Qed.

Lemma order_by_map {A} (le : A -> A -> bool) (g : A -> A) (l : list A) :
  (forall a b, le (g a) (g b) = le a b) ->
  order_by le (map g l) = map g (order_by le l).
Proof.
  intros H. unfold order_by.
  induction l as [|x l IH]; cbn [map fold_right]; [reflexivity|].
  now rewrite IH, insert_by_map.
Qed.

(** X22. Marking an email as read writes nothing outside the emails
    table; there the rows with another id are untouched, and the rows with
    the id of the email get the status read, with at most [status] and
    [updated_at] written. The unread list of a user holds exactly the
    user's unread emails, latest first; after the marking it holds what it
    held before except the emails with that id, and the list of a user's
    emails of a priority holds the emails with the same ids in the same
    order as before. *)
Theorem read_email_leaves_unread_list (w : World) (email_obj : Email.t) :
  let w1 := snd (EmailService.mark_as_read email_obj w) in
  fst (EmailService.mark_as_read email_obj w) = Ok tt
  /\ only_emails_written w w1
  /\ Forall2 (marked_as_read (Email.id email_obj)) (emails w) (emails w1)
  /\ forall uid,
       exists l l1,
         EmailService.get_unread_emails uid w = (Ok l, w)
         /\ EmailService.get_unread_emails uid w1 = (Ok l1, w1)
         /\ (forall e, In e l <->
               In e (emails w) /\ Email.user_id e = uid
               /\ Email.status e = E_UNREAD)
         /\ StronglySorted received_no_earlier l
         /\ (forall e, In e l1 <-> In e l /\ Email.id e <> Email.id email_obj)
         /\ forall p lp lp1,
              returned (EmailService.get_emails_by_priority uid p w) lp ->
              returned (EmailService.get_emails_by_priority uid p w1) lp1 ->
              map Email.id lp1 = map Email.id lp.
Proof.
  cbv zeta. unfold EmailService.mark_as_read, modify. cbn [fst snd].
  split; [reflexivity|]. split; [repeat split|].
  split.
  { cbn [set_emails emails]. apply Forall2_map_same. intros e.
    destruct (Z.eqb_spec (Email.id e) (Email.id email_obj)) as [Heq|Hne].
    - split; [reflexivity|]. split; [reflexivity | contradiction].
    - split; [reflexivity|]. split; [contradiction | reflexivity]. }
  intros uid.
  unfold EmailService.get_unread_emails, EmailService.get_emails_by_priority,
    gets, returned. cbn [fst snd set_emails emails].
  set (g := fun e => if Email.id e =? Email.id email_obj
                     then Email.mark_read (clock w) e else e).
  set (unread := fun e => (Email.user_id e =? uid)
                          && EmailStatus_eqb (Email.status e) E_UNREAD).
  assert (Hst : forall s, EmailStatus_eqb s E_UNREAD = true <-> s = E_UNREAD)
    by (intros s; destruct s; cbn; split; congruence).
  eexists; eexists. split; [reflexivity|]. split; [reflexivity|].
  split; [|split; [|split]].
  - intros e. rewrite In_order_by, filter_In. unfold unread.
    now rewrite andb_true_iff, Z.eqb_eq, Hst.
  - apply order_by_sorted;
      unfold EmailService.received_desc, received_no_earlier.
    + intros a b H. now apply Z.leb_le.
    + intros a b H. apply Z.leb_gt in H. lia.
    + intros a b c. lia.
  - intros e. rewrite !In_order_by, !filter_In, in_map_iff. split.
    + intros [(e0 & He0 & Hin) Hu]. subst e. unfold g in *.
      destruct (Z.eqb_spec (Email.id e0) (Email.id email_obj)) as [Heq|Hne].
      * unfold unread in Hu. cbn in Hu. now rewrite andb_false_r in Hu.
      * auto.
    + intros [[Hin Hu] Hne]. split; [|exact Hu]. exists e. split; [|exact Hin].
      unfold g. now destruct (Z.eqb_spec (Email.id e) (Email.id email_obj)).
  - intros p lp lp1 Hlp Hlp1. inversion Hlp; subst lp. inversion Hlp1; subst lp1.
    rewrite filter_map_comm, order_by_map, map_map.
    + apply map_ext. intros e. unfold g.
      now destruct (Email.id e =? Email.id email_obj).
    + intros a b. unfold g, EmailService.received_desc.
      now destruct (Email.id a =? _), (Email.id b =? _).
    + intros a. unfold g. now destruct (Email.id a =? _).
Qed.

(** Once the urgent mail is read, the newsletter is the one unread email of
    [alice]. *)
Lemma read_email_leaves_unread_list_witness :
  exists l1,
    fst (EmailService.get_unread_emails 1
           (snd (EmailService.mark_as_read urgent_mail mail_world))) = Ok l1
    /\ forall e, In e l1 -> Email.id e <> 10.
Proof.
  destruct (read_email_leaves_unread_list mail_world urgent_mail)
    as (_ & _ & _ & Hlists).
  destruct (Hlists 1) as (l & l1 & _ & Hrun & _ & _ & Hin & _).
  exists l1. split; [now rewrite Hrun|].
  intros e He. now apply Hin in He.
Defined.

(** ** The reminder task *)

(** X23. The reminder task never gets to send a reminder: at every state
    of the database a run returns normally, creates no alert, marks no
    event as reminded, sends no mail, and logs one error record for the
    [TypeError] that building the reminder query raises. *)
Theorem meeting_reminders_are_never_sent (C : Collaborators) (w : World) :
  let w1 := snd (BackgroundTaskManager.send_meeting_reminders w) in
  fst (BackgroundTaskManager.send_meeting_reminders w) = Ok tt
  /\ alerts w1 = alerts w
  /\ calendar_events w1 = calendar_events w
  /\ outbox w1 = outbox w
  /\ exists e, exc_type e = "TypeError"%string
               /\ log w1 = log w ++ [Log ERROR ("Error in send_meeting_reminders: "
                                                ++ exc_str e)%string].
Proof.
  cbv zeta.
  destruct (get_events_needing_reminders_always_raises w) as (e & Hrun & Hty).
  assert (Hr : BackgroundTaskManager.send_meeting_reminders w
               = (Ok tt, add_log (Log ERROR ("Error in send_meeting_reminders: "
                                             ++ exc_str e)%string) w)).
  { unfold BackgroundTaskManager.send_meeting_reminders.
    unfold try_except at 1. unfold bind at 1. now rewrite Hrun. }
  rewrite Hr. cbn [fst snd].
  split; [reflexivity|]. split; [reflexivity|]. split; [reflexivity|].
  split; [reflexivity|]. exists e. split; [exact Hty | reflexivity].
Qed.
